(** * Verification of the yfinance bridge scripts

    Two standalone Python scripts are embedded here:

    - [backend/services/market-data/python/yfinance_fetcher.py]
      (module [Fetcher]);
    - [backend/services/price-history/python/yfinance_history_fetcher.py]
      (module [HistoryFetcher]).

    Both read one JSON request on stdin, query the [yfinance] package and
    write one JSON response on stdout.  Module [Py] models the fragment of
    the Python runtime the scripts rely on: text as sequences of code
    points, dynamically typed values with subclass instances, exceptions,
    duck-typed attribute probing, [str], [bool], [int], [float],
    [datetime], the [json] encoder and the two standard streams. *)

From Stdlib Require Import ZArith NArith List String Ascii Bool Lia.
From Stdlib Require Import Strings.Byte Floats.SpecFloat Numbers.DecimalString.
Import ListNotations.

#[local] Open Scope Z_scope.

(* ===================================================================== *)
(** * The Python runtime *)
(* ===================================================================== *)

Module Py.

(** ** Text *)

(** A [str]: a sequence of Unicode code points, lone surrogates
    included. *)
Inductive str : Set :=
| EmptyStr
| Char (c : N) (s : str).

(** String literals denote the [str] of their (ASCII) characters. *)
Fixpoint str_of_bytes (l : list Byte.byte) : option str :=
  match l with
  | [] => Some EmptyStr
  | b :: l' =>
      if (Byte.to_N b <? 128)%N
      then option_map (Char (Byte.to_N b)) (str_of_bytes l')
      else None
  end.

Fixpoint bytes_of_str (s : str) : option (list Byte.byte) :=
  match s with
  | EmptyStr => Some []
  | Char c s' =>
      if (c <? 128)%N then
        match Byte.of_N c, bytes_of_str s' with
        | Some b, Some l => Some (b :: l)
        | _, _ => None
        end
      else None
  end.

Declare Scope str_scope.
Delimit Scope str_scope with str.
Bind Scope str_scope with str.
String Notation str str_of_bytes bytes_of_str : str_scope.
#[local] Open Scope str_scope.

Fixpoint str_append (a b : str) : str :=
  match a with
  | EmptyStr => b
  | Char c a' => Char c (str_append a' b)
  end.
Notation "a ++ b" := (str_append a b) : str_scope.

(** [len(s)] *)
Fixpoint str_length (s : str) : nat :=
  match s with
  | EmptyStr => O
  | Char _ s' => S (str_length s')
  end.

(** [a == b] *)
Fixpoint str_eqb (a b : str) : bool :=
  match a, b with
  | EmptyStr, EmptyStr => true
  | Char c a', Char d b' => (c =? d)%N && str_eqb a' b'
  | _, _ => false
  end.

(** The [str] of an ASCII text of the standard library. *)
Fixpoint of_string (s : string) : str :=
  match s with
  | EmptyString => EmptyStr
  | String c s' => Char (N_of_ascii c) (of_string s')
  end.

(** [str.isspace] on one character: the code points Unicode classes as
    whitespace (bidirectional type WS, B or S, or category Zs). *)
Definition isspace (c : N) : bool :=
  (((9 <=? c) && (c <=? 13)) || ((28 <=? c) && (c <=? 32))
   || (c =? 133) || (c =? 160) || (c =? 5760)
   || ((8192 <=? c) && (c <=? 8202))
   || (c =? 8232) || (c =? 8233) || (c =? 8239) || (c =? 8287)
   || (c =? 12288))%N.

Fixpoint lstrip (s : str) : str :=
  match s with
  | EmptyStr => EmptyStr
  | Char c s' => if isspace c then lstrip s' else s
  end.

Fixpoint rstrip (s : str) : str :=
  match s with
  | EmptyStr => EmptyStr
  | Char c s' =>
      match rstrip s' with
      | EmptyStr => if isspace c then EmptyStr else Char c EmptyStr
      | r => Char c r
      end
  end.

(** [s.strip()] *)
Definition strip (s : str) : str := rstrip (lstrip s).

(** [not s] for a string *)
Definition str_is_empty (s : str) : bool :=
  match s with EmptyStr => true | _ => false end.

(** [s[:n]]: the first [n] characters. *)
Fixpoint str_prefix (n : nat) (s : str) : str :=
  match n, s with
  | S n', Char c s' => Char c (str_prefix n' s')
  | _, _ => EmptyStr
  end.

(** The decimal text of an integer. *)
Definition str_of_int (n : Z) : str :=
  of_string (NilZero.string_of_int (Z.to_int n)).

Fixpoint zeros (n : nat) : str :=
  match n with O => EmptyStr | S n' => Char 48 (zeros n') end.

(** ["%0<width>d" % n] for a non-negative [n] *)
Definition zpad (width : nat) (n : Z) : str :=
  let digits := str_of_int n in
  zeros (width - str_length digits) ++ digits.

(** ** Exceptions and fallible computations *)

(** An exception instance: its class name and [str(error)]. *)
Record exn := Exn { exn_type : str; exn_msg : str }.

Inductive result (A : Type) : Type :=
| Ok (a : A)
| Raise (e : exn).
Arguments Ok {A} a.
Arguments Raise {A} e.

Definition bind {A B} (m : result A) (k : A -> result B) : result B :=
  match m with
  | Ok a => k a
  | Raise e => Raise e
  end.

Declare Scope py_scope.
Delimit Scope py_scope with py.
Notation "x <- m ;; k" := (bind m (fun x => k))
  (at level 61, m at next level, right associativity) : py_scope.

(** The outcome of looking an attribute up on an object and, for a method,
    of calling it the way the scripts call it: the attribute does not exist
    ([hasattr] is false, plain access raises [AttributeError]), evaluating
    it raises, or it yields a value. *)
Inductive attr (A : Type) : Type :=
| Absent
| Raises (e : exn)
| Returns (a : A).
Arguments Absent {A}.
Arguments Raises {A} e.
Arguments Returns {A} a.

Definition hasattr {A} (a : attr A) : bool :=
  match a with Absent => false | _ => true end.

Definition AttributeError (name : str) : exn :=
  Exn "AttributeError" ("object has no attribute '" ++ name ++ "'").

(** [obj.name] / [obj.name()] outside of any [hasattr] guard.  The text
    of the [AttributeError], which in Python also names the type of the
    object, is never looked at: the scripts make such an access only
    where the exception is discarded. *)
Definition access {A} (name : str) (a : attr A) : result A :=
  match a with
  | Absent => Raise (AttributeError name)
  | Raises e => Raise e
  | Returns x => Ok x
  end.

(** [getattr(obj, name, default)]: only the missing attribute is replaced
    by the default, any other exception propagates. *)
Definition getattr {A} (a : attr A) (default : A) : result A :=
  match a with
  | Absent => Ok default
  | Raises e => Raise e
  | Returns x => Ok x
  end.

(** ** Dates *)

Record date := Date { year : Z; month : Z; day : Z }.

(** A [datetime.datetime]; [tzinfo] is the UTC offset in seconds of an
    aware value and [None] for a naive one. *)
Record datetime := DateTime {
  dt_date : date;
  hour : Z; minute : Z; second : Z; microsecond : Z;
  tzinfo : option Z
}.

(** ** Values *)

(** The built-in type an object is an instance of by subclassing, with
    the built-in value it holds: [numpy.float64] is a [float],
    [pandas.Timestamp] a [datetime], [collections.OrderedDict] a
    [dict].  ([bool] and [NoneType] cannot be subclassed.) *)
Inductive base (V : Type) : Type :=
| BInt (n : Z)
| BFloat (x : spec_float)
| BComplex (re im : spec_float)
| BStr (s : str)
| BDate (d : date)
| BDateTime (d : datetime)
| BDict (items : list (V * V))
| BList (xs : list V)
| BTuple (xs : list V).
Arguments BInt {V} n.
Arguments BFloat {V} x.
Arguments BComplex {V} re im.
Arguments BStr {V} s.
Arguments BDate {V} d.
Arguments BDateTime {V} d.
Arguments BDict {V} items.
Arguments BList {V} xs.
Arguments BTuple {V} xs.

(** Any object whose type is not exactly one of the built-in types
    below: its class name, the built-in type it derives from if any, and
    the capabilities the scripts probe: provider scalars and arrays
    ([item], [tolist]), tables and series ([empty], [to_dict]),
    timestamps ([to_pydatetime]), together with [str(o)], [bool(o)] and
    [float(o)].  A method is recorded by the outcome of the call the
    scripts make: [to_dict(orient="split")] on a table, [to_dict()] on a
    series.  Every object has a string form: [str(o)] does not raise.
    What a subclass instance inherits from its built-in base it is taken
    to inherit unchanged: [isoformat], [tzinfo], [replace], [astimezone]
    and [date] of a date-time, [items] and [get] of a dict, the float
    and the int value of a number. *)
Record pyobject (V : Type) : Type := PyObject {
  ob_type : str;
  ob_base : option (base V);
  ob_str : str;
  ob_bool : result bool;
  ob_float : attr spec_float;
  ob_item : attr V;
  ob_tolist : attr V;
  ob_empty : attr V;
  ob_to_dict : attr V;
  ob_to_pydatetime : attr V
}.
Arguments PyObject {V}.
Arguments ob_type {V}.
Arguments ob_base {V}.
Arguments ob_str {V}.
Arguments ob_bool {V}.
Arguments ob_float {V}.
Arguments ob_item {V}.
Arguments ob_tolist {V}.
Arguments ob_empty {V}.
Arguments ob_to_dict {V}.
Arguments ob_to_pydatetime {V}.

(** A value: an instance of exactly one of the built-in types, or any
    other object. *)
Unset Elimination Schemes.
Inductive value : Type :=
| VNone
| VBool (b : bool)
| VInt (n : Z)
| VFloat (x : spec_float)
| VComplex (re im : spec_float)
| VStr (s : str)
| VDate (d : date)
| VDateTime (d : datetime)
| VDict (items : list (value * value))
| VList (xs : list value)
| VTuple (xs : list value)
| VObj (o : pyobject value).
Set Elimination Schemes.

(** An object of class [type_name] printing as [text], deriving from no
    built-in type and exposing none of the probed capabilities. *)
Definition plain_object (type_name text : str) : pyobject value := {|
  ob_type := type_name; ob_base := None; ob_str := text;
  ob_bool := Ok true; ob_float := Absent; ob_item := Absent;
  ob_tolist := Absent; ob_empty := Absent; ob_to_dict := Absent;
  ob_to_pydatetime := Absent
|}.

(** [type(v).__name__] *)
Definition type_name (v : value) : str :=
  match v with
  | VNone => "NoneType"
  | VBool _ => "bool"
  | VInt _ => "int"
  | VFloat _ => "float"
  | VComplex _ _ => "complex"
  | VStr _ => "str"
  | VDate _ => "date"
  | VDateTime _ => "datetime"
  | VDict _ => "dict"
  | VList _ => "list"
  | VTuple _ => "tuple"
  | VObj o => ob_type o
  end.

(** The built-in type a value is an instance of through a subclass. *)
Definition base_of (v : value) : option (base value) :=
  match v with
  | VObj o => ob_base o
  | _ => None
  end.

(** [isinstance(v, dt.datetime)] and [isinstance(v, dt.date)] (the
    latter without the date-times, which the scripts test first), with
    the value held. *)
Definition as_datetime (v : value) : option datetime :=
  match v with
  | VDateTime d => Some d
  | VObj o => match ob_base o with Some (BDateTime d) => Some d | _ => None end
  | _ => None
  end.

Definition as_date (v : value) : option date :=
  match v with
  | VDate d => Some d
  | VObj o => match ob_base o with Some (BDate d) => Some d | _ => None end
  | _ => None
  end.

(** [isinstance(v, dict)], with the items held. *)
Definition as_dict (v : value) : option (list (value * value)) :=
  match v with
  | VDict items => Some items
  | VObj o => match ob_base o with Some (BDict items) => Some items | _ => None end
  | _ => None
  end.

(** ** Floats *)

Definition prec := 53.
Definition emax := 1024.

(** [math.isfinite] *)
Definition math_isfinite (x : spec_float) : bool :=
  match x with
  | S754_zero _ | S754_finite _ _ _ => true
  | S754_infinity _ | S754_nan => false
  end.

Definition float_zero : spec_float := S754_zero false.
Definition float_one : spec_float := binary_normalize prec emax 1 0 false.
Definition float_inf : spec_float := S754_infinity false.
Definition float_neg_inf : spec_float := S754_infinity true.
Definition float_nan : spec_float := S754_nan.

(** [x != y] on floats *)
Definition float_ne (x y : spec_float) : bool := negb (SFeqb x y).

(** [float(n)] for an integer: rounds to nearest, raises when the integer
    is beyond the largest finite double. *)
Definition float_of_int (n : Z) : result spec_float :=
  match binary_normalize prec emax n 0 false with
  | S754_infinity _ | S754_nan =>
      Raise (Exn "OverflowError" "int too large to convert to float")
  | x => Ok x
  end.

(** [int(x)] for a float: truncation toward zero. *)
Definition int_of_float (x : spec_float) : result Z :=
  match x with
  | S754_zero _ => Ok 0
  | S754_finite s m e =>
      let a := if 0 <=? e then Z.pos m * 2 ^ e else Z.pos m / 2 ^ (- e) in
      Ok (if s then - a else a)
  | S754_infinity _ =>
      Raise (Exn "OverflowError" "cannot convert float infinity to integer")
  | S754_nan =>
      Raise (Exn "ValueError" "cannot convert float NaN to integer")
  end.

(** ** [datetime] *)

(** [date.isoformat()] *)
Definition date_isoformat (d : date) : str :=
  zpad 4 (year d) ++ "-" ++ zpad 2 (month d) ++ "-" ++ zpad 2 (day d).

Definition format_offset (off : Z) : str :=
  let a := Z.abs off in
  (if off <? 0 then "-" else "+")
    ++ zpad 2 (a / 3600) ++ ":" ++ zpad 2 ((a mod 3600) / 60)
    ++ (if a mod 60 =? 0 then "" else ":" ++ zpad 2 (a mod 60)).

(** [datetime.isoformat(sep)] *)
Definition datetime_isoformat_sep (sep : str) (d : datetime) : str :=
  date_isoformat (dt_date d) ++ sep
    ++ zpad 2 (hour d) ++ ":" ++ zpad 2 (minute d) ++ ":" ++ zpad 2 (second d)
    ++ (if microsecond d =? 0 then "" else "." ++ zpad 6 (microsecond d))
    ++ match tzinfo d with
       | None => ""
       | Some off => format_offset off
       end.

Definition datetime_isoformat : datetime -> str :=
  datetime_isoformat_sep "T".

Definition is_leap (y : Z) : bool :=
  (y mod 4 =? 0) && (negb (y mod 100 =? 0) || (y mod 400 =? 0)).

Definition days_before_year (y : Z) : Z :=
  let p := y - 1 in p * 365 + p / 4 - p / 100 + p / 400.

Definition days_in_month (y m : Z) : Z :=
  if m =? 2 then (if is_leap y then 29 else 28)
  else if (m =? 4) || (m =? 6) || (m =? 9) || (m =? 11) then 30
  else 31.

Definition days_before_month (y m : Z) : Z :=
  fold_left (fun acc k => acc + days_in_month y (Z.of_nat k))
            (seq 1 (Z.to_nat (m - 1))) 0.

(** [date.toordinal()]: 0001-01-01 is day 1. *)
Definition date_toordinal (d : date) : Z :=
  days_before_year (year d) + days_before_month (year d) (month d) + day d.

Definition max_ordinal : Z := 3652059.

(** Month and day of the [n]-th day (from 0) of year [y]. *)
Fixpoint month_day_from (y : Z) (fuel : nat) (m n : Z) : Z * Z :=
  match fuel with
  | O => (m, n + 1)
  | S fuel' =>
      let dim := days_in_month y m in
      if n <? dim then (m, n + 1) else month_day_from y fuel' (m + 1) (n - dim)
  end.

(** [date.fromordinal(n)] *)
Definition date_fromordinal (n : Z) : date :=
  let n := n - 1 in
  let n400 := n / 146097 in
  let n := n mod 146097 in
  let n100 := n / 36524 in
  let n := n mod 36524 in
  let n4 := n / 1461 in
  let n := n mod 1461 in
  let n1 := n / 365 in
  let n := n mod 365 in
  let y := n400 * 400 + 1 + n100 * 100 + n4 * 4 + n1 in
  if (n1 =? 4) || (n100 =? 4) then Date (y - 1) 12 31
  else let '(m, d) := month_day_from y 11 1 n in Date y m d.

(** [d.astimezone(timezone.utc)] for an aware [d]; out-of-range results
    raise [OverflowError]. *)
Definition astimezone_utc (d : datetime) : result datetime :=
  match tzinfo d with
  | None => Ok d
  | Some off =>
      let secs := hour d * 3600 + minute d * 60 + second d - off in
      let ord := date_toordinal (dt_date d) + secs / 86400 in
      let rest := secs mod 86400 in
      if (1 <=? ord) && (ord <=? max_ordinal) then
        Ok (DateTime (date_fromordinal ord)
                     (rest / 3600) ((rest mod 3600) / 60) (rest mod 60)
                     (microsecond d) (Some 0))
      else Raise (Exn "OverflowError" "date value out of range")
  end.

(** [d.replace(tzinfo=timezone.utc)] *)
Definition replace_tzinfo_utc (d : datetime) : datetime :=
  DateTime (dt_date d) (hour d) (minute d) (second d) (microsecond d) (Some 0).

(** Attribute lookup on an arbitrary value: no instance of exactly a
    built-in type carries one of the probed attributes. *)
Definition attr_of (sel : pyobject value -> attr value) (v : value)
  : attr value :=
  match v with
  | VObj o => sel o
  | _ => Absent
  end.

(** [d.items()]; only dictionaries are taken to have the method. *)
Definition dict_items (v : value) : result (list (value * value)) :=
  match as_dict v with
  | Some items => Ok items
  | None =>
      Raise (Exn "AttributeError"
               ("'" ++ type_name v ++ "' object has no attribute 'items'"))
  end.

(** ** Induction on values *)

Definition attr_Forall {A} (P : A -> Prop) (a : attr A) : Prop :=
  match a with
  | Returns x => P x
  | _ => True
  end.

Definition base_Forall (P : value -> Prop) (b : option (base value)) : Prop :=
  match b with
  | Some (BDict items) => Forall (fun kv => P (fst kv) /\ P (snd kv)) items
  | Some (BList xs) | Some (BTuple xs) => Forall P xs
  | _ => True
  end.

Section ValueInd.
Variable P : value -> Prop.
Hypothesis HNone : P VNone.
Hypothesis HBool : forall b, P (VBool b).
Hypothesis HInt : forall n, P (VInt n).
Hypothesis HFloat : forall x, P (VFloat x).
Hypothesis HComplex : forall re im, P (VComplex re im).
Hypothesis HStr : forall s, P (VStr s).
Hypothesis HDate : forall d, P (VDate d).
Hypothesis HDateTime : forall d, P (VDateTime d).
Hypothesis HDict : forall items,
    Forall (fun kv => P (fst kv) /\ P (snd kv)) items -> P (VDict items).
Hypothesis HList : forall xs, Forall P xs -> P (VList xs).
Hypothesis HTuple : forall xs, Forall P xs -> P (VTuple xs).
Hypothesis HObj : forall o,
    base_Forall P (ob_base o) ->
    attr_Forall P (ob_item o) -> attr_Forall P (ob_tolist o) ->
    attr_Forall P (ob_empty o) -> attr_Forall P (ob_to_dict o) ->
    attr_Forall P (ob_to_pydatetime o) -> P (VObj o).

Fixpoint value_ind (v : value) : P v :=
  let on_attr (a : attr value) : attr_Forall P a :=
    match a with
    | Returns x => value_ind x
    | Absent => I
    | Raises _ => I
    end in
  let on_items :=
    fix go (l : list (value * value)) :
      Forall (fun kv => P (fst kv) /\ P (snd kv)) l :=
      match l with
      | [] => Forall_nil _
      | kv :: l' =>
          Forall_cons kv (conj (value_ind (fst kv)) (value_ind (snd kv)))
                      (go l')
      end in
  let on_list :=
    fix go (l : list value) : Forall P l :=
      match l with
      | [] => Forall_nil _
      | x :: l' => Forall_cons x (value_ind x) (go l')
      end in
  let on_base (b : option (base value)) : base_Forall P b :=
    match b with
    | Some (BDict items) => on_items items
    | Some (BList xs) => on_list xs
    | Some (BTuple xs) => on_list xs
    | Some (BInt _) => I
    | Some (BFloat _) => I
    | Some (BComplex _ _) => I
    | Some (BStr _) => I
    | Some (BDate _) => I
    | Some (BDateTime _) => I
    | None => I
    end in
  match v with
  | VNone => HNone
  | VBool b => HBool b
  | VInt n => HInt n
  | VFloat x => HFloat x
  | VComplex re im => HComplex re im
  | VStr s => HStr s
  | VDate d => HDate d
  | VDateTime d => HDateTime d
  | VDict items => HDict items (on_items items)
  | VList xs => HList xs (on_list xs)
  | VTuple xs => HTuple xs (on_list xs)
  | VObj o =>
      HObj o (on_base (ob_base o))
           (on_attr (ob_item o)) (on_attr (ob_tolist o))
           (on_attr (ob_empty o)) (on_attr (ob_to_dict o))
           (on_attr (ob_to_pydatetime o))
  end.
End ValueInd.

(** ** Dictionaries *)

(** A dictionary is its item list in insertion order; keys are pairwise
    distinct.  [str_dict] builds one from string keys. *)
Definition str_dict (d : list (str * value)) : value :=
  VDict (map (fun kv => (VStr (fst kv), snd kv)) d).

(** Whether a key equals the string [name]: a [str], or an instance of a
    [str] subclass, of the same characters. *)
Definition key_is (name : str) (k : value) : bool :=
  match k with
  | VStr s => str_eqb s name
  | VObj o => match ob_base o with Some (BStr s) => str_eqb s name | _ => false end
  | _ => false
  end.

(** [d.get(name, default)] for a string [name] *)
Fixpoint dict_get (d : list (value * value)) (name : str) (default : value)
  : value :=
  match d with
  | [] => default
  | (k, v) :: d' => if key_is name k then v else dict_get d' name default
  end.

(** [v.get(name)]; only dictionaries are taken to have the method. *)
Definition py_get (v : value) (name : str) : result value :=
  match as_dict v with
  | Some items => Ok (dict_get items name VNone)
  | None =>
      Raise (Exn "AttributeError"
               ("'" ++ type_name v ++ "' object has no attribute 'get'"))
  end.

(** [d[k] = v] on a string-keyed dictionary: an existing key keeps its
    position and takes the new value, a new key goes last. *)
Fixpoint dict_setitem (d : list (str * value)) (k : str) (v : value)
  : list (str * value) :=
  match d with
  | [] => [(k, v)]
  | (k', v') :: d' =>
      if str_eqb k' k then (k', v) :: d'
      else (k', v') :: dict_setitem d' k v
  end.

(** The dictionary a comprehension [{k: v for ...}] builds from the pairs
    it produces, in order. *)
Definition dict_of_items (items : list (str * value))
  : list (str * value) :=
  fold_left (fun d kv => dict_setitem d (fst kv) (snd kv)) items [].

(** ** The JSON text written by [json.dumps] *)

(** The document [json.dumps] renders, including the three non-standard
    number tokens it writes for non-finite floats when [allow_nan] is on. *)
Unset Elimination Schemes.
Inductive json : Type :=
| JNull
| JTrue
| JFalse
| JInt (n : Z)
| JFloat (x : spec_float)
| JNaN
| JInfinity
| JNegInfinity
| JString (s : str)
| JArray (elems : list json)
| JObject (members : list (str * json)).
Set Elimination Schemes.

Section JsonInd.
Variable P : json -> Prop.
Hypothesis HNull : P JNull.
Hypothesis HTrue : P JTrue.
Hypothesis HFalse : P JFalse.
Hypothesis HInt : forall n, P (JInt n).
Hypothesis HFloat : forall x, P (JFloat x).
Hypothesis HNaN : P JNaN.
Hypothesis HInf : P JInfinity.
Hypothesis HNegInf : P JNegInfinity.
Hypothesis HString : forall s, P (JString s).
Hypothesis HArray : forall l, Forall P l -> P (JArray l).
Hypothesis HObject : forall l, Forall (fun m => P (snd m)) l -> P (JObject l).

Fixpoint json_ind (j : json) : P j :=
  match j with
  | JNull => HNull
  | JTrue => HTrue
  | JFalse => HFalse
  | JInt n => HInt n
  | JFloat x => HFloat x
  | JNaN => HNaN
  | JInfinity => HInf
  | JNegInfinity => HNegInf
  | JString s => HString s
  | JArray l =>
      HArray l
        ((fix go (l : list json) : Forall P l :=
            match l with
            | [] => Forall_nil _
            | x :: l' => Forall_cons x (json_ind x) (go l')
            end) l)
  | JObject l =>
      HObject l
        ((fix go (l : list (str * json)) : Forall (fun m => P (snd m)) l :=
            match l with
            | [] => Forall_nil _
            | m :: l' => Forall_cons m (json_ind (snd m)) (go l')
            end) l)
  end.
End JsonInd.

(** Strict JSON: no [NaN], [Infinity] or [-Infinity] token anywhere. *)
Fixpoint strict_json (j : json) : bool :=
  match j with
  | JNaN | JInfinity | JNegInfinity => false
  | JArray l => forallb strict_json l
  | JObject l => forallb (fun m => strict_json (snd m)) l
  | _ => true
  end.

(** ** Standard output *)

(** The text stream behind [sys.stdout], open and writable: which
    characters beyond ASCII its codec encodes (every codec Python gives a
    standard stream encodes ASCII; errors are strict), and [str(error)]
    of the [UnicodeEncodeError] it raises for a text it refuses. *)
Record stream := {
  encodes : N -> bool;
  encode_error_text : json -> str
}.

Definition is_surrogate (c : N) : bool := ((55296 <=? c) && (c <=? 57343))%N.

Definition encodable (out : stream) (c : N) : bool :=
  (c <? 128)%N || encodes out c.

Fixpoint str_encodable (out : stream) (s : str) : bool :=
  match s with
  | EmptyStr => true
  | Char c s' => encodable out c && str_encodable out s'
  end.

(** Whether the stream can encode the text of a document.  The text is
    written with [ensure_ascii=False]: the characters of its strings and
    keys appear in it as they are, except for the quote, the backslash
    and the control characters, which are escaped and are ASCII anyway;
    everything else in the text is ASCII. *)
Fixpoint writable (out : stream) (j : json) : bool :=
  match j with
  | JString s => str_encodable out s
  | JArray l => forallb (writable out) l
  | JObject l =>
      forallb (fun m => str_encodable out (fst m) && writable out (snd m)) l
  | _ => true
  end.

Definition UnicodeEncodeError (out : stream) (text : json) : exn :=
  Exn "UnicodeEncodeError" (encode_error_text out text).

(** ** Processes *)

(** A run of a script: the documents written to standard output, in order,
    and how [main] ended. *)
Definition io (A : Type) : Type := (list json * result A)%type.

Definition ret {A} (a : A) : io A := ([], Ok a).

Definition lift {A} (r : result A) : io A := ([], r).

Definition io_bind {A B} (m : io A) (k : A -> io B) : io B :=
  match m with
  | (out, Ok a) => let '(out', r) := k a in ((out ++ out')%list, r)
  | (out, Raise e) => (out, Raise e)
  end.

(** [try: body  except Exception as error: handler(error)] *)
Definition try_except {A} (body : io A) (handler : exn -> io A) : io A :=
  match body with
  | (out, Raise e) => let '(out', r) := handler e in ((out ++ out')%list, r)
  | done => done
  end.

(** [sys.stdout.write(text); sys.stdout.flush()]: the whole text is
    encoded before any of it is written, so a text the codec refuses
    leaves nothing on the stream. *)
Definition stdout_write (out : stream) (text : json) : io unit :=
  if writable out text then ([text], Ok tt)
  else ([], Raise (UnicodeEncodeError out text)).

Notation "x <-- m ;; k" := (io_bind m (fun x => k))
  (at level 61, m at next level, right associativity) : py_scope.
Notation "m ;;; k" := (io_bind m (fun _ => k))
  (at level 61, right associativity) : py_scope.

(** [raise SystemExit(main())]: the status is what [main] returns; an
    exception that escapes [main] ends the process with status 1. *)
Definition exit_code (r : result Z) : Z :=
  match r with
  | Ok n => n
  | Raise _ => 1
  end.

(** ** Built-ins that depend on the interpreter *)

(** The parts of CPython the scripts call whose result is a matter of
    text parsing or printing: [repr] of floats, complex numbers and
    containers, [json.loads], and [int]/[float] of a string; and the
    interpreter's limit on the number of digits of an integer rendered
    as text ([sys.get_int_max_str_digits()], 4300 by default since
    CPython 3.11, 0 for no limit). *)
Class Runtime : Type := {
  py_repr : value -> str;
  json_loads : str -> result value;
  int_of_str : str -> result Z;
  float_of_str : str -> result spec_float;
  int_max_str_digits : N
}.

Section Builtins.
Context {rt : Runtime}.

(** [str(v)].  For an integer this is the decimal text: the integers
    the scripts pass to [str] are request fields, which [json.loads]
    has parsed under the interpreter's digit limit, and mapping keys,
    taken to be within it; the limit is modelled in the encoder, which
    integers of any size reach unchanged. *)
Definition py_str (v : value) : str :=
  match v with
  | VStr s => s
  | VNone => "None"
  | VBool true => "True"
  | VBool false => "False"
  | VInt n => str_of_int n
  | VDate d => date_isoformat d
  | VDateTime d => datetime_isoformat_sep " " d
  | VObj o => ob_str o
  | VFloat _ | VComplex _ _ | VDict _ | VList _ | VTuple _ => py_repr v
  end.

(** [bool(v)] *)
Definition py_bool (v : value) : result bool :=
  match v with
  | VNone => Ok false
  | VBool b => Ok b
  | VInt n => Ok (negb (n =? 0))
  | VFloat x => Ok (float_ne x float_zero)
  | VComplex re im => Ok (float_ne re float_zero || float_ne im float_zero)
  | VStr s => Ok (negb (str_is_empty s))
  | VDate _ | VDateTime _ => Ok true
  | VDict items => Ok (match items with [] => false | _ => true end)
  | VList xs | VTuple xs => Ok (match xs with [] => false | _ => true end)
  | VObj o => ob_bool o
  end.

(** [a or b] *)
Definition py_or (a b : value) : result value :=
  (t <- py_bool a ;; Ok (if t then a else b))%py.

Definition int_type_error (v : value) : exn :=
  Exn "TypeError"
      ("int() argument must be a string, a bytes-like object or a real number, not '"
         ++ type_name v ++ "'").

(** [int(v)]; only ever applied to a request field, which [json.loads]
    builds from [None], [bool], [int], [float], [str], [list], [dict]. *)
Definition py_int (v : value) : result Z :=
  match v with
  | VBool b => Ok (if b then 1 else 0)
  | VInt n => Ok n
  | VFloat x => int_of_float x
  | VStr s => int_of_str s
  | VObj o =>
      match ob_base o with
      | Some (BInt n) => Ok n
      | Some (BFloat x) => int_of_float x
      | Some (BStr s) => int_of_str s
      | _ => Raise (int_type_error v)
      end
  | _ => Raise (int_type_error v)
  end.

Definition float_type_error (v : value) : exn :=
  Exn "TypeError"
      ("float() argument must be a string or a real number, not '"
         ++ type_name v ++ "'").

(** [float(v)] *)
Definition py_float (v : value) : result spec_float :=
  match v with
  | VBool b => Ok (if b then float_one else float_zero)
  | VInt n => float_of_int n
  | VFloat x => Ok x
  | VStr s => float_of_str s
  | VObj o =>
      match ob_base o with
      | Some (BFloat x) => Ok x
      | Some (BInt n) => float_of_int n
      | Some (BStr s) => float_of_str s
      | _ =>
          match ob_float o with
          | Returns x => Ok x
          | Raises e => Raise e
          | Absent => Raise (float_type_error v)
          end
      end
  | _ => Raise (float_type_error v)
  end.

(** *** [json.dumps] *)

Definition not_json_compliant : exn :=
  Exn "ValueError" "Out of range float values are not JSON compliant".

Definition floatstr (allow_nan : bool) (x : spec_float) : result json :=
  match x with
  | S754_nan => if allow_nan then Ok JNaN else Raise not_json_compliant
  | S754_infinity false =>
      if allow_nan then Ok JInfinity else Raise not_json_compliant
  | S754_infinity true =>
      if allow_nan then Ok JNegInfinity else Raise not_json_compliant
  | _ => Ok (JFloat x)
  end.

(** Whether rendering the integer as decimal text exceeds the
    interpreter's digit limit. *)
Definition exceeds_digits (n : Z) : bool :=
  (negb (int_max_str_digits =? 0)
   && (int_max_str_digits <? N.of_nat (str_length (str_of_int (Z.abs n)))))%N.

Definition int_too_long : exn :=
  Exn "ValueError"
      ("Exceeds the limit (" ++ str_of_int (Z.of_N int_max_str_digits)
         ++ " digits) for integer string conversion; "
         ++ "use sys.set_int_max_str_digits() to increase the limit").

(** [int.__repr__(n)] as the encoder calls it. *)
Definition intstr (n : Z) : result Z :=
  if exceeds_digits n then Raise int_too_long else Ok n.

Definition bad_key (k : value) : exn :=
  Exn "TypeError"
      ("keys must be str, int, float, bool or None, not " ++ type_name k).

Definition float_key (allow_nan : bool) (x : spec_float) : result str :=
  if math_isfinite x then Ok (py_repr (VFloat x))
  else if allow_nan then
    Ok (match x with
        | S754_infinity false => "Infinity"
        | S754_infinity true => "-Infinity"
        | _ => "NaN"
        end)
  else Raise not_json_compliant.

Definition int_key (n : Z) : result str :=
  (n <- intstr n ;; Ok (str_of_int n))%py.

Definition dumps_key (allow_nan : bool) (k : value) : result str :=
  match k with
  | VStr s => Ok s
  | VFloat x => float_key allow_nan x
  | VBool true => Ok "true"
  | VBool false => Ok "false"
  | VNone => Ok "null"
  | VInt n => int_key n
  | VObj o =>
      match ob_base o with
      | Some (BStr s) => Ok s
      | Some (BFloat x) => float_key allow_nan x
      | Some (BInt n) => int_key n
      | _ => Raise (bad_key k)
      end
  | _ => Raise (bad_key k)
  end.

Definition not_serializable (v : value) : exn :=
  Exn "TypeError"
      ("Object of type " ++ type_name v ++ " is not JSON serializable").

(** [json.dumps(v, ensure_ascii=False, allow_nan=allow_nan)]: the
    encoder goes by [isinstance], so an instance of a subclass of [str],
    [int], [float], [list], [tuple] or [dict] is written as its base
    value is. *)
Fixpoint dumps (allow_nan : bool) (v : value) : result json :=
  let array (xs : list value) : result json :=
    (js <- (fix go (l : list value) : result (list json) :=
              match l with
              | [] => Ok []
              | x :: l' =>
                  j <- dumps allow_nan x ;; js <- go l' ;; Ok (j :: js)
              end) xs ;;
     Ok (JArray js))%py in
  let object (items : list (value * value)) : result json :=
    (ms <- (fix go (l : list (value * value))
              : result (list (str * json)) :=
              match l with
              | [] => Ok []
              | kv :: l' =>
                  k <- dumps_key allow_nan (fst kv) ;;
                  j <- dumps allow_nan (snd kv) ;;
                  ms <- go l' ;;
                  Ok ((k, j) :: ms)
              end) items ;;
     Ok (JObject ms))%py in
  match v with
  | VNone => Ok JNull
  | VBool true => Ok JTrue
  | VBool false => Ok JFalse
  | VInt n => (n <- intstr n ;; Ok (JInt n))%py
  | VFloat x => floatstr allow_nan x
  | VStr s => Ok (JString s)
  | VList xs | VTuple xs => array xs
  | VDict items => object items
  | VObj o =>
      match ob_base o with
      | Some (BStr s) => Ok (JString s)
      | Some (BInt n) => (n <- intstr n ;; Ok (JInt n))%py
      | Some (BFloat x) => floatstr allow_nan x
      | Some (BList xs) | Some (BTuple xs) => array xs
      | Some (BDict items) => object items
      | _ => Raise (not_serializable v)
      end
  | VComplex _ _ | VDate _ | VDateTime _ => Raise (not_serializable v)
  end.

(** The two inner loops of [dumps], named. *)
Definition dumps_elems (allow_nan : bool) : list value -> result (list json) :=
  fix go (l : list value) : result (list json) :=
    match l with
    | [] => Ok []
    | x :: l' =>
        (j <- dumps allow_nan x ;; js <- go l' ;; Ok (j :: js))%py
    end.

Definition dumps_members (allow_nan : bool)
  : list (value * value) -> result (list (str * json)) :=
  fix go (l : list (value * value)) : result (list (str * json)) :=
    match l with
    | [] => Ok []
    | kv :: l' =>
        (k <- dumps_key allow_nan (fst kv) ;;
         j <- dumps allow_nan (snd kv) ;;
         ms <- go l' ;;
         Ok ((k, j) :: ms))%py
    end.

End Builtins.

End Py.

(* ===================================================================== *)
(** * [yfinance_fetcher.py] *)
(* ===================================================================== *)

Module Fetcher.
Import Py.
#[local] Open Scope str_scope.
#[local] Open Scope py_scope.

(** The [yfinance.Ticker] instance as the script uses it: attribute reads
    and the [history(period=..., auto_adjust=...)] call. *)
Record Ticker := {
  ticker_attr : str -> attr value;
  ticker_history : list (str * value) -> result value
}.

(** What one run of the script sees of the outside world. *)
Record Env := {
  (** [sys.stdin.read()]: the decoded text, or the exception the read
      raises (undecodable bytes under strict decoding) *)
  stdin : result str;
  (** [sys.stdout] *)
  stdout : stream;
  (** [import yfinance as yf], then [yf.Ticker] *)
  yfinance : result (str -> result Ticker);
  (** [dt.datetime.now(dt.timezone.utc)] *)
  utcnow : datetime
}.

Section Script.
Context {rt : Runtime}.

Fixpoint _to_json_compatible (val : value) : value :=
  let mapping (items : list (value * value)) : value :=
    str_dict
      (dict_of_items
         (map (fun kv => (py_str (fst kv), _to_json_compatible (snd kv)))
              items)) in
  let sequence (xs : list value) : value :=
    VList (map _to_json_compatible xs) in
  match val with
  | VNone => VNone
  | VBool _ => val
  | VInt _ => val
  | VFloat x => if math_isfinite x then val else VNone
  | VComplex _ _ => VNone
  | VDateTime d => VStr (datetime_isoformat d)
  | VDate d => VStr (date_isoformat d)
  | VDict items => mapping items
  | VList xs | VTuple xs => sequence xs
  | VStr _ => VStr (py_str val)
  | VObj o =>
      match ob_base o with
      | Some (BInt _) => val
      | Some (BFloat x) => if math_isfinite x then val else VNone
      | Some (BComplex _ _) => VNone
      | Some (BDateTime d) => VStr (datetime_isoformat d)
      | Some (BDate d) => VStr (date_isoformat d)
      | derived =>
          match ob_item o with
          | Returns scalar => _to_json_compatible scalar
          | _ =>
              match derived with
              | Some (BDict items) => mapping items
              | Some (BList xs) | Some (BTuple xs) => sequence xs
              | _ =>
                  match ob_tolist o with
                  | Returns l => _to_json_compatible l
                  | _ => VStr (py_str val)
                  end
              end
          end
      end
  end.

Definition empty_table : value :=
  str_dict [("columns", VList []); ("index", VList []); ("data", VList [])].

Definition _df_to_payload (df : value) : value :=
  match df with
  | VNone => VNone
  | _ =>
      match (empty <- getattr (attr_of ob_empty df) (VBool false) ;;
             is_empty <- py_bool empty ;;
             if is_empty then Ok empty_table
             else
               split <- access "to_dict" (attr_of ob_to_dict df) ;;
               Ok (_to_json_compatible split))
      with
      | Ok payload => payload
      | Raise _ => VNone
      end
  end.

Definition series_point (kv : value * value) : value :=
  str_dict [("date", _to_json_compatible (fst kv));
            ("value", _to_json_compatible (snd kv))].

Definition _series_to_payload (series : value) : value :=
  match series with
  | VNone => VNone
  | _ =>
      match (empty <- getattr (attr_of ob_empty series) (VBool false) ;;
             is_empty <- py_bool empty ;;
             if is_empty then Ok (VList [])
             else if hasattr (attr_of ob_to_dict series) then
               raw_dict <- access "to_dict" (attr_of ob_to_dict series) ;;
               items <- dict_items raw_dict ;;
               Ok (VList (map series_point items))
             else Ok (_to_json_compatible series))
      with
      | Ok payload => payload
      | Raise _ => VNone
      end
  end.

(** The request mapping, as its item list.  The read of standard input
    comes before the [try]: what it raises leaves the function. *)
Definition _load_input (stdin : result str) : result (list (value * value)) :=
  text <- stdin ;;
  let raw := strip text in
  if str_is_empty raw then Ok []
  else
    match json_loads raw with
    | Ok payload =>
        match as_dict payload with
        | Some items => Ok items
        | None => Ok []
        end
    | Raise _ => Ok []
    end.

Definition _emit (out : stream) (payload : value) : io unit :=
  text <-- lift (dumps false payload) ;;
  stdout_write out text.

Definition invalid_input : value :=
  str_dict [("ok", VBool false); ("code", VStr "invalid_input");
            ("error", VStr "ticker is required")].

Definition dependency_missing : value :=
  str_dict [("ok", VBool false); ("code", VStr "dependency_missing");
            ("error", VStr "python package 'yfinance' is not installed")].

Definition runtime_error (error : exn) : value :=
  str_dict [("ok", VBool false); ("code", VStr "runtime_error");
            ("error", VStr (exn_msg error))].

(** [_df_to_payload(getattr(asset, name, None))] *)
Definition table_of (asset : Ticker) (name : str) : result value :=
  df <- getattr (ticker_attr asset name) VNone ;;
  Ok (_df_to_payload df).

(** [_to_json_compatible(getattr(asset, name, {}) or {})] *)
Definition mapping_of (asset : Ticker) (name : str) : result value :=
  m <- getattr (ticker_attr asset name) (VDict []) ;;
  m <- py_or m (VDict []) ;;
  Ok (_to_json_compatible m).

Definition main (env : Env) : io Z :=
  args <-- lift (_load_input (stdin env)) ;;
  let ticker := strip (py_str (dict_get args "ticker" (VStr ""))) in
  history_days <-- lift (d <- py_or (dict_get args "history_days" (VInt 30))
                                    (VInt 30) ;;
                         py_int d) ;;
  if str_is_empty ticker then
    _emit (stdout env) invalid_input ;;; ret 0
  else
    match yfinance env with
    | Raise _ => _emit (stdout env) dependency_missing ;;; ret 0
    | Ok yf =>
        try_except
          (payload <-- lift
             (asset <- yf ticker ;;
              info <- mapping_of asset "info" ;;
              fast_info <- mapping_of asset "fast_info" ;;
              history_df <- ticker_history asset
                  [("period", VStr (str_of_int (Z.max history_days 1) ++ "d"));
                   ("auto_adjust", VBool false)] ;;
              dividends_series <- getattr (ticker_attr asset "dividends") VNone ;;
              let dividends := _series_to_payload dividends_series in
              let fetched_at := VStr (datetime_isoformat (utcnow env)) in
              let history := _df_to_payload history_df in
              financials <- table_of asset "financials" ;;
              quarterly_financials <- table_of asset "quarterly_financials" ;;
              balance_sheet <- table_of asset "balance_sheet" ;;
              quarterly_balance_sheet <- table_of asset "quarterly_balance_sheet" ;;
              cashflow <- table_of asset "cashflow" ;;
              quarterly_cashflow <- table_of asset "quarterly_cashflow" ;;
              recommendations <- table_of asset "recommendations" ;;
              institutional_holders <- table_of asset "institutional_holders" ;;
              major_holders <- table_of asset "major_holders" ;;
              calendar <- getattr (ticker_attr asset "calendar") VNone ;;
              Ok (str_dict
                    [("ticker", VStr ticker);
                     ("fetched_at", fetched_at);
                     ("info", info);
                     ("fast_info", fast_info);
                     ("history", history);
                     ("dividends", dividends);
                     ("financials", financials);
                     ("quarterly_financials", quarterly_financials);
                     ("balance_sheet", balance_sheet);
                     ("quarterly_balance_sheet", quarterly_balance_sheet);
                     ("cashflow", cashflow);
                     ("quarterly_cashflow", quarterly_cashflow);
                     ("recommendations", recommendations);
                     ("institutional_holders", institutional_holders);
                     ("major_holders", major_holders);
                     ("calendar", _to_json_compatible calendar)])) ;;
           _emit (stdout env)
                 (str_dict [("ok", VBool true); ("source", VStr "yfinance");
                            ("payload", payload)]) ;;;
           ret 0)
          (fun error => _emit (stdout env) (runtime_error error) ;;; ret 0)
    end.

End Script.
End Fetcher.

(* ===================================================================== *)
(** * [yfinance_history_fetcher.py] *)
(* ===================================================================== *)

Module HistoryFetcher.
Import Py.
#[local] Open Scope str_scope.
#[local] Open Scope py_scope.

(** One row of the history table: column name to cell. *)
Definition Series := list (str * value).

(** [row.get(name)]: the cell, [None] when the column is missing. *)
Fixpoint row_get (row : Series) (name : str) : value :=
  match row with
  | [] => VNone
  | (k, v) :: row' => if str_eqb k name then v else row_get row' name
  end.

(** The table [asset.history(...)] returns: its [empty] flag and what
    [iterrows()] yields. *)
Record DataFrame := {
  df_empty : bool;
  df_iterrows : list (value * Series)
}.

Record Ticker := {
  ticker_history : list (str * value) -> result (option DataFrame);
  ticker_info : attr value
}.

Record Env := {
  (** [sys.stdin.read()]: the decoded text, or the exception the read
      raises (undecodable bytes under strict decoding) *)
  stdin : result str;
  (** [sys.stdout] *)
  stdout : stream;
  yfinance : result (str -> result Ticker);
  utcnow : datetime
}.

(** [x or None] / [x or default] on a string *)
Definition str_or_none (s : str) : option str :=
  if str_is_empty s then None else Some s.

Definition str_or (s default : str) : str :=
  if str_is_empty s then default else s.

(** [x or default] on a [float | None] *)
Definition number_or (x : option spec_float) (default : spec_float)
  : spec_float :=
  match x with
  | Some number => if float_ne number float_zero then number else default
  | None => default
  end.

Definition of_number (x : option spec_float) : value :=
  match x with
  | Some number => VFloat number
  | None => VNone
  end.

Definition of_opt_str (x : option str) : value :=
  match x with
  | Some s => VStr s
  | None => VNone
  end.

Section Script.
Context {rt : Runtime}.

Definition _emit (out : stream) (payload : value) : io unit :=
  text <-- lift (dumps true payload) ;;
  stdout_write out text.

(** The request mapping, as its item list.  The read of standard input
    comes before the [try]: what it raises leaves the function. *)
Definition _read_input (stdin : result str) : result (list (value * value)) :=
  text <- stdin ;;
  let raw := strip text in
  if str_is_empty raw then Ok []
  else
    match json_loads raw with
    | Ok val =>
        match as_dict val with
        | Some items => Ok items
        | None => Ok []
        end
    | Raise _ => Ok []
    end.

Definition _to_number (val : value) : option spec_float :=
  match val with
  | VNone => None
  | _ =>
      match py_float val with
      | Ok number => if float_ne number number then None else Some number
      | Raise _ => None
      end
  end.

Definition _index_to_utc_date (val : value) : result (option str) :=
  let val :=
    match attr_of ob_to_pydatetime val with
    | Returns converted => converted
    | _ => val
    end in
  match as_datetime val with
  | Some d =>
      d <- match tzinfo d with
           | None => Ok (replace_tzinfo_utc d)
           | Some _ => astimezone_utc d
           end ;;
      Ok (Some (date_isoformat (dt_date d)))
  | None =>
      match as_date val with
      | Some d => Ok (Some (date_isoformat d))
      | None =>
          let parsed := strip (py_str val) in
          if str_is_empty parsed then Ok None
          else Ok (Some (str_prefix 10 parsed))
      end
  end.

Definition history_row (date : str) (row : Series) : value :=
  str_dict
    [("date", VStr date);
     ("open", of_number (_to_number (row_get row "Open")));
     ("high", of_number (_to_number (row_get row "High")));
     ("low", of_number (_to_number (row_get row "Low")));
     ("close", of_number (_to_number (row_get row "Close")));
     ("adjusted_close", of_number (_to_number (row_get row "Adj Close")));
     ("volume", of_number (_to_number (row_get row "Volume")));
     ("dividends",
       VFloat (number_or (_to_number (row_get row "Dividends")) float_zero));
     ("stock_splits",
       VFloat (number_or (_to_number (row_get row "Stock Splits")) float_zero))].

(** The [for index, row in history.iterrows()] loop. *)
Fixpoint history_rows (iterrows : list (value * Series))
  : result (list value) :=
  match iterrows with
  | [] => Ok []
  | (index, row) :: rest =>
      date <- _index_to_utc_date index ;;
      match date with
      | None => history_rows rest
      | Some date =>
          if str_is_empty date then history_rows rest
          else
            rows <- history_rows rest ;;
            Ok (history_row date row :: rows)
      end
  end.

Definition invalid_input : value :=
  str_dict [("ok", VBool false); ("code", VStr "invalid_input");
            ("error", VStr "ticker is required")].

Definition dependency_missing : value :=
  str_dict [("ok", VBool false); ("code", VStr "dependency_missing");
            ("error", VStr "python package 'yfinance' is not installed")].

Definition runtime_error (error : exn) : value :=
  str_dict [("ok", VBool false); ("code", VStr "runtime_error");
            ("error", VStr (exn_msg error))].

Definition history_kwargs (start_date period : option str)
           (interval : str) : list (str * value) :=
  let kwargs := [("interval", VStr interval); ("auto_adjust", VBool false);
                 ("actions", VBool true)] in
  match start_date, period with
  | Some start, _ => dict_setitem kwargs "start" (VStr start)
  | None, Some p => dict_setitem kwargs "period" (VStr p)
  | None, None => dict_setitem kwargs "period" (VStr "max")
  end.

Definition main (env : Env) : io Z :=
  args <-- lift (_read_input (stdin env)) ;;
  let ticker := strip (py_str (dict_get args "ticker" (VStr ""))) in
  let start_date :=
    str_or_none (strip (py_str (dict_get args "start_date" (VStr "")))) in
  let period :=
    str_or_none (strip (py_str (dict_get args "period" (VStr "")))) in
  let interval :=
    str_or (strip (py_str (dict_get args "interval" (VStr "1d")))) "1d" in
  if str_is_empty ticker then
    _emit (stdout env) invalid_input ;;; ret 0
  else
    match yfinance env with
    | Raise _ => _emit (stdout env) dependency_missing ;;; ret 0
    | Ok yf =>
        try_except
          (payload <-- lift
             (asset <- yf ticker ;;
              history <- ticker_history asset
                           (history_kwargs start_date period interval) ;;
              rows <- match history with
                      | Some table =>
                          if negb (df_empty table)
                          then history_rows (df_iterrows table)
                          else Ok []
                      | None => Ok []
                      end ;;
              info <- getattr (ticker_info asset) (VDict []) ;;
              info <- py_or info (VDict []) ;;
              currency <- py_get info "currency" ;;
              Ok (str_dict
                    [("ticker", VStr ticker);
                     ("currency", currency);
                     ("fetched_at", VStr (datetime_isoformat (utcnow env)));
                     ("rows", VList rows)])) ;;
           _emit (stdout env)
                 (str_dict [("ok", VBool true); ("payload", payload)]) ;;;
           ret 0)
          (fun error => _emit (stdout env) (runtime_error error) ;;; ret 0)
    end.

End Script.
End HistoryFetcher.

(* ===================================================================== *)
(** * Specification vocabulary *)
(* ===================================================================== *)

Module Props.
Import Py.
#[local] Open Scope str_scope.

Definition is_str (v : value) : bool :=
  match v with VStr _ => true | _ => false end.

Definition key_text (k : value) : str :=
  match k with VStr s => s | _ => EmptyStr end.

Fixpoint distinct (l : list str) : bool :=
  match l with
  | [] => true
  | x :: l' => negb (existsb (str_eqb x) l') && distinct l'
  end.

(** NormalizedValue of the data model: null, boolean, integer, finite
    float, string, sequence of NormalizedValue, or mapping from (distinct)
    strings to NormalizedValue; checked at every nesting depth.  No
    object of any other type is one, whatever it derives from. *)
Fixpoint is_normalized (v : value) : bool :=
  match v with
  | VNone | VBool _ | VInt _ | VStr _ => true
  | VFloat x => math_isfinite x
  | VList xs => forallb is_normalized xs
  | VDict items =>
      forallb (fun kv => is_str (fst kv) && is_normalized (snd kv)) items
      && distinct (map (fun kv => key_text (fst kv)) items)
  | VComplex _ _ | VDate _ | VDateTime _ | VTuple _ | VObj _ => false
  end.

(** An instance of a subclass of [int], or a finite instance of a
    subclass of [float]. *)
Definition is_number_object (o : pyobject value) : bool :=
  match ob_base o with
  | Some (BInt _) => true
  | Some (BFloat x) => math_isfinite x
  | _ => false
  end.

(** What the normalizer does establish: a NormalizedValue but for the
    numbers in it, which may be instances of subclasses of [int] and
    [float]. *)
Fixpoint is_json_ready (v : value) : bool :=
  match v with
  | VNone | VBool _ | VInt _ | VStr _ => true
  | VFloat x => math_isfinite x
  | VList xs => forallb is_json_ready xs
  | VDict items =>
      forallb (fun kv => is_str (fst kv) && is_json_ready (snd kv)) items
      && distinct (map (fun kv => key_text (fst kv)) items)
  | VObj o => is_number_object o
  | VComplex _ _ | VDate _ | VDateTime _ | VTuple _ => false
  end.

(** Whether the encoder, walking [v], comes upon a non-finite float. *)
Definition key_non_finite (k : value) : bool :=
  match k with
  | VFloat x => negb (math_isfinite x)
  | VObj o =>
      match ob_base o with
      | Some (BFloat x) => negb (math_isfinite x)
      | _ => false
      end
  | _ => false
  end.

Fixpoint holds_non_finite (v : value) : bool :=
  let in_items (items : list (value * value)) : bool :=
    existsb (fun kv => key_non_finite (fst kv) || holds_non_finite (snd kv))
            items in
  match v with
  | VFloat x => negb (math_isfinite x)
  | VList xs | VTuple xs => existsb holds_non_finite xs
  | VDict items => in_items items
  | VObj o =>
      match ob_base o with
      | Some (BFloat x) => negb (math_isfinite x)
      | Some (BList xs) | Some (BTuple xs) => existsb holds_non_finite xs
      | Some (BDict items) => in_items items
      | _ => false
      end
  | _ => false
  end.

(** Whether a table or series reports itself empty:
    [bool(getattr(obj, "empty", False))], which may itself fail. *)
Definition reports_empty {rt : Runtime} (obj : value) : result bool :=
  bind (getattr (attr_of ob_empty obj) (VBool false)) py_bool.



(** The rows of the history table whose index resolves to a date, paired
    with that date, in table order. *)
Fixpoint dated_rows {rt : Runtime}
         (iterrows : list (value * HistoryFetcher.Series))
  : list (str * HistoryFetcher.Series) :=
  match iterrows with
  | [] => []
  | (index, row) :: rest =>
      match HistoryFetcher._index_to_utc_date index with
      | Ok (Some date) =>
          if str_is_empty date then dated_rows rest
          else (date, row) :: dated_rows rest
      | _ => dated_rows rest
      end
  end.

(** The exception of the first row, in table order, whose index cannot
    be resolved because resolving it raises. *)
Fixpoint first_failure {rt : Runtime}
         (iterrows : list (value * HistoryFetcher.Series)) : option exn :=
  match iterrows with
  | [] => None
  | (index, _) :: rest =>
      match HistoryFetcher._index_to_utc_date index with
      | Raise e => Some e
      | Ok _ => first_failure rest
      end
  end.

(** [payload[name]] on a dictionary value, [None] when absent. *)
Definition field (payload : value) (name : str) : value :=
  match payload with
  | VDict items => dict_get items name VNone
  | _ => VNone
  end.

(** A runtime for concrete runs: [json.loads] knows the one request
    [text], which parses to [parsed]; no string is a number; the digit
    limit is CPython's default. *)
Definition sample_runtime (text : str) (parsed : value) : Runtime := {|
  py_repr := fun _ => "<repr>";
  json_loads := fun s =>
    if str_eqb s text then Ok parsed
    else Raise (Exn "JSONDecodeError" "Expecting value");
  int_of_str := fun _ => Raise (Exn "ValueError" "invalid literal for int()");
  float_of_str := fun _ =>
    Raise (Exn "ValueError" "could not convert string to float");
  int_max_str_digits := 4300
|}.

Definition sample_now : datetime :=
  DateTime (Date 2024 1 2) 3 4 5 0 (Some 0).

(** Standard output under UTF-8: every code point but the surrogates is
    encoded. *)
Definition utf8 : stream := {|
  encodes := fun c => negb (is_surrogate c);
  encode_error_text := fun _ =>
    "'utf-8' codec can't encode character: surrogates not allowed"
|}.

(** What [_emit(response); return 0] comes to for a response whose
    document is [doc]. *)
Definition respond (out : stream) (doc : json) : io Z :=
  if writable out doc then ([doc], Ok 0)
  else ([], Raise (UnicodeEncodeError out doc)).

Definition quoted (s : str) : str := Char 34 s ++ Char 34 EmptyStr.

(** The request texts [{"ticker": "ACME"}],
    [{"ticker": "ACME", "history_days": [7]}] and
    [{"ticker": "  ", "history_days": [7]}]. *)
Definition text_acme : str :=
  "{" ++ quoted "ticker" ++ ": " ++ quoted "ACME" ++ "}".

Definition text_acme_bad_days : str :=
  "{" ++ quoted "ticker" ++ ": " ++ quoted "ACME" ++ ", "
      ++ quoted "history_days" ++ ": [7]}".

Definition text_blank_bad_days : str :=
  "{" ++ quoted "ticker" ++ ": " ++ quoted "  " ++ ", "
      ++ quoted "history_days" ++ ": [7]}".

Definition ambiguous_truth : exn :=
  Exn "ValueError" "The truth value of a DataFrame is ambiguous".

(** A table or series object: its [empty] flag and what [to_dict]
    does. *)
Definition sample_frame (empty : bool) (to_dict : attr value) : value :=
  VObj {| ob_type := "DataFrame"; ob_base := None; ob_str := "<frame>";
          ob_bool := Raise ambiguous_truth; ob_float := Absent;
          ob_item := Absent; ob_tolist := Absent;
          ob_empty := Returns (VBool empty); ob_to_dict := to_dict;
          ob_to_pydatetime := Absent |}.

(** A provider scalar of a type that derives from [float], such as
    [numpy.float64]. *)
Definition numpy_float64 {rt : Runtime} (x : spec_float) : value :=
  VObj {| ob_type := "float64"; ob_base := Some (BFloat x);
          ob_str := py_repr (VFloat x);
          ob_bool := Ok (float_ne x float_zero); ob_float := Returns x;
          ob_item := Returns (VFloat x); ob_tolist := Returns (VFloat x);
          ob_empty := Absent; ob_to_dict := Absent;
          ob_to_pydatetime := Absent |}.




Definition sample_split : value :=
  str_dict [("index", VList [VDate (Date 2024 1 2)]);
            ("columns", VList [VStr "Close"]);
            ("data", VList [VList [VFloat float_nan]])].

Definition sample_dividends : list (value * value) :=
  [(VDateTime (DateTime (Date 2024 1 2) 0 0 0 0 None), VFloat float_one);
   (VDateTime (DateTime (Date 2024 4 2) 0 0 0 0 None), VFloat float_nan)].

Definition provider_down : exn := Exn "RuntimeError" "provider unavailable".



Definition float_of_pos (m : positive) : spec_float :=
  binary_normalize prec emax (Z.pos m) 0 false.

(** A history table: a good row, a row with a non-numeric volume and a
    NaN close, and a row whose index is blank. *)
Definition sample_iterrows : list (value * HistoryFetcher.Series) :=
  [(VDate (Date 2024 1 2),
    [("Open", VFloat (float_of_pos 10)); ("High", VFloat (float_of_pos 12));
     ("Low", VFloat (float_of_pos 9)); ("Close", VFloat (float_of_pos 11));
     ("Adj Close", VFloat (float_of_pos 11)); ("Volume", VInt 1000);
     ("Dividends", VFloat (float_of_pos 2)); ("Stock Splits", VFloat float_zero)]);
   (VDateTime (DateTime (Date 2024 1 3) 23 0 0 0 (Some (-18000))),
    [("Open", VFloat (float_of_pos 11)); ("High", VFloat (float_of_pos 12));
     ("Low", VFloat (float_of_pos 10)); ("Close", VFloat float_nan);
     ("Adj Close", VFloat (float_of_pos 11)); ("Volume", VStr "n/a");
     ("Dividends", VStr "n/a")]);
   (VStr "   ", [("Open", VFloat (float_of_pos 1))])].



(** A run of the history script: the request names ticker ACME and the
    provider answers with the rows given. *)
Definition history_env (iterrows : list (value * HistoryFetcher.Series))
  : HistoryFetcher.Env := {|
  HistoryFetcher.stdin := Ok text_acme;
  HistoryFetcher.stdout := utf8;
  HistoryFetcher.yfinance := Ok (fun _ => Ok {|
    HistoryFetcher.ticker_history := fun _ =>
      Ok (Some {| HistoryFetcher.df_empty := false;
                  HistoryFetcher.df_iterrows := iterrows |});
    HistoryFetcher.ticker_info :=
      Returns (str_dict [("currency", VStr "USD")]) |});
  HistoryFetcher.utcnow := sample_now
|}.

Definition infinite_open_row : list (value * HistoryFetcher.Series) :=
  [(VDate (Date 2024 1 2),
    [("Open", VFloat float_inf); ("Close", VFloat (float_of_pos 11))])].

Definition request_acme : value := str_dict [("ticker", VStr "ACME")].

(** The document the history script writes for [infinite_open_row]. *)
Definition infinite_open_doc : json :=
  JObject
    [("ok", JTrue);
     ("payload",
       JObject
         [("ticker", JString "ACME");
          ("currency", JString "USD");
          ("fetched_at", JString "2024-01-02T03:04:05+00:00");
          ("rows",
            JArray
              [JObject
                 [("date", JString "2024-01-02");
                  ("open", JInfinity);
                  ("high", JNull);
                  ("low", JNull);
                  ("close", JFloat (float_of_pos 11));
                  ("adjusted_close", JNull);
                  ("volume", JNull);
                  ("dividends", JFloat float_zero);
                  ("stock_splits", JFloat float_zero)]])])].

(** A run of the market-data script against a provider that would answer
    every query with nothing. *)
Definition fetcher_env (stdin : str) : Fetcher.Env := {|
  Fetcher.stdin := Ok stdin;
  Fetcher.stdout := utf8;
  Fetcher.yfinance := Ok (fun _ => Ok {|
    Fetcher.ticker_attr := fun _ => Absent;
    Fetcher.ticker_history := fun _ => Ok VNone |});
  Fetcher.utcnow := sample_now
|}.

(** The [int(args.get("history_days", 30) or 30)] of the market-data
    script's [main]. *)
Definition history_days_arg {rt : Runtime} (args : list (value * value))
  : result Z :=
  (d <- py_or (dict_get args "history_days" (VInt 30)) (VInt 30) ;;
   py_int d)%py.

(** The [str(args.get("ticker", "")).strip()] of both scripts. *)
Definition ticker_arg {rt : Runtime} (args : list (value * value)) : str :=
  strip (py_str (dict_get args "ticker" (VStr ""))).

(** The document of the [invalid_input] response. *)
Definition invalid_input_doc : json :=
  JObject [("ok", JFalse); ("code", JString "invalid_input");
           ("error", JString "ticker is required")].

(** A provider for the market-data script: metadata with a NaN and a
    boxed scalar, a one-row history, two dividends, an empty balance
    sheet, a cash-flow table that cannot be decomposed, a calendar keyed
    by date; every other attribute is missing. *)
Definition sample_info : value :=
  str_dict
    [("currency", VStr "USD");
     ("beta", VFloat float_nan);
     ("marketCap",
       VObj {| ob_type := "int64"; ob_base := None; ob_str := "1000";
               ob_bool := Ok true; ob_float := Returns (float_of_pos 1000);
               ob_item := Returns (VInt 1000); ob_tolist := Absent;
               ob_empty := Absent; ob_to_dict := Absent;
               ob_to_pydatetime := Absent |})].

Definition sample_asset : Fetcher.Ticker := {|
  Fetcher.ticker_attr := fun name =>
    if str_eqb name "info" then Returns sample_info
    else if str_eqb name "dividends"
    then Returns (sample_frame false (Returns (VDict sample_dividends)))
    else if str_eqb name "balance_sheet"
    then Returns (sample_frame true Absent)
    else if str_eqb name "cashflow"
    then Returns (sample_frame false (Raises provider_down))
    else if str_eqb name "calendar"
    then Returns (VDict [(VDate (Date 2024 2 1), VTuple [VInt 1; VFloat float_inf])])
    else Absent;
  Fetcher.ticker_history := fun _ =>
    Ok (sample_frame false (Returns sample_split))
|}.

Definition sample_fetcher_env : Fetcher.Env := {|
  Fetcher.stdin := Ok text_acme;
  Fetcher.stdout := utf8;
  Fetcher.yfinance := Ok (fun _ => Ok sample_asset);
  Fetcher.utcnow := sample_now
|}.

(** The document the market-data script writes for
    [sample_fetcher_env]. *)
Definition sample_fetcher_doc : json :=
  JObject
    [("ok", JTrue); ("source", JString "yfinance");
     ("payload",
       JObject
         [("ticker", JString "ACME");
          ("fetched_at", JString "2024-01-02T03:04:05+00:00");
          ("info",
            JObject [("currency", JString "USD"); ("beta", JNull);
                     ("marketCap", JInt 1000)]);
          ("fast_info", JObject []);
          ("history",
            JObject [("index", JArray [JString "2024-01-02"]);
                     ("columns", JArray [JString "Close"]);
                     ("data", JArray [JArray [JNull]])]);
          ("dividends",
            JArray
              [JObject [("date", JString "2024-01-02T00:00:00");
                        ("value", JFloat float_one)];
               JObject [("date", JString "2024-04-02T00:00:00");
                        ("value", JNull)]]);
          ("financials", JNull);
          ("quarterly_financials", JNull);
          ("balance_sheet",
            JObject [("columns", JArray []); ("index", JArray []);
                     ("data", JArray [])]);
          ("quarterly_balance_sheet", JNull);
          ("cashflow", JNull);
          ("quarterly_cashflow", JNull);
          ("recommendations", JNull);
          ("institutional_holders", JNull);
          ("major_holders", JNull);
          ("calendar",
            JObject [("2024-02-01", JArray [JInt 1; JNull])])])].

Definition request_acme_bad_days : value :=
  str_dict [("ticker", VStr "ACME"); ("history_days", VList [VInt 7])].

Definition request_blank_bad_days : value :=
  str_dict [("ticker", VStr "  "); ("history_days", VList [VInt 7])].

(** The strings of [l] without repetition, each at its first place;
    [seen] are taken as already met. *)
Fixpoint unseen (seen l : list str) : list str :=
  match l with
  | [] => []
  | x :: l' =>
      if existsb (str_eqb x) seen then unseen seen l'
      else x :: unseen (seen ++ [x])%list l'
  end.

Definition first_occurrences (l : list str) : list str := unseen [] l.

(** [d.keys()] and [len(v)] *)
Definition keys (v : value) : list value :=
  match v with
  | VDict items => map fst items
  | _ => []
  end.

(** A mapping two of whose keys have the same string form. *)
Definition sample_colliding : list (value * value) :=
  [(VStr "2024", VInt 1); (VInt 2024, VInt 2); (VStr "q", VFloat float_inf)].

(** The documents of the failure responses and of a success response of
    the market-data script. *)
Definition failure_doc (code msg : str) : json :=
  JObject [("ok", JFalse); ("code", JString code); ("error", JString msg)].

Definition failure_codes : list str :=
  ["invalid_input"; "dependency_missing"; "runtime_error"].

Definition fetcher_success_doc (payload : json) : json :=
  JObject [("ok", JTrue); ("source", JString "yfinance"); ("payload", payload)].

Definition history_success_doc (payload : json) : json :=
  JObject [("ok", JTrue); ("payload", payload)].

(** The sixteen keys of the market-data payload, in order. *)
Definition fetcher_payload_keys : list str :=
  ["ticker"; "fetched_at"; "info"; "fast_info"; "history"; "dividends";
   "financials"; "quarterly_financials"; "balance_sheet";
   "quarterly_balance_sheet"; "cashflow"; "quarterly_cashflow";
   "recommendations"; "institutional_holders"; "major_holders"; "calendar"].

(** [{"ticker": "ACME", "history_days": n}] as parsed. *)
Definition request_days (n : Z) : list (value * value) :=
  [(VStr "ticker", VStr "ACME"); (VStr "history_days", VInt n)].

(** A run of the market-data script on [text_acme] against the given
    [yfinance] import outcome. *)
Definition fetcher_env_with (yf : result (str -> result Fetcher.Ticker))
  : Fetcher.Env := {|
  Fetcher.stdin := Ok text_acme;
  Fetcher.stdout := utf8;
  Fetcher.yfinance := yf;
  Fetcher.utcnow := sample_now
|}.

Definition import_error : exn :=
  Exn "ModuleNotFoundError" "No module named 'yfinance'".

(** What reading undecodable bytes from standard input raises. *)
Definition undecodable : exn :=
  Exn "UnicodeDecodeError"
      "'utf-8' codec can't decode byte 0xff in position 0: invalid start byte".

(** A text that UTF-8 cannot encode: it holds the lone surrogate
    U+D800. *)
Definition lone_surrogate : str := Char 55296 EmptyStr.

(** A ticker that is blank to Python though it holds no ASCII space:
    the no-break space U+00A0. *)
Definition no_break_space : str := Char 160 EmptyStr.

(** The token [json.dumps] writes, with [allow_nan] on, for a
    [float | None]. *)
Definition number_doc (x : option spec_float) : json :=
  match x with
  | None => JNull
  | Some S754_nan => JNaN
  | Some (S754_infinity false) => JInfinity
  | Some (S754_infinity true) => JNegInfinity
  | Some number => JFloat number
  end.

(** The document of one history row. *)
Definition row_doc {rt : Runtime} (date : str) (row : HistoryFetcher.Series)
  : json :=
  let cell name := HistoryFetcher._to_number (HistoryFetcher.row_get row name) in
  JObject
    [("date", JString date);
     ("open", number_doc (cell "Open"));
     ("high", number_doc (cell "High"));
     ("low", number_doc (cell "Low"));
     ("close", number_doc (cell "Close"));
     ("adjusted_close", number_doc (cell "Adj Close"));
     ("volume", number_doc (cell "Volume"));
     ("dividends",
       number_doc (Some (HistoryFetcher.number_or (cell "Dividends") float_zero)));
     ("stock_splits",
       number_doc (Some (HistoryFetcher.number_or (cell "Stock Splits")
                                                  float_zero)))].

(** Whether the token [NaN] occurs in a document. *)
Fixpoint has_nan_token (j : json) : bool :=
  match j with
  | JNaN => true
  | JArray l => existsb has_nan_token l
  | JObject l => existsb (fun m => has_nan_token (snd m)) l
  | _ => false
  end.

(** The keyword arguments the history script derives from a request. *)
Definition request_window {rt : Runtime} (args : list (value * value))
  : list (str * value) :=
  HistoryFetcher.history_kwargs
    (HistoryFetcher.str_or_none
       (strip (py_str (dict_get args "start_date" (VStr "")))))
    (HistoryFetcher.str_or_none
       (strip (py_str (dict_get args "period" (VStr "")))))
    (HistoryFetcher.str_or
       (strip (py_str (dict_get args "interval" (VStr "1d")))) "1d").

(** A keyword argument by name. *)
Definition kwarg (kwargs : list (str * value)) (name : str)
  : option value :=
  option_map snd (find (fun kv => str_eqb (fst kv) name) kwargs).

(** No character of [s] is whitespace. *)
Fixpoint no_space (s : str) : bool :=
  match s with
  | EmptyStr => true
  | Char c s' => negb (isspace c) && no_space s'
  end.

(** A calendar date with a four-digit year. *)
Definition valid_date (d : date) : Prop :=
  1 <= year d <= 9999 /\ 1 <= month d <= 12 /\ 1 <= day d <= 31.

(** Digits of [n] fit [width] characters and hold no whitespace. *)
Definition fits (width : nat) (n : nat) : bool :=
  let digits := str_of_int (Z.of_nat n) in
  (str_length digits <=? width)%nat && no_space digits.

(** A run of the history script on [text_acme] against the given
    import outcome. *)
Definition history_env_with
           (yf : result (str -> result HistoryFetcher.Ticker))
  : HistoryFetcher.Env := {|
  HistoryFetcher.stdin := Ok text_acme;
  HistoryFetcher.stdout := utf8;
  HistoryFetcher.yfinance := yf;
  HistoryFetcher.utcnow := sample_now
|}.

(** What the row loop of the history script iterates over: nothing for
    a missing or empty table. *)
Definition table_rows (history : option HistoryFetcher.DataFrame)
  : list (value * HistoryFetcher.Series) :=
  match history with
  | Some table =>
      if HistoryFetcher.df_empty table then []
      else HistoryFetcher.df_iterrows table
  | None => []
  end.

(** [(getattr(asset, "info", {}) or {}).get("currency")] *)
Definition currency_of {rt : Runtime} (asset : HistoryFetcher.Ticker)
  : result value :=
  (info <- getattr (HistoryFetcher.ticker_info asset) (VDict []) ;;
   info <- py_or info (VDict []) ;;
   py_get info "currency")%py.

(** The payload document of a success response of the history script. *)
Definition history_payload_doc {rt : Runtime} (ticker : str)
           (currency : json) (now : datetime)
           (rows : list (str * HistoryFetcher.Series)) : json :=
  JObject [("ticker", JString ticker);
           ("currency", currency);
           ("fetched_at", JString (datetime_isoformat now));
           ("rows", JArray (map (fun dr => row_doc (fst dr) (snd dr)) rows))].

(** A provider of the history script: the history call and the metadata
    attribute. *)
Definition history_asset (history : result (option HistoryFetcher.DataFrame))
           (info : attr value) : HistoryFetcher.Ticker := {|
  HistoryFetcher.ticker_history := fun _ => history;
  HistoryFetcher.ticker_info := info
|}.

Definition sample_table : HistoryFetcher.DataFrame := {|
  HistoryFetcher.df_empty := false;
  HistoryFetcher.df_iterrows := sample_iterrows
|}.

(** The attributes of the ticker the market-data script reads, in the
    order in which it reads them. *)
Definition fetcher_reads : list str :=
  ["info"; "fast_info"; "dividends"; "financials"; "quarterly_financials";
   "balance_sheet"; "quarterly_balance_sheet"; "cashflow";
   "quarterly_cashflow"; "recommendations"; "institutional_holders";
   "major_holders"; "calendar"].

(** [sample_asset] with one attribute, whose read raises. *)
Definition sample_asset_raising (name : str) : Fetcher.Ticker := {|
  Fetcher.ticker_attr := fun n =>
    if str_eqb n name then Raises provider_down
    else Fetcher.ticker_attr sample_asset n;
  Fetcher.ticker_history := Fetcher.ticker_history sample_asset
|}.

(** The two comprehensions of the normalizer, named. *)
Definition mapping {rt : Runtime} (items : list (value * value)) : value :=
  str_dict
    (dict_of_items
       (map (fun kv => (py_str (fst kv), Fetcher._to_json_compatible (snd kv)))
            items)).

Definition sequence {rt : Runtime} (xs : list value) : value :=
  VList (map Fetcher._to_json_compatible xs).

(** The one way the strict encoder refuses a value that is ready for
    it: an integer longer than the interpreter's digit limit. *)
Definition encodes_or_too_long {rt : Runtime} (r : result json) : Prop :=
  (exists j, r = Ok j)
  \/ (r = Raise int_too_long /\ int_max_str_digits <> 0%N).

End Props.

(* ===================================================================== *)
(** * Facts about the runtime *)
(* ===================================================================== *)

Module PyFacts.
Import Py Props.
#[local] Open Scope str_scope.

(** *** Text *)

Lemma str_eqb_refl (s : str) : str_eqb s s = true.
Proof.
  induction s as [|c s IH]; simpl; [reflexivity|].
  now rewrite N.eqb_refl, IH.
Qed.

Lemma str_eqb_eq (a b : str) : str_eqb a b = true <-> a = b.
Proof.
  split.
  - revert b. induction a as [|c a IH]; intros [|d b]; simpl; intros H;
      try reflexivity; try discriminate.
    apply andb_true_iff in H. destruct H as [Hc Hs].
    apply N.eqb_eq in Hc. subst d. now rewrite (IH b Hs).
  - intros ->. apply str_eqb_refl.
Qed.

Lemma str_eqb_spec (a b : str) : reflect (a = b) (str_eqb a b).
Proof.
  destruct (str_eqb a b) eqn:E; constructor.
  - now apply str_eqb_eq.
  - intros H. apply str_eqb_eq in H. congruence.
Qed.

Lemma str_eqb_sym (a b : str) : str_eqb a b = str_eqb b a.
Proof.
  destruct (str_eqb_spec a b) as [->|H].
  - now rewrite str_eqb_refl.
  - destruct (str_eqb_spec b a) as [->|_]; [contradiction | reflexivity].
Qed.

(** *** Floats *)

Lemma float_ne_self (x : spec_float) :
  float_ne x x = true <-> x = S754_nan.
Proof.
  unfold float_ne, SFeqb.
  destruct x as [s | s | | s m e]; simpl.
  - split; discriminate.
  - destruct s; simpl; split; discriminate.
  - split; reflexivity.
  - destruct s; rewrite Z.compare_refl, Pos.compare_cont_refl; simpl;
      split; discriminate.
Qed.

Lemma float_ne_self_finite (x : spec_float) :
  x <> S754_nan -> float_ne x x = false.
Proof.
  intros H. destruct (float_ne x x) eqn:E; [|reflexivity].
  apply float_ne_self in E. contradiction.
Qed.

Lemma distinct_NoDup (l : list str) : distinct l = true <-> NoDup l.
Proof.
  induction l as [|x l IH]; simpl.
  - split; [constructor | reflexivity].
  - rewrite andb_true_iff, negb_true_iff, IH. split.
    + intros [Hx Hl]. constructor; [|exact Hl].
      intros Hin. assert (existsb (str_eqb x) l = true) as E.
      { apply existsb_exists. exists x. split; [exact Hin|apply str_eqb_refl]. }
      congruence.
    + intros H. inversion H as [|? ? Hx Hl]; subst. split; [|exact Hl].
      destruct (existsb (str_eqb x) l) eqn:E; [|reflexivity].
      apply existsb_exists in E. destruct E as [y [Hy Exy]].
      apply str_eqb_eq in Exy. subst y. contradiction.
Qed.

(** *** Insertion into a dictionary *)

Lemma dict_setitem_fresh d k v :
  ~ In k (map fst d) -> dict_setitem d k v = (d ++ [(k, v)])%list.
Proof.
  induction d as [|[k' v'] d IH]; simpl; intros Hk; [reflexivity|].
  destruct (str_eqb_spec k' k) as [->|Hne].
  - exfalso. apply Hk. now left.
  - rewrite IH; [reflexivity|]. intros Hin. apply Hk. now right.
Qed.

Lemma dict_setitem_keys d k v :
  map fst (dict_setitem d k v)
  = if existsb (str_eqb k) (map fst d) then map fst d
    else (map fst d ++ [k])%list.
Proof.
  induction d as [|[k' v'] d IH]; simpl; [reflexivity|].
  rewrite (str_eqb_sym k k').
  destruct (str_eqb_spec k' k) as [->|Hne]; simpl; [reflexivity|].
  rewrite IH. destruct (existsb (str_eqb k) (map fst d)); reflexivity.
Qed.

Lemma dict_setitem_NoDup d k v :
  NoDup (map fst d) -> NoDup (map fst (dict_setitem d k v)).
Proof.
  intros Hd. rewrite dict_setitem_keys.
  destruct (existsb (str_eqb k) (map fst d)) eqn:E; [exact Hd|].
  apply NoDup_app; [exact Hd | repeat constructor; simpl; tauto |].
  intros x Hx [Hkx|[]]. subst x.
  assert (existsb (str_eqb k) (map fst d) = true) as E'.
  { apply existsb_exists. exists k. split; [exact Hx|apply str_eqb_refl]. }
  congruence.
Qed.

Lemma dict_setitem_values (P : value -> Prop) d k v :
  Forall (fun kv => P (snd kv)) d -> P v ->
  Forall (fun kv => P (snd kv)) (dict_setitem d k v).
Proof.
  intros Hd Hv. induction d as [|[k' v'] d IH]; simpl.
  - constructor; [exact Hv|constructor].
  - inversion Hd as [|? ? Hkv Hd']; subst.
    destruct (str_eqb k' k); constructor; auto.
Qed.

Lemma fold_setitem_NoDup (l acc : list (str * value)) :
  NoDup (map fst acc) ->
  NoDup (map fst (fold_left (fun d kv => dict_setitem d (fst kv) (snd kv)) l acc)).
Proof.
  revert acc. induction l as [|kv l IH]; simpl; intros acc H; [exact H|].
  apply IH, dict_setitem_NoDup, H.
Qed.

Lemma fold_setitem_values (P : value -> Prop) (l acc : list (str * value)) :
  Forall (fun kv => P (snd kv)) acc ->
  Forall (fun kv => P (snd kv)) l ->
  Forall (fun kv => P (snd kv))
         (fold_left (fun d kv => dict_setitem d (fst kv) (snd kv)) l acc).
Proof.
  revert acc. induction l as [|kv l IH]; simpl; intros acc Ha Hl; [exact Ha|].
  inversion Hl; subst. apply IH; [|assumption].
  apply dict_setitem_values; assumption.
Qed.

Lemma fold_setitem_fresh (l acc : list (str * value)) :
  NoDup (map fst (acc ++ l)%list) ->
  fold_left (fun d kv => dict_setitem d (fst kv) (snd kv)) l acc
  = (acc ++ l)%list.
Proof.
  revert acc. induction l as [|[k v] l IH]; simpl; intros acc H.
  - now rewrite app_nil_r.
  - assert (~ In k (map fst acc)) as Hk.
    { rewrite map_app in H. simpl in H.
      apply NoDup_remove_2 in H. intros Hin. apply H.
      apply in_or_app. now left. }
    rewrite dict_setitem_fresh by exact Hk.
    rewrite IH; rewrite <- app_assoc; simpl; [reflexivity|exact H].
Qed.

Lemma dict_of_items_NoDup l : NoDup (map fst (dict_of_items l)).
Proof. apply fold_setitem_NoDup. constructor. Qed.

Lemma dict_of_items_values (P : value -> Prop) l :
  Forall (fun kv => P (snd kv)) l ->
  Forall (fun kv => P (snd kv)) (dict_of_items l).
Proof. apply fold_setitem_values. constructor. Qed.

Lemma dict_of_items_distinct l :
  NoDup (map fst l) -> dict_of_items l = l.
Proof. intros H. unfold dict_of_items. now rewrite fold_setitem_fresh. Qed.

Lemma none_or_not (v : value) : v = VNone \/ v <> VNone.
Proof. destruct v; (now left) || (right; discriminate). Qed.

End PyFacts.

(* ===================================================================== *)
(** * The value normalizer of [yfinance_fetcher.py] *)
(* ===================================================================== *)

Module NormalizerFacts.
Import Py Props PyFacts Fetcher.
#[local] Open Scope str_scope.

Section WithRuntime.
Context {rt : Runtime}.

Lemma to_json_compatible_dict items :
  _to_json_compatible (VDict items) = mapping items.
Proof. reflexivity. Qed.

Lemma to_json_compatible_list xs :
  _to_json_compatible (VList xs) = sequence xs.
Proof. reflexivity. Qed.

Lemma to_json_compatible_tuple xs :
  _to_json_compatible (VTuple xs) = sequence xs.
Proof. reflexivity. Qed.

(** How the normalizer treats an object that is not an instance of
    exactly a built-in type. *)
Lemma to_json_compatible_object (o : pyobject value) :
  _to_json_compatible (VObj o)
  = match ob_base o with
    | Some (BInt _) => VObj o
    | Some (BFloat x) => if math_isfinite x then VObj o else VNone
    | Some (BComplex _ _) => VNone
    | Some (BDateTime d) => VStr (datetime_isoformat d)
    | Some (BDate d) => VStr (date_isoformat d)
    | derived =>
        match ob_item o with
        | Returns scalar => _to_json_compatible scalar
        | _ =>
            match derived with
            | Some (BDict items) => mapping items
            | Some (BList xs) | Some (BTuple xs) => sequence xs
            | _ =>
                match ob_tolist o with
                | Returns l => _to_json_compatible l
                | _ => VStr (ob_str o)
                end
            end
        end
    end.
Proof.
  simpl. destruct (ob_base o) as [[n|x|re im|s|d|d|items|xs|xs]|];
    reflexivity.
Qed.

Lemma is_normalized_str_dict (d : list (str * value)) :
  NoDup (map fst d) ->
  Forall (fun kv => is_normalized (snd kv) = true) d ->
  is_normalized (str_dict d) = true.
Proof.
  intros Hk Hv. simpl. apply andb_true_iff. split.
  - apply forallb_forall. intros kv Hin.
    apply in_map_iff in Hin. destruct Hin as [[k v] [<- Hin]]. simpl.
    rewrite Forall_forall in Hv. exact (Hv _ Hin).
  - apply distinct_NoDup. rewrite map_map. simpl. exact Hk.
Qed.

Lemma is_json_ready_str_dict (d : list (str * value)) :
  NoDup (map fst d) ->
  Forall (fun kv => is_json_ready (snd kv) = true) d ->
  is_json_ready (str_dict d) = true.
Proof.
  intros Hk Hv. simpl. apply andb_true_iff. split.
  - apply forallb_forall. intros kv Hin.
    apply in_map_iff in Hin. destruct Hin as [[k v] [<- Hin]]. simpl.
    rewrite Forall_forall in Hv. exact (Hv _ Hin).
  - apply distinct_NoDup. rewrite map_map. simpl. exact Hk.
Qed.

(** A NormalizedValue is in particular ready for the encoder. *)
Lemma normalized_is_json_ready (v : value) :
  is_normalized v = true -> is_json_ready v = true.
Proof.
  induction v as [ | b | n | x | re im | s | d | d | items IH | xs IH | xs IH
                   | o _ _ _ _ _ _ ] using value_ind;
    simpl; intros H; try reflexivity; try discriminate; try exact H.
  - apply andb_true_iff in H. destruct H as [Hall Hdist].
    rewrite Hdist, andb_true_r.
    rewrite forallb_forall in Hall. rewrite Forall_forall in IH.
    apply forallb_forall. intros kv Hin. specialize (Hall _ Hin).
    apply andb_true_iff in Hall. destruct Hall as [Hk Hv].
    rewrite Hk. simpl. exact (proj2 (IH _ Hin) Hv).
  - rewrite forallb_forall in H. rewrite Forall_forall in IH.
    apply forallb_forall. intros x Hin. exact (IH _ Hin (H _ Hin)).
Qed.

Lemma mapping_is_json_ready (items : list (value * value)) :
  Forall (fun kv => is_json_ready (_to_json_compatible (snd kv)) = true) items ->
  is_json_ready (mapping items) = true.
Proof.
  intros H. apply is_json_ready_str_dict.
  - apply dict_of_items_NoDup.
  - apply (dict_of_items_values (fun v => is_json_ready v = true)).
    apply Forall_forall. intros kv Hin.
    apply in_map_iff in Hin. destruct Hin as [kv' [<- Hin]]. simpl.
    rewrite Forall_forall in H. exact (H _ Hin).
Qed.

Lemma sequence_is_json_ready (xs : list value) :
  Forall (fun x => is_json_ready (_to_json_compatible x) = true) xs ->
  is_json_ready (sequence xs) = true.
Proof.
  intros H. apply forallb_forall. intros y Hin.
  apply in_map_iff in Hin. destruct Hin as [x [<- Hin]].
  rewrite Forall_forall in H. exact (H _ Hin).
Qed.

(** Whatever the input, the value the normalizer returns holds, at every
    depth, only null, booleans, strings, instances of [int], finite
    instances of [float], sequences and string-keyed mappings. *)
Lemma to_json_compatible_is_json_ready (v : value) :
  is_json_ready (_to_json_compatible v) = true.
Proof.
  induction v as [ | b | n | x | re im | s | d | d | items IH | xs IH | xs IH
                   | o Hbase Hitem Htolist _ _ _ ] using value_ind;
    try reflexivity.
  - simpl. destruct (math_isfinite x) eqn:E; simpl; [exact E | reflexivity].
  - rewrite to_json_compatible_dict. apply mapping_is_json_ready.
    apply Forall_forall. intros kv Hin.
    rewrite Forall_forall in IH. exact (proj2 (IH _ Hin)).
  - rewrite to_json_compatible_list. now apply sequence_is_json_ready.
  - rewrite to_json_compatible_tuple. now apply sequence_is_json_ready.
  - rewrite to_json_compatible_object. revert Hbase.
    destruct (ob_base o) as [[n|x|re im|s|d|d|items|xs|xs]|] eqn:Eb;
      simpl; intros Hbase.
    + unfold is_number_object. now rewrite Eb.
    + destruct (math_isfinite x) eqn:E; [|reflexivity].
      simpl. unfold is_number_object. now rewrite Eb.
    + reflexivity.
    + destruct (ob_item o) as [|e|scalar]; simpl in Hitem;
        [ | | exact Hitem];
        (destruct (ob_tolist o) as [|e'|l]; simpl in Htolist;
         [reflexivity | reflexivity | exact Htolist]).
    + reflexivity.
    + reflexivity.
    + assert (is_json_ready (mapping items) = true) as Hm.
      { apply mapping_is_json_ready. apply Forall_forall. intros kv Hin.
        rewrite Forall_forall in Hbase. exact (proj2 (Hbase _ Hin)). }
      destruct (ob_item o) as [|e|scalar]; simpl in Hitem;
        [exact Hm | exact Hm | exact Hitem].
    + pose proof (sequence_is_json_ready xs Hbase) as Hs.
      destruct (ob_item o) as [|e|scalar]; simpl in Hitem;
        [exact Hs | exact Hs | exact Hitem].
    + pose proof (sequence_is_json_ready xs Hbase) as Hs.
      destruct (ob_item o) as [|e|scalar]; simpl in Hitem;
        [exact Hs | exact Hs | exact Hitem].
    + destruct (ob_item o) as [|e|scalar]; simpl in Hitem;
        [ | | exact Hitem];
        (destruct (ob_tolist o) as [|e'|l]; simpl in Htolist;
         [reflexivity | reflexivity | exact Htolist]).
Qed.

(** Such a value is a fixed point of the normalizer. *)
Lemma json_ready_is_fixed (v : value) :
  is_json_ready v = true -> _to_json_compatible v = v.
Proof.
  induction v as [ | b | n | x | re im | s | d | d | items IH | xs IH | xs IH
                   | o _ _ _ _ _ _ ] using value_ind;
    intros H; try reflexivity; try discriminate.
  - simpl in *. now rewrite H.
  - rewrite to_json_compatible_dict. unfold mapping.
    simpl in H. apply andb_true_iff in H. destruct H as [Hall Hdist].
    rewrite forallb_forall in Hall. rewrite Forall_forall in IH.
    assert (map (fun kv => (py_str (fst kv), _to_json_compatible (snd kv))) items
            = map (fun kv => (key_text (fst kv), snd kv)) items) as E.
    { apply map_ext_in. intros [k v] Hin. simpl.
      specialize (Hall _ Hin). simpl in Hall.
      apply andb_true_iff in Hall. destruct Hall as [Hk Hv].
      pose proof (proj2 (IH _ Hin) Hv) as Ev. simpl in Ev. rewrite Ev.
      destruct k; try discriminate. reflexivity. }
    rewrite E. rewrite dict_of_items_distinct.
    + unfold str_dict. rewrite map_map. f_equal.
      rewrite <- (map_id items) at 2. apply map_ext_in.
      intros [k v] Hin. simpl. specialize (Hall _ Hin). simpl in Hall.
      apply andb_true_iff in Hall. destruct Hall as [Hk _].
      destruct k; try discriminate. reflexivity.
    + rewrite map_map. simpl. apply distinct_NoDup. exact Hdist.
  - rewrite to_json_compatible_list. unfold sequence. f_equal.
    rewrite <- (map_id xs) at 2. apply map_ext_in.
    intros x Hin. simpl in H. rewrite forallb_forall in H.
    rewrite Forall_forall in IH. apply IH; [exact Hin | apply H, Hin].
  - rewrite to_json_compatible_object.
    simpl in H. unfold is_number_object in H.
    destruct (ob_base o) as [[n|x|re im|s|d|d|items|xs|xs]|];
      try discriminate H; [reflexivity|]. now rewrite H.
Qed.

(** C3. The normalizer does not always return a NormalizedValue: an
    instance of a subclass of [int], and a finite instance of a subclass
    of [float] such as [numpy.float64], passes the [isinstance] tests for
    [int] and [float] before the unwrapping through [item()] is tried,
    and is returned as the object it is, neither unwrapped nor turned
    into a string; so is it wherever it occurs in a list or a mapping. *)
Theorem to_json_compatible_keeps_number_objects :
  forall o : pyobject value,
    is_number_object o = true ->
    _to_json_compatible (VObj o) = VObj o
    /\ is_normalized (_to_json_compatible (VObj o)) = false
    /\ is_normalized (_to_json_compatible (VList [VObj o])) = false
    /\ is_normalized (_to_json_compatible (VDict [(VStr "beta", VObj o)]))
       = false.
Proof.
  intros o H.
  assert (_to_json_compatible (VObj o) = VObj o) as E
    by (apply json_ready_is_fixed; exact H).
  split; [exact E|].
  rewrite to_json_compatible_list, to_json_compatible_dict.
  unfold sequence, mapping. cbn [map fst snd]. rewrite E. repeat split.
Qed.

(** C4. A finite float is returned as it is; NaN, +Infinity and -Infinity
    become null. *)
Theorem to_json_compatible_float :
  (forall x, _to_json_compatible (VFloat x)
             = if math_isfinite x then VFloat x else VNone)
  /\ (forall s, _to_json_compatible (VFloat (S754_zero s)) = VFloat (S754_zero s))
  /\ (forall s m e, _to_json_compatible (VFloat (S754_finite s m e))
                    = VFloat (S754_finite s m e))
  /\ _to_json_compatible (VFloat float_nan) = VNone
  /\ _to_json_compatible (VFloat float_inf) = VNone
  /\ _to_json_compatible (VFloat float_neg_inf) = VNone.
Proof. repeat split. Qed.

(** C5. A string is returned unchanged, as a string: it is never turned
    into the sequence of its characters. *)
Theorem to_json_compatible_str :
  (forall s, _to_json_compatible (VStr s) = VStr s)
  /\ (forall s xs, _to_json_compatible (VStr s) <> VList xs)
  /\ _to_json_compatible (VStr "abc") = VStr "abc".
Proof.
  repeat split. intros s xs H. discriminate H.
Qed.

(** C10. [_to_json_compatible] is idempotent: normalizing an already
    normalized value changes nothing. *)
Theorem to_json_compatible_idempotent :
  forall v : value,
    _to_json_compatible (_to_json_compatible v) = _to_json_compatible v.
Proof.
  intros v. apply json_ready_is_fixed, to_json_compatible_is_json_ready.
Qed.

End WithRuntime.

Lemma to_json_compatible_keeps_number_objects_witness :
  let rt := sample_runtime "{}" (VDict []) in
  let o := {| ob_type := "float64"; ob_base := Some (BFloat float_one);
              ob_str := "1.0"; ob_bool := Ok true;
              ob_float := Returns float_one;
              ob_item := Returns (VFloat float_one);
              ob_tolist := Returns (VFloat float_one);
              ob_empty := Absent; ob_to_dict := Absent;
              ob_to_pydatetime := Absent |} in
  is_number_object o = true
  /\ _to_json_compatible (VObj o) = VObj o
  /\ is_normalized (_to_json_compatible (VObj o)) = false.
Proof.
  intros rt o.
  assert (is_number_object o = true) as H by reflexivity.
  split; [exact H|].
  destruct (@to_json_compatible_keeps_number_objects rt o H) as [E [N _]].
  split; [exact E | exact N].
Defined.

End NormalizerFacts.

(* ===================================================================== *)
(** * The table and series adapters of [yfinance_fetcher.py] *)
(* ===================================================================== *)

Module AdapterFacts.
Import Py Props PyFacts Fetcher.
#[local] Open Scope str_scope.
#[local] Open Scope py_scope.

Section WithRuntime.
Context {rt : Runtime}.

Lemma df_to_payload_unfold (df : value) :
  df <> VNone ->
  _df_to_payload df
  = match (is_empty <- reports_empty df ;;
           if is_empty then Ok empty_table
           else split <- access "to_dict" (attr_of ob_to_dict df) ;;
                Ok (_to_json_compatible split))
    with
    | Ok payload => payload
    | Raise _ => VNone
    end.
Proof.
  intros H. unfold _df_to_payload, reports_empty.
  destruct df; try contradiction; try reflexivity;
    destruct (getattr _ _); reflexivity.
Qed.

Lemma series_to_payload_unfold (series : value) :
  series <> VNone ->
  _series_to_payload series
  = match (is_empty <- reports_empty series ;;
           if is_empty then Ok (VList [])
           else if hasattr (attr_of ob_to_dict series) then
                  raw_dict <- access "to_dict" (attr_of ob_to_dict series) ;;
                  items <- dict_items raw_dict ;;
                  Ok (VList (map series_point items))
                else Ok (_to_json_compatible series))
    with
    | Ok payload => payload
    | Raise _ => VNone
    end.
Proof.
  intros H. unfold _series_to_payload, reports_empty.
  destruct series; try contradiction; try reflexivity;
    destruct (getattr _ _); reflexivity.
Qed.

(** C6. [_df_to_payload] returns null for null; the triple of empty
    sequences when the table reports itself empty; and null, rather than
    an exception, when reading the [empty] flag or decomposing the
    non-empty table with [to_dict] raises. *)
Theorem df_to_payload_cases :
  _df_to_payload VNone = VNone
  /\ (forall df, df <> VNone -> reports_empty df = Ok true ->
        _df_to_payload df
        = str_dict [("columns", VList []); ("index", VList []);
                    ("data", VList [])])
  /\ (forall df e, df <> VNone -> reports_empty df = Raise e ->
        _df_to_payload df = VNone)
  /\ (forall df e, df <> VNone -> reports_empty df = Ok false ->
        access "to_dict" (attr_of ob_to_dict df) = Raise e ->
        _df_to_payload df = VNone).
Proof.
  split; [reflexivity|]. repeat split.
  - intros df Hdf He. rewrite df_to_payload_unfold by exact Hdf.
    rewrite He. reflexivity.
  - intros df e Hdf He. rewrite df_to_payload_unfold by exact Hdf.
    rewrite He. reflexivity.
  - intros df e Hdf He Hd. rewrite df_to_payload_unfold by exact Hdf.
    rewrite He. simpl. rewrite Hd. reflexivity.
Qed.

(** A table that is present and not empty is decomposed and normalized. *)
Lemma df_to_payload_split (df split : value) :
  df <> VNone -> reports_empty df = Ok false ->
  attr_of ob_to_dict df = Returns split ->
  _df_to_payload df = _to_json_compatible split.
Proof.
  intros Hdf He Hd. rewrite df_to_payload_unfold by exact Hdf.
  rewrite He. simpl. rewrite Hd. reflexivity.
Qed.


(** A series without [to_dict] is normalized as a generic value. *)
Lemma series_to_payload_generic (series : value) :
  series <> VNone -> reports_empty series = Ok false ->
  attr_of ob_to_dict series = Absent ->
  _series_to_payload series = _to_json_compatible series.
Proof.
  intros Hs He Hd. rewrite series_to_payload_unfold by exact Hs.
  rewrite He. simpl. rewrite Hd. reflexivity.
Qed.



(** Both adapters return null or a value ready for the encoder. *)
Lemma df_to_payload_json_ready (df : value) :
  is_json_ready (_df_to_payload df) = true.
Proof.
  destruct (none_or_not df) as [->|Hdf]; [reflexivity|].
  rewrite df_to_payload_unfold by exact Hdf.
  destruct (reports_empty df) as [[|]|e]; simpl; try reflexivity.
  destruct (access "to_dict" (attr_of ob_to_dict df)) as [split|e]; simpl;
    [apply NormalizerFacts.to_json_compatible_is_json_ready | reflexivity].
Qed.

Lemma series_point_json_ready (pair : value * value) :
  is_json_ready (series_point pair) = true.
Proof.
  unfold series_point. simpl.
  now rewrite !NormalizerFacts.to_json_compatible_is_json_ready.
Qed.

Lemma series_to_payload_json_ready (series : value) :
  is_json_ready (_series_to_payload series) = true.
Proof.
  destruct (none_or_not series) as [->|Hs]; [reflexivity|].
  rewrite series_to_payload_unfold by exact Hs.
  destruct (reports_empty series) as [[|]|e]; simpl; try reflexivity.
  destruct (hasattr (attr_of ob_to_dict series)).
  - destruct (access "to_dict" (attr_of ob_to_dict series)) as [raw|e]; simpl;
      [|reflexivity].
    destruct (dict_items raw) as [items|e]; simpl; [|reflexivity].
    apply forallb_forall. intros y Hin.
    apply in_map_iff in Hin. destruct Hin as [pair [<- _]].
    apply series_point_json_ready.
  - apply NormalizerFacts.to_json_compatible_is_json_ready.
Qed.

End WithRuntime.

Lemma df_to_payload_cases_witness :
  let rt := sample_runtime "{}" (VDict []) in
  (sample_frame true Absent <> VNone
   /\ reports_empty (sample_frame true Absent) = Ok true
   /\ _df_to_payload (sample_frame true Absent)
      = str_dict [("columns", VList []); ("index", VList []);
                  ("data", VList [])])
  /\ (sample_frame false (Raises provider_down) <> VNone
      /\ reports_empty (sample_frame false (Raises provider_down)) = Ok false
      /\ access "to_dict"
                (attr_of ob_to_dict (sample_frame false (Raises provider_down)))
         = Raise provider_down
      /\ _df_to_payload (sample_frame false (Raises provider_down)) = VNone).
Proof.
  intros rt.
  assert (sample_frame true Absent <> VNone) as H1 by discriminate.
  assert (sample_frame false (Raises provider_down) <> VNone) as H2
    by discriminate.
  destruct (@df_to_payload_cases rt) as [_ [Hempty [_ Hfail]]].
  split.
  - split; [exact H1|]. split; [reflexivity|].
    apply Hempty; [exact H1 | reflexivity].
  - split; [exact H2|]. split; [reflexivity|]. split; [reflexivity|].
    apply (Hfail _ provider_down); [exact H2 | reflexivity | reflexivity].
Defined.



End AdapterFacts.

(* ===================================================================== *)
(** * The history rows of [yfinance_history_fetcher.py] *)
(* ===================================================================== *)

Module HistoryFacts.
Import Py Props PyFacts HistoryFetcher.
#[local] Open Scope str_scope.
#[local] Open Scope py_scope.

Section WithRuntime.
Context {rt : Runtime}.



(** The loop over the rows as a whole: it raises what the first index
    whose resolution raises raised, and otherwise yields one row per
    index that resolves to a date, in table order. *)
Lemma history_rows_outcome (iterrows : list (value * Series)) :
  history_rows iterrows
  = match first_failure iterrows with
    | Some e => Raise e
    | None =>
        Ok (map (fun dr => history_row (fst dr) (snd dr)) (dated_rows iterrows))
    end.
Proof.
  induction iterrows as [|[index row] rest IH]; simpl; [reflexivity|].
  destruct (_index_to_utc_date index) as [[date|]|e]; simpl.
  - destruct (str_is_empty date); [exact IH|].
    rewrite IH. destruct (first_failure rest); reflexivity.
  - exact IH.
  - reflexivity.
Qed.

Lemma history_rows_dated (iterrows : list (value * Series)) (rows : list value) :
  history_rows iterrows = Ok rows ->
  rows = map (fun dr => history_row (fst dr) (snd dr)) (dated_rows iterrows).
Proof.
  rewrite history_rows_outcome.
  destruct (first_failure iterrows); intros H; inversion H. reflexivity.
Qed.

Lemma number_or_zero_default (x : option spec_float) :
  x = None -> number_or x float_zero = float_zero.
Proof. now intros ->. Qed.


End WithRuntime.



End HistoryFacts.

(* ===================================================================== *)
(** * The JSON encoder *)
(* ===================================================================== *)

Module EncoderFacts.
Import Py Props PyFacts.
#[local] Open Scope str_scope.
#[local] Open Scope py_scope.

Section WithRuntime.
Context {rt : Runtime}.

Lemma bind_ok {A B} (a : A) (k : A -> result B) : bind (Ok a) k = k a.
Proof. reflexivity. Qed.

Lemma dumps_list a xs :
  dumps a (VList xs) = (js <- dumps_elems a xs ;; Ok (JArray js)).
Proof. reflexivity. Qed.

Lemma dumps_tuple a xs :
  dumps a (VTuple xs) = (js <- dumps_elems a xs ;; Ok (JArray js)).
Proof. reflexivity. Qed.

Lemma dumps_dict a items :
  dumps a (VDict items) = (ms <- dumps_members a items ;; Ok (JObject ms)).
Proof. reflexivity. Qed.

(** An object is encoded as the built-in value it derives from, and
    refused when it derives from none the encoder knows. *)
Lemma dumps_object a (o : pyobject value) :
  dumps a (VObj o)
  = match ob_base o with
    | Some (BStr s) => Ok (JString s)
    | Some (BInt n) => (n <- intstr n ;; Ok (JInt n))
    | Some (BFloat x) => floatstr a x
    | Some (BList xs) | Some (BTuple xs) =>
        (js <- dumps_elems a xs ;; Ok (JArray js))
    | Some (BDict items) =>
        (ms <- dumps_members a items ;; Ok (JObject ms))
    | _ => Raise (not_serializable (VObj o))
    end.
Proof.
  simpl. destruct (ob_base o) as [[n|x|re im|s|d|d|items|xs|xs]|];
    reflexivity.
Qed.

Lemma dumps_elems_cons a x l :
  dumps_elems a (x :: l)
  = (j <- dumps a x ;; js <- dumps_elems a l ;; Ok (j :: js)).
Proof. reflexivity. Qed.

Lemma dumps_members_cons a kv l :
  dumps_members a (kv :: l)
  = (k <- dumps_key a (fst kv) ;; j <- dumps a (snd kv) ;;
     ms <- dumps_members a l ;; Ok ((k, j) :: ms)).
Proof. reflexivity. Qed.

Lemma floatstr_strict x j :
  floatstr false x = Ok j -> strict_json j = true.
Proof.
  destruct x as [s|[|]| |s m e]; simpl; intros H; inversion H; reflexivity.
Qed.

Lemma intstr_strict n j :
  (n <- intstr n ;; Ok (JInt n)) = Ok j -> strict_json j = true.
Proof.
  unfold intstr. destruct (exceeds_digits n); simpl; intros H;
    inversion H; reflexivity.
Qed.

(** With [allow_nan=False] the encoder raises on a non-finite float. *)
Lemma floatstr_fails_loudly x :
  math_isfinite x = false -> floatstr false x = Raise not_json_compliant.
Proof.
  destruct x as [s|[|]| |s m e]; simpl; intros H;
    try discriminate; reflexivity.
Qed.

Lemma dumps_elems_strict (xs : list value) :
  Forall (fun x => forall j, dumps false x = Ok j -> strict_json j = true) xs ->
  forall js, dumps_elems false xs = Ok js -> forallb strict_json js = true.
Proof.
  induction 1 as [|x l Hx _ IHl]; intros js E.
  - inversion E. reflexivity.
  - rewrite dumps_elems_cons in E.
    destruct (dumps false x) as [j|?] eqn:Ej; [|discriminate].
    destruct (dumps_elems false l) as [js'|?]; [|discriminate].
    simpl in E. inversion E; subst. simpl.
    rewrite (Hx _ eq_refl), (IHl _ eq_refl). reflexivity.
Qed.

Lemma dumps_members_strict (items : list (value * value)) :
  Forall (fun kv =>
            (forall j, dumps false (fst kv) = Ok j -> strict_json j = true)
            /\ (forall j, dumps false (snd kv) = Ok j -> strict_json j = true))
         items ->
  forall ms, dumps_members false items = Ok ms ->
             forallb (fun m => strict_json (snd m)) ms = true.
Proof.
  induction 1 as [|kv l [_ Hv] _ IHl]; intros ms E.
  - inversion E. reflexivity.
  - rewrite dumps_members_cons in E.
    destruct (dumps_key false (fst kv)) as [k|?]; [|discriminate].
    destruct (dumps false (snd kv)) as [j|?] eqn:Ej; [|discriminate].
    destruct (dumps_members false l) as [ms'|?]; [|discriminate].
    simpl in E. inversion E; subst. simpl.
    rewrite (Hv _ eq_refl), (IHl _ eq_refl). reflexivity.
Qed.

(** Whatever [json.dumps(..., allow_nan=False)] returns is strict JSON. *)
Lemma dumps_strict (v : value) :
  forall j, dumps false v = Ok j -> strict_json j = true.
Proof.
  induction v as [ | b | n | x | re im | s | d | d | items IH | xs IH | xs IH
                   | o Hbase _ _ _ _ _ ] using value_ind;
    intros j H; try (simpl in H; discriminate H);
    try (simpl in H; inversion H; reflexivity).
  - destruct b; simpl in H; inversion H; reflexivity.
  - exact (intstr_strict n j H).
  - apply (floatstr_strict x). exact H.
  - rewrite dumps_dict in H.
    destruct (dumps_members false items) as [ms|e] eqn:E; [|discriminate].
    simpl in H. inversion H; subst. simpl.
    exact (dumps_members_strict items IH ms E).
  - rewrite dumps_list in H.
    destruct (dumps_elems false xs) as [js|e] eqn:E; [|discriminate].
    simpl in H. inversion H; subst. simpl.
    exact (dumps_elems_strict xs IH js E).
  - rewrite dumps_tuple in H.
    destruct (dumps_elems false xs) as [js|e] eqn:E; [|discriminate].
    simpl in H. inversion H; subst. simpl.
    exact (dumps_elems_strict xs IH js E).
  - rewrite dumps_object in H. revert Hbase H.
    destruct (ob_base o) as [[n|x|re im|s|d|d|items|xs|xs]|]; simpl;
      intros Hbase H; try discriminate H.
    + exact (intstr_strict n j H).
    + exact (floatstr_strict x j H).
    + inversion H. reflexivity.
    + destruct (dumps_members false items) as [ms|e] eqn:E; [|discriminate].
      simpl in H. inversion H; subst. simpl.
      exact (dumps_members_strict items Hbase ms E).
    + destruct (dumps_elems false xs) as [js|e] eqn:E; [|discriminate].
      simpl in H. inversion H; subst. simpl.
      exact (dumps_elems_strict xs Hbase js E).
    + destruct (dumps_elems false xs) as [js|e] eqn:E; [|discriminate].
      simpl in H. inversion H; subst. simpl.
      exact (dumps_elems_strict xs Hbase js E).
Qed.

Lemma dumps_key_no_non_finite (k : value) (s : str) :
  dumps_key false k = Ok s -> key_non_finite k = false.
Proof.
  destruct k as [ | b | n | x | re im | t | d | d | items | xs | xs | o];
    try reflexivity; simpl.
  - unfold float_key. destruct (math_isfinite x); [reflexivity|discriminate].
  - destruct (ob_base o) as [[n|x|re im|t|d|d|items|xs|xs]|];
      try reflexivity.
    unfold float_key. destruct (math_isfinite x); [reflexivity|discriminate].
Qed.

Lemma dumps_elems_no_non_finite (xs : list value) :
  Forall (fun x => forall j, dumps false x = Ok j -> holds_non_finite x = false)
         xs ->
  forall js, dumps_elems false xs = Ok js ->
             existsb holds_non_finite xs = false.
Proof.
  induction 1 as [|x l Hx _ IHl]; intros js E; [reflexivity|].
  rewrite dumps_elems_cons in E.
  destruct (dumps false x) as [j'|?] eqn:Ej; [|discriminate].
  destruct (dumps_elems false l) as [js'|?]; [|discriminate].
  simpl. now rewrite (Hx _ eq_refl), (IHl _ eq_refl).
Qed.

Lemma dumps_members_no_non_finite (items : list (value * value)) :
  Forall (fun kv =>
            (forall j, dumps false (fst kv) = Ok j ->
                       holds_non_finite (fst kv) = false)
            /\ (forall j, dumps false (snd kv) = Ok j ->
                          holds_non_finite (snd kv) = false))
         items ->
  forall ms, dumps_members false items = Ok ms ->
             existsb (fun kv => key_non_finite (fst kv)
                                || holds_non_finite (snd kv)) items = false.
Proof.
  induction 1 as [|kv l [_ Hv] _ IHl]; intros ms E; [reflexivity|].
  rewrite dumps_members_cons in E.
  destruct (dumps_key false (fst kv)) as [k|?] eqn:Ek; [|discriminate].
  destruct (dumps false (snd kv)) as [j'|?] eqn:Ej; [|discriminate].
  destruct (dumps_members false l) as [ms'|?]; [|discriminate].
  simpl. rewrite (Hv _ eq_refl), (IHl _ eq_refl).
  now rewrite (dumps_key_no_non_finite _ _ Ek).
Qed.

(** With [allow_nan=False] the encoder returns nothing for a value in
    which it comes upon a non-finite float: it raises. *)
Lemma dumps_no_non_finite (v : value) :
  forall j, dumps false v = Ok j -> holds_non_finite v = false.
Proof.
  induction v as [ | b | n | x | re im | s | d | d | items IH | xs IH | xs IH
                   | o Hbase _ _ _ _ _ ] using value_ind;
    intros j H; try reflexivity.
  - simpl. destruct (math_isfinite x) eqn:E; [reflexivity|].
    simpl in H. rewrite (floatstr_fails_loudly x E) in H. discriminate.
  - rewrite dumps_dict in H.
    destruct (dumps_members false items) as [ms|e] eqn:E; [|discriminate].
    exact (dumps_members_no_non_finite items IH ms E).
  - rewrite dumps_list in H.
    destruct (dumps_elems false xs) as [js|e] eqn:E; [|discriminate].
    exact (dumps_elems_no_non_finite xs IH js E).
  - rewrite dumps_tuple in H.
    destruct (dumps_elems false xs) as [js|e] eqn:E; [|discriminate].
    exact (dumps_elems_no_non_finite xs IH js E).
  - rewrite dumps_object in H. simpl. revert Hbase H.
    destruct (ob_base o) as [[n|x|re im|s|d|d|items|xs|xs]|]; simpl;
      intros Hbase H; try reflexivity.
    + destruct (math_isfinite x) eqn:E; [reflexivity|].
      rewrite (floatstr_fails_loudly x E) in H. discriminate.
    + destruct (dumps_members false items) as [ms|e] eqn:E; [|discriminate].
      exact (dumps_members_no_non_finite items Hbase ms E).
    + destruct (dumps_elems false xs) as [js|e] eqn:E; [|discriminate].
      exact (dumps_elems_no_non_finite xs Hbase js E).
    + destruct (dumps_elems false xs) as [js|e] eqn:E; [|discriminate].
      exact (dumps_elems_no_non_finite xs Hbase js E).
Qed.

Lemma dumps_fails_loudly (v : value) :
  holds_non_finite v = true -> exists e, dumps false v = Raise e.
Proof.
  intros H. destruct (dumps false v) as [j|e] eqn:E.
  - rewrite (dumps_no_non_finite v j E) in H. discriminate.
  - now exists e.
Qed.

Lemma intstr_encodes n :
  encodes_or_too_long (n <- intstr n ;; Ok (JInt n)).
Proof.
  unfold encodes_or_too_long, intstr.
  destruct (exceeds_digits n) eqn:E; simpl; [|left; eexists; reflexivity].
  right. split; [reflexivity|]. intros H. unfold exceeds_digits in E.
  rewrite H in E. discriminate.
Qed.

Lemma dumps_elems_encode (xs : list value) :
  Forall (fun x => is_json_ready x = true ->
                   encodes_or_too_long (dumps false x)) xs ->
  forallb is_json_ready xs = true ->
  (exists js, dumps_elems false xs = Ok js)
  \/ (dumps_elems false xs = Raise int_too_long
      /\ int_max_str_digits <> 0%N).
Proof.
  induction 1 as [|x l Hx _ IHl]; intros H; [left; eexists; reflexivity|].
  simpl in H. apply andb_true_iff in H. destruct H as [Hn Hl].
  rewrite dumps_elems_cons.
  destruct (Hx Hn) as [[j Ej]|[Ej L]]; rewrite Ej; simpl; [|now right].
  destruct (IHl Hl) as [[js Ejs]|[Ejs L]]; rewrite Ejs; simpl;
    [left; eexists; reflexivity | now right].
Qed.

Lemma dumps_members_encode (items : list (value * value)) :
  Forall (fun kv =>
            (is_json_ready (fst kv) = true ->
             encodes_or_too_long (dumps false (fst kv)))
            /\ (is_json_ready (snd kv) = true ->
                encodes_or_too_long (dumps false (snd kv)))) items ->
  forallb (fun kv => is_str (fst kv) && is_json_ready (snd kv)) items = true ->
  (exists ms, dumps_members false items = Ok ms)
  \/ (dumps_members false items = Raise int_too_long
      /\ int_max_str_digits <> 0%N).
Proof.
  induction 1 as [|kv l [_ Hv] _ IHl]; intros H; [left; eexists; reflexivity|].
  simpl in H. apply andb_true_iff in H. destruct H as [Hkv Hl].
  apply andb_true_iff in Hkv. destruct Hkv as [Hk Hn].
  rewrite dumps_members_cons.
  destruct (fst kv); try discriminate Hk. simpl dumps_key. rewrite bind_ok.
  destruct (Hv Hn) as [[j Ej]|[Ej L]]; rewrite Ej; simpl; [|now right].
  destruct (IHl Hl) as [[ms Ems]|[Ems L]]; rewrite Ems; simpl;
    [left; eexists; reflexivity | now right].
Qed.

Lemma json_ready_encodes (v : value) :
  is_json_ready v = true -> encodes_or_too_long (dumps false v).
Proof.
  induction v as [ | b | n | x | re im | s | d | d | items IH | xs IH | xs IH
                   | o _ _ _ _ _ _ ] using value_ind;
    simpl is_json_ready; intros H; try discriminate;
    try (left; eexists; reflexivity).
  - destruct b; left; eexists; reflexivity.
  - apply intstr_encodes.
  - destruct x; try discriminate; left; eexists; reflexivity.
  - apply andb_true_iff in H. destruct H as [H _].
    rewrite dumps_dict.
    destruct (dumps_members_encode items IH H) as [[ms E]|[E L]]; rewrite E;
      [left; eexists; reflexivity | now right].
  - rewrite dumps_list.
    destruct (dumps_elems_encode xs IH H) as [[js E]|[E L]]; rewrite E;
      [left; eexists; reflexivity | now right].
  - rewrite dumps_object. unfold is_number_object in H.
    destruct (ob_base o) as [[n|x|re im|s|d|d|items|xs|xs]|];
      try discriminate H.
    + apply intstr_encodes.
    + destruct x; try discriminate; left; eexists; reflexivity.
Qed.

(** Where the interpreter sets no digit limit, a value that is ready
    for the encoder always encodes. *)
Lemma json_ready_encodes_unlimited (v : value) :
  int_max_str_digits = 0%N -> is_json_ready v = true ->
  exists j, dumps false v = Ok j.
Proof.
  intros L H. destruct (json_ready_encodes v H) as [E|[_ N]];
    [exact E | contradiction].
Qed.

(** A failure response encodes under either setting of [allow_nan]. *)
Lemma dumps_failure a code msg :
  dumps a (str_dict [("ok", VBool false); ("code", VStr code);
                     ("error", VStr msg)])
  = Ok (JObject [("ok", JFalse); ("code", JString code);
                 ("error", JString msg)]).
Proof. reflexivity. Qed.

(** The documents of the two constant responses can be written to any
    stream: they are ASCII. *)
Lemma writable_invalid_input (out : stream) :
  writable out invalid_input_doc = true.
Proof. reflexivity. Qed.

Lemma writable_dependency_missing (out : stream) :
  writable out (failure_doc "dependency_missing"
                            "python package 'yfinance' is not installed") = true.
Proof. reflexivity. Qed.

End WithRuntime.
End EncoderFacts.

(* ===================================================================== *)
(** * One run of [yfinance_fetcher.py] *)
(* ===================================================================== *)

Module FetcherProcess.
Import Py Props EncoderFacts Fetcher.
#[local] Open Scope str_scope.
#[local] Open Scope py_scope.

Section WithRuntime.
Context {rt : Runtime}.

Lemma io_bind_lift_ok {A B} (a : A) (k : A -> io B) :
  io_bind (lift (Ok a)) k = k a.
Proof. unfold io_bind, lift. now destruct (k a). Qed.

Lemma io_bind_lift_raise {A B} (e : exn) (k : A -> io B) :
  io_bind (lift (Raise e)) k = ([], Raise e).
Proof. reflexivity. Qed.

Lemma not_blank (s : str) : s <> "" -> str_is_empty s = false.
Proof. destruct s; [contradiction | reflexivity]. Qed.

(** What the request reader makes of standard input it could read:
    blank, unparseable and non-object input all give the empty
    mapping. *)
Lemma load_input_degrades (text : str) :
  strip text = ""
  \/ (exists e, json_loads (strip text) = Raise e)
  \/ (exists v, json_loads (strip text) = Ok v /\ as_dict v = None) ->
  _load_input (Ok text) = Ok [].
Proof.
  unfold _load_input. simpl. intros [H | [[e H] | [v [H Hv]]]]; rewrite H.
  - reflexivity.
  - now destruct (str_is_empty _).
  - destruct (str_is_empty _); [reflexivity|]. now rewrite Hv.
Qed.

Lemma load_input_object (text : str) (items : list (value * value)) :
  strip text <> "" -> json_loads (strip text) = Ok (VDict items) ->
  _load_input (Ok text) = Ok items.
Proof.
  unfold _load_input. simpl. intros Hs H. rewrite H.
  now rewrite (not_blank _ Hs).
Qed.

(** What [_emit(payload); return 0] comes to. *)
Lemma fetcher_emit_then_return (out : stream) (payload : value) :
  (_emit out payload ;;; ret 0)
  = match dumps false payload with
    | Ok doc => respond out doc
    | Raise e => ([], Raise e)
    end.
Proof.
  unfold _emit, respond, lift, io_bind, stdout_write, ret.
  destruct (dumps false payload) as [doc|e]; [|reflexivity].
  destruct (writable out doc); reflexivity.
Qed.

Lemma fetcher_emit_failure_then_return (out : stream) (code msg : str) :
  (_emit out (str_dict [("ok", VBool false); ("code", VStr code);
                        ("error", VStr msg)]) ;;; ret 0)
  = respond out (failure_doc code msg).
Proof. now rewrite fetcher_emit_then_return, dumps_failure. Qed.

(** When standard input cannot be read, nothing is written and the
    exception leaves [main]. *)
Lemma fetcher_main_unreadable (env : Env) (e : exn) :
  stdin env = Raise e -> main env = ([], Raise e).
Proof. unfold main. now intros ->. Qed.

(** When the [int(...)] coercion of [history_days] raises, nothing has
    been written and the exception leaves [main]. *)
Lemma fetcher_main_history_days_raises (env : Env) args (e : exn) :
  _load_input (stdin env) = Ok args ->
  history_days_arg args = Raise e ->
  main env = ([], Raise e).
Proof.
  unfold history_days_arg, main. intros Ha H.
  rewrite Ha, io_bind_lift_ok. cbv zeta. rewrite H. reflexivity.
Qed.

(** A blank ticker is answered with [invalid_input], whatever the
    provider, as long as [history_days] converts. *)
Lemma fetcher_main_invalid_input (env : Env) args (n : Z) :
  _load_input (stdin env) = Ok args ->
  history_days_arg args = Ok n ->
  ticker_arg args = "" ->
  main env = ([invalid_input_doc], Ok 0).
Proof.
  unfold history_days_arg, ticker_arg, main. intros Ha H Ht.
  rewrite Ha, io_bind_lift_ok. cbv zeta. rewrite H, io_bind_lift_ok, Ht.
  reflexivity.
Qed.

(** Blank, unparseable or non-object input is answered like [{}]. *)
Lemma fetcher_main_degraded_input (env : Env) :
  _load_input (stdin env) = Ok [] ->
  main env = ([invalid_input_doc], Ok 0).
Proof.
  intros H. apply (fetcher_main_invalid_input env [] 30); trivial.
Qed.

End WithRuntime.

(** A complete run: NaN in the metadata becomes null, the boxed scalar is
    unwrapped, the table that cannot be decomposed and the missing tables
    are null, the empty table is the empty triple. *)
Example fetcher_sample_run :
  let rt := sample_runtime text_acme request_acme in
  main sample_fetcher_env = ([sample_fetcher_doc], Ok 0).
Proof. reflexivity. Qed.

End FetcherProcess.

(* ===================================================================== *)
(** * One run of [yfinance_history_fetcher.py] *)
(* ===================================================================== *)

Module HistoryProcess.
Import Py Props PyFacts EncoderFacts HistoryFetcher.
#[local] Open Scope str_scope.
#[local] Open Scope py_scope.

Section WithRuntime.
Context {rt : Runtime}.

Lemma read_input_degrades (text : str) :
  strip text = ""
  \/ (exists e, json_loads (strip text) = Raise e)
  \/ (exists v, json_loads (strip text) = Ok v /\ as_dict v = None) ->
  _read_input (Ok text) = Ok [].
Proof.
  unfold _read_input. simpl. intros [H | [[e H] | [v [H Hv]]]]; rewrite H.
  - reflexivity.
  - now destruct (str_is_empty _).
  - destruct (str_is_empty _); [reflexivity|]. now rewrite Hv.
Qed.

Lemma read_input_object (text : str) (items : list (value * value)) :
  strip text <> "" -> json_loads (strip text) = Ok (VDict items) ->
  _read_input (Ok text) = Ok items.
Proof.
  unfold _read_input. simpl. intros Hs H. rewrite H.
  now rewrite (FetcherProcess.not_blank _ Hs).
Qed.

(** [_to_number] filters NaN only: an infinite cell passes through. *)
Lemma to_number_infinite (s : bool) :
  _to_number (VFloat (S754_infinity s)) = Some (S754_infinity s).
Proof. destruct s; reflexivity. Qed.

(** What [_emit(payload); return 0] comes to: this script's [_emit]
    writes whatever the lenient encoder returns. *)
Lemma history_emit_then_return (out : stream) (payload : value) :
  (_emit out payload ;;; ret 0)
  = match dumps true payload with
    | Ok doc => respond out doc
    | Raise e => ([], Raise e)
    end.
Proof.
  unfold _emit, respond, lift, io_bind, stdout_write, ret.
  destruct (dumps true payload) as [doc|e]; [|reflexivity].
  destruct (writable out doc); reflexivity.
Qed.

Lemma history_emit_failure_then_return (out : stream) (code msg : str) :
  (_emit out (str_dict [("ok", VBool false); ("code", VStr code);
                        ("error", VStr msg)]) ;;; ret 0)
  = respond out (failure_doc code msg).
Proof. now rewrite history_emit_then_return, dumps_failure. Qed.

Lemma history_main_unreadable (env : Env) (e : exn) :
  stdin env = Raise e -> main env = ([], Raise e).
Proof. unfold main. now intros ->. Qed.

Lemma history_main_invalid_input (env : Env) args :
  _read_input (stdin env) = Ok args ->
  ticker_arg args = "" ->
  main env = ([invalid_input_doc], Ok 0).
Proof.
  unfold ticker_arg, main. intros Ha Ht.
  rewrite Ha, FetcherProcess.io_bind_lift_ok. cbv zeta. rewrite Ht.
  reflexivity.
Qed.

Lemma history_main_degraded_input (env : Env) :
  _read_input (stdin env) = Ok [] ->
  main env = ([invalid_input_doc], Ok 0).
Proof.
  intros H. now apply (history_main_invalid_input env []).
Qed.

End WithRuntime.
End HistoryProcess.

(* ===================================================================== *)
(** * Where the scripts depart from their contract *)
(* ===================================================================== *)

Module Departures.
Import Py Props PyFacts EncoderFacts.
#[local] Open Scope str_scope.
#[local] Open Scope py_scope.

Lemma unconvertible_sequence {rt : Runtime} (items : list (value * value)) :
  (exists x xs, dict_get items "history_days" (VInt 30) = VList (x :: xs)) ->
  exists e, history_days_arg items = Raise e /\ exn_type e = "TypeError".
Proof.
  intros [x [xs H]]. unfold history_days_arg. rewrite H. simpl.
  eexists. split; reflexivity.
Qed.

(** C1. The history script does not write strict JSON: its [_emit] calls
    the encoder with [allow_nan] left on and [_to_number] lets an
    infinite cell through, so for a request naming ticker ACME and a
    history row whose Open cell is +Infinity the one document written
    carries the token Infinity. *)
Theorem history_main_writes_infinity :
  forall rt : Runtime,
    json_loads text_acme = Ok request_acme ->
    HistoryFetcher.main (history_env infinite_open_row)
    = ([infinite_open_doc], Ok 0)
    /\ strict_json infinite_open_doc = false.
Proof.
  intros rt H.
  assert (HistoryFetcher._read_input (Ok text_acme)
          = Ok [(VStr "ticker", VStr "ACME")]) as Hargs.
  { apply HistoryProcess.read_input_object; [discriminate | exact H]. }
  split; [|reflexivity].
  unfold HistoryFetcher.main.
  change (HistoryFetcher.stdin (history_env infinite_open_row))
    with (@Ok str text_acme).
  rewrite Hargs. reflexivity.
Qed.

(** C2. The market-data script can end without a response: [int(...)] of
    [history_days] runs outside every [try], so a request object whose
    [history_days] is a non-empty array makes [main] raise [TypeError]
    before anything is written, and the process exits with status 1. *)
Theorem fetcher_main_dies_on_unconvertible_history_days :
  forall (rt : Runtime) (env : Fetcher.Env) (text : str)
         (items : list (value * value)),
    Fetcher.stdin env = Ok text ->
    strip text <> "" ->
    json_loads (strip text) = Ok (VDict items) ->
    (exists x xs, dict_get items "history_days" (VInt 30) = VList (x :: xs)) ->
    exists e, Fetcher.main env = ([], Raise e)
              /\ exn_type e = "TypeError"
              /\ exit_code (snd (Fetcher.main env)) = 1.
Proof.
  intros rt env text items Hin Hs Hj Hd.
  destruct (unconvertible_sequence items Hd) as [e [He Ht]].
  exists e.
  rewrite (FetcherProcess.fetcher_main_history_days_raises env items e).
  - repeat split. exact Ht.
  - rewrite Hin. exact (FetcherProcess.load_input_object _ items Hs Hj).
  - exact He.
Qed.

(** C9. A request whose ticker is blank is not always answered with
    [invalid_input]: when its [history_days] is a non-empty array the
    market-data script raises before the ticker is looked at, writes
    nothing and exits with status 1. *)
Theorem fetcher_main_blank_ticker_unanswered :
  forall (rt : Runtime) (env : Fetcher.Env) (text : str)
         (items : list (value * value)),
    Fetcher.stdin env = Ok text ->
    strip text <> "" ->
    json_loads (strip text) = Ok (VDict items) ->
    ticker_arg items = "" ->
    (exists x xs, dict_get items "history_days" (VInt 30) = VList (x :: xs)) ->
    fst (Fetcher.main env) = []
    /\ Fetcher.main env <> ([invalid_input_doc], Ok 0)
    /\ exit_code (snd (Fetcher.main env)) = 1.
Proof.
  intros rt env text items Hin Hs Hj _ Hd.
  destruct (unconvertible_sequence items Hd) as [e [He _]].
  rewrite (FetcherProcess.fetcher_main_history_days_raises env items e).
  - repeat split. discriminate.
  - rewrite Hin. exact (FetcherProcess.load_input_object _ items Hs Hj).
  - exact He.
Qed.

Lemma history_main_writes_infinity_witness :
  let rt := sample_runtime text_acme request_acme in
  json_loads text_acme = Ok request_acme
  /\ HistoryFetcher.main (history_env infinite_open_row)
     = ([infinite_open_doc], Ok 0)
  /\ strict_json infinite_open_doc = false.
Proof.
  intros rt. split; [reflexivity|].
  apply (history_main_writes_infinity rt). reflexivity.
Defined.

Lemma fetcher_main_dies_on_unconvertible_history_days_witness :
  let rt := sample_runtime text_acme_bad_days request_acme_bad_days in
  let env := fetcher_env text_acme_bad_days in
  Fetcher.stdin env = Ok text_acme_bad_days
  /\ strip text_acme_bad_days <> ""
  /\ json_loads (strip text_acme_bad_days) = Ok request_acme_bad_days
  /\ (exists e, Fetcher.main env = ([], Raise e)
                /\ exn_type e = "TypeError"
                /\ exit_code (snd (Fetcher.main env)) = 1).
Proof.
  intros rt env.
  assert (strip text_acme_bad_days <> "") as Hs by discriminate.
  split; [reflexivity|]. split; [exact Hs|]. split; [reflexivity|].
  apply (fetcher_main_dies_on_unconvertible_history_days rt env
           text_acme_bad_days
           [(VStr "ticker", VStr "ACME"); (VStr "history_days", VList [VInt 7])]).
  - reflexivity.
  - exact Hs.
  - reflexivity.
  - exists (VInt 7), []. reflexivity.
Defined.

Lemma fetcher_main_blank_ticker_unanswered_witness :
  let rt := sample_runtime text_blank_bad_days request_blank_bad_days in
  let env := fetcher_env text_blank_bad_days in
  Fetcher.stdin env = Ok text_blank_bad_days
  /\ strip text_blank_bad_days <> ""
  /\ json_loads (strip text_blank_bad_days) = Ok request_blank_bad_days
  /\ ticker_arg [(VStr "ticker", VStr "  ");
                 (VStr "history_days", VList [VInt 7])] = ""
  /\ fst (Fetcher.main env) = []
  /\ Fetcher.main env <> ([invalid_input_doc], Ok 0)
  /\ exit_code (snd (Fetcher.main env)) = 1.
Proof.
  intros rt env.
  assert (strip text_blank_bad_days <> "") as Hs by discriminate.
  split; [reflexivity|]. split; [exact Hs|]. split; [reflexivity|].
  split; [reflexivity|].
  apply (fetcher_main_blank_ticker_unanswered rt env text_blank_bad_days
           [(VStr "ticker", VStr "  "); (VStr "history_days", VList [VInt 7])]).
  - reflexivity.
  - exact Hs.
  - reflexivity.
  - reflexivity.
  - exists (VInt 7), []. reflexivity.
Defined.

End Departures.

(* ===================================================================== *)
(** * Further laws of the value normalizer *)
(* ===================================================================== *)

Module NormalizerLaws.
Import Py Props PyFacts EncoderFacts Fetcher.
#[local] Open Scope str_scope.
#[local] Open Scope py_scope.

Section WithRuntime.
Context {rt : Runtime}.

(** Lookup by name in a string-keyed item list. *)
Lemma dict_get_str_dict (d : list (str * value)) (name : str) (def : value) :
  dict_get (map (fun kv => (VStr (fst kv), snd kv)) d) name def
  = match find (fun kv => str_eqb (fst kv) name) d with
    | Some kv => snd kv
    | None => def
    end.
Proof.
  induction d as [|[k v] d IH]; simpl; [reflexivity|].
  destruct (str_eqb k name); [reflexivity | exact IH].
Qed.

Lemma find_setitem (d : list (str * value)) k v name :
  option_map snd (find (fun kv => str_eqb (fst kv) name) (dict_setitem d k v))
  = if str_eqb k name then Some v
    else option_map snd (find (fun kv => str_eqb (fst kv) name) d).
Proof.
  induction d as [|[k' v'] d IH]; simpl.
  - destruct (str_eqb k name); reflexivity.
  - destruct (str_eqb_spec k' k) as [->|Hne]; simpl.
    + destruct (str_eqb k name); reflexivity.
    + destruct (str_eqb_spec k' name) as [->|Hn]; simpl.
      * destruct (str_eqb_spec k name) as [->|_]; [contradiction|reflexivity].
      * exact IH.
Qed.

Lemma find_snoc {A} (f : A -> bool) (l : list A) (x : A) :
  find f (l ++ [x])%list
  = match find f l with
    | Some y => Some y
    | None => if f x then Some x else None
    end.
Proof.
  induction l as [|y l IH]; simpl; [reflexivity|].
  destruct (f y); [reflexivity | exact IH].
Qed.

Lemma find_fold_setitem (l acc : list (str * value)) name :
  option_map snd
    (find (fun kv => str_eqb (fst kv) name)
          (fold_left (fun d kv => dict_setitem d (fst kv) (snd kv)) l acc))
  = match find (fun kv => str_eqb (fst kv) name) (rev l) with
    | Some kv => Some (snd kv)
    | None => option_map snd (find (fun kv => str_eqb (fst kv) name) acc)
    end.
Proof.
  revert acc. induction l as [|[k v] l IH]; intros acc; simpl; [reflexivity|].
  rewrite IH, find_snoc, find_setitem. simpl.
  destruct (find _ (rev l)); [reflexivity|].
  destruct (str_eqb k name); reflexivity.
Qed.

Lemma keys_fold_setitem (l acc : list (str * value)) :
  map fst (fold_left (fun d kv => dict_setitem d (fst kv) (snd kv)) l acc)
  = (map fst acc ++ unseen (map fst acc) (map fst l))%list.
Proof.
  revert acc. induction l as [|[k v] l IH]; intros acc; simpl.
  - now rewrite app_nil_r.
  - rewrite IH, dict_setitem_keys.
    destruct (existsb (str_eqb k) (map fst acc)); [reflexivity|].
    now rewrite <- app_assoc.
Qed.

(** A value that is ready for the encoder holds no non-finite float. *)
Lemma json_ready_no_non_finite (v : value) :
  is_json_ready v = true -> holds_non_finite v = false.
Proof.
  induction v as [ | b | n | x | re im | s | d | d | items IH | xs IH | xs IH
                   | o _ _ _ _ _ _ ] using value_ind;
    simpl; intros H; try reflexivity; try discriminate.
  - now rewrite H.
  - apply andb_true_iff in H. destruct H as [H _].
    induction IH as [|kv l [_ Hv] _ IHl]; [reflexivity|].
    simpl in H. apply andb_true_iff in H. destruct H as [Hkv Hl].
    apply andb_true_iff in Hkv. destruct Hkv as [Hk Hn].
    simpl. rewrite (Hv Hn), (IHl Hl).
    destruct (fst kv); try discriminate Hk. reflexivity.
  - induction IH as [|x l Hx _ IHl]; [reflexivity|].
    simpl in H. apply andb_true_iff in H. destruct H as [Hn Hl].
    simpl. now rewrite (Hx Hn), (IHl Hl).
  - unfold is_number_object in H.
    destruct (ob_base o) as [[n|x|re im|s|d|d|items|xs|xs]|];
      try discriminate H; [reflexivity|]. now rewrite H.
Qed.

(** X1. Whatever value is normalized, the result holds no non-finite
    float and no object the encoder does not know, so
    [json.dumps(_to_json_compatible(v), allow_nan=False)] returns a
    document, which is strict JSON; the one exception is the
    [ValueError] the interpreter raises for an integer longer than its
    digit limit, where it has one. *)
Theorem normalized_value_encodes_or_too_long :
  forall v : value,
    holds_non_finite (_to_json_compatible v) = false
    /\ ((exists doc, dumps false (_to_json_compatible v) = Ok doc
                     /\ strict_json doc = true)
        \/ (dumps false (_to_json_compatible v) = Raise int_too_long
            /\ int_max_str_digits <> 0%N))
    /\ (int_max_str_digits = 0%N ->
        exists doc, dumps false (_to_json_compatible v) = Ok doc).
Proof.
  intros v.
  pose proof (NormalizerFacts.to_json_compatible_is_json_ready v) as R.
  split; [exact (json_ready_no_non_finite _ R)|]. split.
  - destruct (json_ready_encodes _ R) as [[doc E]|E]; [left|right; exact E].
    exists doc. split; [exact E | exact (dumps_strict _ _ E)].
  - intros L. exact (json_ready_encodes_unlimited _ L R).
Qed.

(** X2. Looking a name up in a normalized mapping gives the normalized
    value of the last item of the source mapping whose key has that name
    as its string form, and nothing when no key has: on a collision of
    stringified keys the later item wins. *)
Theorem normalized_mapping_lookup :
  forall (items : list (value * value)) (name : str),
    field (_to_json_compatible (VDict items)) name
    = match find (fun kv => str_eqb (py_str (fst kv)) name) (rev items) with
      | Some kv => _to_json_compatible (snd kv)
      | None => VNone
      end.
Proof.
  intros items name. rewrite NormalizerFacts.to_json_compatible_dict.
  unfold mapping, str_dict, field.
  rewrite dict_get_str_dict.
  pose proof (find_fold_setitem
                (map (fun kv => (py_str (fst kv), _to_json_compatible (snd kv)))
                     items) [] name) as H.
  fold (dict_of_items
          (map (fun kv => (py_str (fst kv), _to_json_compatible (snd kv))) items))
    in H.
  rewrite <- map_rev in H.
  assert (forall l : list (value * value),
             find (fun kv => str_eqb (fst kv) name)
                  (map (fun kv => (py_str (fst kv), _to_json_compatible (snd kv))) l)
             = option_map (fun kv => (py_str (fst kv), _to_json_compatible (snd kv)))
                          (find (fun kv => str_eqb (py_str (fst kv)) name) l))
    as Hmap.
  { induction l as [|[k v] l IH]; simpl; [reflexivity|].
    destruct (str_eqb (py_str k) name); [reflexivity | exact IH]. }
  rewrite Hmap in H. simpl in H.
  destruct (find _ (dict_of_items _)) as [[k v]|];
    destruct (find _ (rev items)) as [[k' v']|]; simpl in *;
    congruence.
Qed.

(** X3. The keys of a normalized mapping are the string forms of the
    source keys, without repetition, in the order in which each first
    occurs; all of them are strings. *)
Theorem normalized_mapping_keys :
  forall items : list (value * value),
    keys (_to_json_compatible (VDict items))
    = map VStr (first_occurrences (map (fun kv => py_str (fst kv)) items)).
Proof.
  intros items. rewrite NormalizerFacts.to_json_compatible_dict.
  unfold mapping. simpl. rewrite map_map. simpl.
  rewrite <- (map_map fst VStr). f_equal.
  unfold dict_of_items. rewrite keys_fold_setitem. simpl.
  rewrite map_map. reflexivity.
Qed.

(** X4. A mapping whose keys have pairwise distinct string forms keeps
    its size and order: item by item the key is stringified and the value
    normalized. *)
Theorem normalized_mapping_distinct_keys :
  forall items : list (value * value),
    NoDup (map (fun kv => py_str (fst kv)) items) ->
    _to_json_compatible (VDict items)
    = VDict (map (fun kv => (VStr (py_str (fst kv)),
                             _to_json_compatible (snd kv))) items).
Proof.
  intros items H. rewrite NormalizerFacts.to_json_compatible_dict.
  unfold mapping. rewrite dict_of_items_distinct.
  - unfold str_dict. now rewrite map_map.
  - now rewrite map_map.
Qed.

End WithRuntime.

Lemma normalized_value_encodes_or_too_long_witness :
  let unlimited := {| py_repr := fun _ => "<repr>";
                      json_loads := fun _ => Raise provider_down;
                      int_of_str := fun _ => Raise provider_down;
                      float_of_str := fun _ => Raise provider_down;
                      int_max_str_digits := 0 |} in
  let three := {| py_repr := fun _ => "<repr>";
                  json_loads := fun _ => Raise provider_down;
                  int_of_str := fun _ => Raise provider_down;
                  float_of_str := fun _ => Raise provider_down;
                  int_max_str_digits := 3 |} in
  (@int_max_str_digits unlimited = 0%N
   /\ exists doc, @dumps unlimited false
                    (@_to_json_compatible unlimited (VList [VInt 12345]))
                  = Ok doc)
  /\ @dumps three false (@_to_json_compatible three (VList [VInt 12345]))
     = Raise (@int_too_long three).
Proof.
  intros unlimited three. split.
  - split; [reflexivity|].
    exact (proj2 (proj2 (@normalized_value_encodes_or_too_long unlimited
                           (VList [VInt 12345]))) eq_refl).
  - reflexivity.
Defined.

Lemma normalized_mapping_distinct_keys_witness :
  let rt := sample_runtime "{}" (VDict []) in
  let items := [(VInt 7, VFloat float_nan); (VStr "a", VTuple [VInt 1])] in
  NoDup (map (fun kv => py_str (fst kv)) items)
  /\ _to_json_compatible (VDict items)
     = VDict [(VStr "7", VNone); (VStr "a", VList [VInt 1])].
Proof.
  intros rt items.
  assert (NoDup (map (fun kv => py_str (fst kv)) items)) as H.
  { repeat constructor; simpl; intuition discriminate. }
  split; [exact H|].
  exact (@normalized_mapping_distinct_keys rt items H).
Defined.

(** The later of two items whose keys collide wins, at the place of the
    earlier one. *)
Example normalized_mapping_collision :
  let rt := sample_runtime "{}" (VDict []) in
  _to_json_compatible (VDict sample_colliding)
  = VDict [(VStr "2024", VInt 2); (VStr "q", VNone)].
Proof. reflexivity. Qed.

End NormalizerLaws.

(* ===================================================================== *)
(** * Further laws of the adapters and of the response writer *)
(* ===================================================================== *)

Module AdapterLaws.
Import Py Props PyFacts EncoderFacts Fetcher.
#[local] Open Scope str_scope.
#[local] Open Scope py_scope.

Section WithRuntime.
Context {rt : Runtime}.

(** X5. Whatever they are given, [_df_to_payload] and
    [_series_to_payload] return null or a structure that holds, at every
    depth, only null, booleans, strings, instances of [int], finite
    instances of [float], sequences and string-keyed mappings: no NaN or
    infinity and no date object.  A number in it may still be a provider
    object: a finite [numpy.float64] handed to [_series_to_payload]
    comes back as it is. *)
Theorem adapters_yield_json_ready_values :
  forall v : value,
    is_json_ready (_df_to_payload v) = true
    /\ is_json_ready (_series_to_payload v) = true
    /\ holds_non_finite (_df_to_payload v) = false
    /\ holds_non_finite (_series_to_payload v) = false
    /\ (forall x, math_isfinite x = true ->
          _series_to_payload (numpy_float64 x) = numpy_float64 x).
Proof.
  intros v.
  pose proof (AdapterFacts.df_to_payload_json_ready v) as Hd.
  pose proof (AdapterFacts.series_to_payload_json_ready v) as Hs.
  split; [exact Hd|]. split; [exact Hs|].
  split; [exact (NormalizerLaws.json_ready_no_non_finite _ Hd)|].
  split; [exact (NormalizerLaws.json_ready_no_non_finite _ Hs)|].
  intros x Hx.
  rewrite AdapterFacts.series_to_payload_generic;
    try reflexivity; try discriminate.
  apply NormalizerFacts.json_ready_is_fixed. exact Hx.
Qed.

(** X6. A table that is present, reports itself not empty and whose
    [to_dict(orient="split")] gives the index, the column names and the
    row-major data comes back as those three parts in the same order,
    each element normalized in place, so that lengths and positions are
    kept. *)
Theorem df_to_payload_decomposes :
  forall (df : value) (index columns data : list value),
    df <> VNone -> reports_empty df = Ok false ->
    attr_of ob_to_dict df
    = Returns (str_dict [("index", VList index); ("columns", VList columns);
                         ("data", VList data)]) ->
    _df_to_payload df
    = str_dict [("index", VList (map _to_json_compatible index));
                ("columns", VList (map _to_json_compatible columns));
                ("data", VList (map _to_json_compatible data))].
Proof.
  intros df index columns data Hdf He Hd.
  rewrite AdapterFacts.df_to_payload_unfold by exact Hdf.
  rewrite He. simpl. rewrite Hd. reflexivity.
Qed.

(** X7. On a value that has neither an [empty] nor a [to_dict]
    attribute (any built-in value: a number, a string, a list, a plain
    dict) the two adapters differ: [_df_to_payload] gives null, as the
    missing [to_dict] raises inside its [try], while [_series_to_payload]
    falls back to normalizing the value itself. *)
Theorem adapters_on_plain_values :
  forall v : value,
    attr_of ob_empty v = Absent -> attr_of ob_to_dict v = Absent ->
    _df_to_payload v = VNone
    /\ _series_to_payload v = _to_json_compatible v.
Proof.
  intros v He Hd.
  destruct (none_or_not v) as [->|Hv]; [split; reflexivity|].
  split.
  - rewrite AdapterFacts.df_to_payload_unfold by exact Hv.
    unfold reports_empty. rewrite He, Hd. reflexivity.
  - rewrite AdapterFacts.series_to_payload_unfold by exact Hv.
    unfold reports_empty. rewrite He, Hd. reflexivity.
Qed.

(** X8. The response writer of the market-data script either writes
    exactly one document, which is strict JSON, or writes nothing and
    raises; it raises whenever the payload holds a non-finite float where
    the encoder walks. *)
Theorem fetcher_emit_strict_or_silent :
  forall (out : stream) (payload : value),
    ((exists doc, _emit out payload = ([doc], Ok tt) /\ strict_json doc = true)
     \/ (exists e, _emit out payload = ([], Raise e)))
    /\ (holds_non_finite payload = true ->
        exists e, _emit out payload = ([], Raise e)).
Proof.
  intros out payload. unfold _emit, lift, io_bind, stdout_write. split.
  - destruct (dumps false payload) as [doc|e] eqn:E; [|right].
    + destruct (writable out doc); [left|right].
      * exists doc. split; [reflexivity | exact (dumps_strict _ _ E)].
      * eexists. reflexivity.
    + exists e. reflexivity.
  - intros H. destruct (dumps_fails_loudly payload H) as [e E].
    exists e. rewrite E. reflexivity.
Qed.

End WithRuntime.

Lemma adapters_yield_json_ready_values_witness :
  let rt := sample_runtime "{}" (VDict []) in
  math_isfinite float_one = true
  /\ _series_to_payload (numpy_float64 float_one) = numpy_float64 float_one
  /\ is_normalized (_series_to_payload (numpy_float64 float_one)) = false
  /\ is_json_ready (_series_to_payload (numpy_float64 float_one)) = true.
Proof.
  intros rt.
  destruct (@adapters_yield_json_ready_values rt (numpy_float64 float_one))
    as [_ [Hs [_ [_ Hkeep]]]].
  split; [reflexivity|]. split; [exact (Hkeep float_one eq_refl)|].
  split; [reflexivity | exact Hs].
Defined.

Lemma df_to_payload_decomposes_witness :
  let rt := sample_runtime "{}" (VDict []) in
  let df := sample_frame false (Returns sample_split) in
  df <> VNone /\ reports_empty df = Ok false
  /\ attr_of ob_to_dict df = Returns sample_split
  /\ _df_to_payload df
     = str_dict [("index", VList [VStr "2024-01-02"]);
                 ("columns", VList [VStr "Close"]);
                 ("data", VList [VList [VNone]])].
Proof.
  intros rt df.
  assert (df <> VNone) as H by discriminate.
  split; [exact H|]. split; [reflexivity|]. split; [reflexivity|].
  exact (@df_to_payload_decomposes rt df
           [VDate (Date 2024 1 2)] [VStr "Close"] [VList [VFloat float_nan]]
           H eq_refl eq_refl).
Defined.

Lemma adapters_on_plain_values_witness :
  let rt := sample_runtime "{}" (VDict []) in
  let v := VList [VInt 1; VFloat float_nan] in
  attr_of ob_empty v = Absent /\ attr_of ob_to_dict v = Absent
  /\ _df_to_payload v = VNone
  /\ _series_to_payload v = VList [VInt 1; VNone].
Proof.
  intros rt v. split; [reflexivity|]. split; [reflexivity|].
  destruct (@adapters_on_plain_values rt v eq_refl eq_refl) as [Hd Hs].
  split; [exact Hd|]. rewrite Hs. reflexivity.
Defined.

Lemma fetcher_emit_strict_or_silent_witness :
  let rt := sample_runtime "{}" (VDict []) in
  let payload := str_dict [("beta", VList [VFloat float_neg_inf])] in
  holds_non_finite payload = true
  /\ exists e, _emit utf8 payload = ([], Raise e).
Proof.
  intros rt payload. split; [reflexivity|].
  apply (proj2 (@fetcher_emit_strict_or_silent rt utf8 payload)). reflexivity.
Defined.

End AdapterLaws.

(* ===================================================================== *)
(** * Runs of [yfinance_fetcher.py] *)
(* ===================================================================== *)

Module FetcherRuns.
Import Py Props PyFacts EncoderFacts Fetcher.
Import FetcherProcess.
#[local] Open Scope str_scope.
#[local] Open Scope py_scope.

Section WithRuntime.
Context {rt : Runtime}.

Lemma try_except_raise {A} (e : exn) (handler : exn -> io A) :
  try_except ([], Raise e) handler = handler e.
Proof. unfold try_except. now destruct (handler e). Qed.

Lemma respond_writable (out : stream) (doc : json) :
  writable out doc = true -> respond out doc = ([doc], Ok 0).
Proof. unfold respond. now intros ->. Qed.

Lemma dumps_fetcher_success (a : bool) (payload : value) :
  dumps a (str_dict [("ok", VBool true); ("source", VStr "yfinance");
                     ("payload", payload)])
  = (p <- dumps a payload ;; Ok (fetcher_success_doc p)).
Proof.
  unfold str_dict. simpl map. rewrite dumps_dict.
  rewrite !dumps_members_cons. simpl fst. simpl snd.
  change (dumps_key a (VStr "ok")) with (@Ok str "ok").
  change (dumps_key a (VStr "source")) with (@Ok str "source").
  change (dumps_key a (VStr "payload")) with (@Ok str "payload").
  change (dumps a (VBool true)) with (Ok JTrue).
  change (dumps a (VStr "yfinance")) with (Ok (JString "yfinance")).
  rewrite !bind_ok.
  destruct (dumps a payload) as [p|e]; reflexivity.
Qed.

(** The [try] block of [main] and its handler, given how assembling the
    payload ended. *)
Lemma fetcher_try (out : stream) (assembled : result value) :
  try_except
    (payload <-- lift assembled ;;
     _emit out (str_dict [("ok", VBool true); ("source", VStr "yfinance");
                          ("payload", payload)]) ;;;
     ret 0)
    (fun error => _emit out (runtime_error error) ;;; ret 0)
  = match (payload <- assembled ;; dumps false payload) with
    | Raise e => respond out (failure_doc "runtime_error" (exn_msg e))
    | Ok p =>
        if writable out (fetcher_success_doc p)
        then ([fetcher_success_doc p], Ok 0)
        else respond out (failure_doc "runtime_error"
                            (encode_error_text out (fetcher_success_doc p)))
    end.
Proof.
  assert (forall e, (_emit out (runtime_error e) ;;; ret 0)
                    = respond out (failure_doc "runtime_error" (exn_msg e)))
    as Hh by (intros e; apply fetcher_emit_failure_then_return).
  destruct assembled as [payload|e].
  - rewrite io_bind_lift_ok, fetcher_emit_then_return, dumps_fetcher_success.
    simpl bind. destruct (dumps false payload) as [p|e]; simpl bind;
      cbv beta iota.
    + unfold respond at 1.
      destruct (writable out (fetcher_success_doc p)); [reflexivity|].
      rewrite try_except_raise. apply Hh.
    + rewrite try_except_raise. apply Hh.
  - rewrite io_bind_lift_raise, try_except_raise. apply Hh.
Qed.

Lemma getattr_total {A} (a : attr A) (d : A) :
  (forall e, a <> Raises e) -> exists v, getattr a d = Ok v.
Proof.
  destruct a as [|e|x]; intros H.
  - now exists d.
  - now elim (H e).
  - now exists x.
Qed.

Lemma table_of_total (asset : Ticker) (name : str) :
  (forall e, ticker_attr asset name <> Raises e) ->
  exists t, table_of asset name = Ok t /\ is_json_ready t = true.
Proof.
  intros H. unfold table_of.
  destruct (getattr_total (ticker_attr asset name) VNone H) as [df E].
  rewrite E. exists (_df_to_payload df). split; [reflexivity|].
  apply AdapterFacts.df_to_payload_json_ready.
Qed.

Lemma mapping_of_total (asset : Ticker) (name : str) :
  (forall e, ticker_attr asset name <> Raises e) ->
  (forall v, ticker_attr asset name = Returns v -> exists b, py_bool v = Ok b) ->
  exists m, mapping_of asset name = Ok m /\ is_json_ready m = true.
Proof.
  intros H Hb. unfold mapping_of, py_or.
  destruct (ticker_attr asset name) as [|e|v] eqn:E.
  - simpl. eexists. split; reflexivity.
  - now elim (H e).
  - simpl. destruct (Hb v eq_refl) as [b ->]. simpl.
    eexists. split; [reflexivity|].
    apply NormalizerFacts.to_json_compatible_is_json_ready.
Qed.

(** How a run goes on once the request has been read and [history_days]
    has converted. *)
Lemma fetcher_main_cases (env : Env) args (n : Z) :
  _load_input (stdin env) = Ok args ->
  history_days_arg args = Ok n ->
  main env = ([invalid_input_doc], Ok 0)
  \/ main env
     = ([failure_doc "dependency_missing"
                     "python package 'yfinance' is not installed"], Ok 0)
  \/ (exists p, strict_json p = true
                /\ writable (stdout env) (fetcher_success_doc p) = true
                /\ main env = ([fetcher_success_doc p], Ok 0))
  \/ (exists msg,
        main env = respond (stdout env) (failure_doc "runtime_error" msg)).
Proof.
  intros Ha H.
  remember (main env) as m eqn:Em.
  unfold history_days_arg in H. unfold main in Em.
  rewrite Ha, io_bind_lift_ok in Em. cbv zeta in Em.
  rewrite H, io_bind_lift_ok in Em.
  match type of Em with
  | context [str_is_empty ?s] => destruct (str_is_empty s)
  end.
  { left. exact Em. }
  destruct (yfinance env) as [yf|e].
  2:{ right; left. exact Em. }
  right; right. rewrite fetcher_try in Em.
  match type of Em with
  | context [match ?r with Ok _ => _ | Raise _ => _ end] =>
      destruct r as [p|e] eqn:Er
  end.
  - destruct (writable (stdout env) (fetcher_success_doc p)) eqn:W.
    + left. exists p. split; [|split; [exact W | exact Em]].
      match type of Er with
      | bind ?a _ = _ => destruct a as [payload|e']; [|discriminate Er]
      end.
      exact (dumps_strict _ _ Er).
    + right. eexists. exact Em.
  - right. eexists. exact Em.
Qed.

(** X9. Once the request has been read and [history_days] has
    converted, one run of the market-data script either writes exactly
    one document and returns 0, the document being strict JSON and
    either a success response [{ok: true, source: "yfinance", payload}]
    or a failure response whose code is one of invalid_input,
    dependency_missing, runtime_error; or it writes nothing and ends
    with status 1, which happens only when standard output cannot
    encode the runtime_error response the handler tries to write. *)
Theorem fetcher_main_response_schema :
  forall (env : Env) (args : list (value * value)) (n : Z),
    _load_input (stdin env) = Ok args ->
    history_days_arg args = Ok n ->
    (exists doc,
       main env = ([doc], Ok 0)
       /\ exit_code (snd (main env)) = 0
       /\ strict_json doc = true
       /\ writable (stdout env) doc = true
       /\ ((exists payload, doc = fetcher_success_doc payload)
           \/ (exists code msg, In code failure_codes
                                /\ doc = failure_doc code msg)))
    \/ (exists msg,
          writable (stdout env) (failure_doc "runtime_error" msg) = false
          /\ main env
             = ([], Raise (UnicodeEncodeError (stdout env)
                             (failure_doc "runtime_error" msg)))
          /\ exit_code (snd (main env)) = 1).
Proof.
  intros env args n Ha H.
  destruct (fetcher_main_cases env args n Ha H)
    as [E | [E | [[p [Hs [W E]]] | [msg E]]]]; rewrite E.
  - left. exists invalid_input_doc. repeat split.
    right. exists "invalid_input", "ticker is required".
    split; [simpl; tauto | reflexivity].
  - left. eexists. repeat split.
    right. exists "dependency_missing",
             "python package 'yfinance' is not installed".
    split; [simpl; tauto | reflexivity].
  - left. exists (fetcher_success_doc p).
    split; [reflexivity|]. split; [reflexivity|].
    split; [simpl; now rewrite Hs|]. split; [exact W|].
    left. now exists p.
  - unfold respond.
    destruct (writable (stdout env) (failure_doc "runtime_error" msg)) eqn:W.
    + left. exists (failure_doc "runtime_error" msg).
      split; [reflexivity|]. split; [reflexivity|].
      split; [reflexivity|]. split; [exact W|].
      right. exists "runtime_error", msg. split; [simpl; tauto | reflexivity].
    + right. exists msg. repeat split. exact W.
Qed.

(** X10. A request whose ticker is absent or blank after trimming (of
    any Unicode whitespace), and whose [history_days] converts, is
    answered with exactly the invalid_input response and status 0,
    whatever the import of [yfinance] and the provider would do and
    whatever the encoding of standard output. *)
Theorem fetcher_main_blank_ticker :
  forall (env : Env) (args : list (value * value)) (n : Z),
    _load_input (stdin env) = Ok args ->
    history_days_arg args = Ok n ->
    ticker_arg args = "" ->
    main env = ([failure_doc "invalid_input" "ticker is required"], Ok 0).
Proof.
  intros env args n Ha H Ht.
  exact (fetcher_main_invalid_input env args n Ha H Ht).
Qed.

(** X11. With a ticker and a convertible [history_days]: when the import
    of [yfinance] fails the response is dependency_missing, with status
    0; when [yf.Ticker(ticker)] raises, the handler writes the
    runtime_error response carrying the exception's text and returns 0,
    unless standard output cannot encode that text, in which case
    nothing is written and the process ends with status 1. *)
Theorem fetcher_main_provider_failures :
  forall (env : Env) (args : list (value * value)) (n : Z),
    _load_input (stdin env) = Ok args ->
    history_days_arg args = Ok n ->
    ticker_arg args <> "" ->
    (forall e, yfinance env = Raise e ->
       main env
       = ([failure_doc "dependency_missing"
                       "python package 'yfinance' is not installed"], Ok 0))
    /\ (forall yf e, yfinance env = Ok yf ->
          yf (ticker_arg args) = Raise e ->
          let doc := failure_doc "runtime_error" (exn_msg e) in
          main env
          = if writable (stdout env) doc then ([doc], Ok 0)
            else ([], Raise (UnicodeEncodeError (stdout env) doc))).
Proof.
  unfold history_days_arg, ticker_arg. intros env args n Ha H Ht.
  unfold main. rewrite Ha, io_bind_lift_ok. cbv zeta.
  rewrite H, io_bind_lift_ok, (not_blank _ Ht). split.
  - intros e ->. reflexivity.
  - intros yf e -> E. rewrite fetcher_try, E. reflexivity.
Qed.

(** X12. With a ticker and a convertible [history_days], a provider that
    loads, builds the ticker and raises on none of the reads the script
    makes (attributes may be missing, tables may fail to decompose)
    always yields a payload with the sixteen keys in order that is ready
    for the strict encoder, which refuses it only for an integer beyond
    the digit limit.  When the payload encodes, its document is strict
    JSON and the response is the success response holding it, provided
    standard output can encode it; when it does not, or the stream
    cannot encode the document, the handler answers runtime_error. *)
Theorem fetcher_main_success :
  forall (env : Env) (args : list (value * value)) (n : Z)
         (yf : str -> result Ticker) (asset : Ticker),
    _load_input (stdin env) = Ok args ->
    history_days_arg args = Ok n ->
    ticker_arg args <> "" ->
    yfinance env = Ok yf ->
    yf (ticker_arg args) = Ok asset ->
    (forall name e, ticker_attr asset name <> Raises e) ->
    (forall kwargs e, ticker_history asset kwargs <> Raise e) ->
    (forall name v, In name ["info"; "fast_info"] ->
                    ticker_attr asset name = Returns v ->
                    exists b, py_bool v = Ok b) ->
    exists payload,
      keys payload = map VStr fetcher_payload_keys
      /\ is_json_ready payload = true
      /\ encodes_or_too_long (dumps false payload)
      /\ (forall p, dumps false payload = Ok p ->
            strict_json p = true
            /\ (exists members, p = JObject members
                                /\ map fst members = fetcher_payload_keys)
            /\ main env
               = if writable (stdout env) (fetcher_success_doc p)
                 then ([fetcher_success_doc p], Ok 0)
                 else respond (stdout env)
                        (failure_doc "runtime_error"
                           (encode_error_text (stdout env)
                                              (fetcher_success_doc p))))
      /\ (forall e, dumps false payload = Raise e ->
            main env
            = respond (stdout env) (failure_doc "runtime_error" (exn_msg e))).
Proof.
  unfold history_days_arg, ticker_arg.
  intros env args n yf asset Ha H Ht Hyf Hasset Hattr Hhist Hbool.
  remember (main env) as m eqn:Em.
  unfold main in Em. rewrite Ha, io_bind_lift_ok in Em. cbv zeta in Em.
  rewrite H, io_bind_lift_ok, (not_blank _ Ht), Hyf, fetcher_try in Em.
  rewrite Hasset, bind_ok in Em.
  destruct (mapping_of_total asset "info" (Hattr _)) as [info [Einfo Ninfo]].
  { intros v. apply Hbool. simpl; tauto. }
  rewrite Einfo, bind_ok in Em.
  destruct (mapping_of_total asset "fast_info" (Hattr _))
    as [fast [Efast Nfast]].
  { intros v. apply Hbool. simpl; tauto. }
  rewrite Efast, bind_ok in Em.
  match type of Em with
  | context [ticker_history asset ?kw] =>
      destruct (ticker_history asset kw) as [history_df|e] eqn:Eh;
      [|now elim (Hhist kw e)]
  end.
  rewrite bind_ok in Em.
  destruct (getattr_total (ticker_attr asset "dividends") VNone (Hattr _))
    as [series Eseries].
  rewrite Eseries, bind_ok in Em.
  destruct (table_of_total asset "financials" (Hattr _)) as [t1 [E1 N1]].
  rewrite E1, bind_ok in Em.
  destruct (table_of_total asset "quarterly_financials" (Hattr _))
    as [t2 [E2 N2]].
  rewrite E2, bind_ok in Em.
  destruct (table_of_total asset "balance_sheet" (Hattr _)) as [t3 [E3 N3]].
  rewrite E3, bind_ok in Em.
  destruct (table_of_total asset "quarterly_balance_sheet" (Hattr _))
    as [t4 [E4 N4]].
  rewrite E4, bind_ok in Em.
  destruct (table_of_total asset "cashflow" (Hattr _)) as [t5 [E5 N5]].
  rewrite E5, bind_ok in Em.
  destruct (table_of_total asset "quarterly_cashflow" (Hattr _))
    as [t6 [E6 N6]].
  rewrite E6, bind_ok in Em.
  destruct (table_of_total asset "recommendations" (Hattr _)) as [t7 [E7 N7]].
  rewrite E7, bind_ok in Em.
  destruct (table_of_total asset "institutional_holders" (Hattr _))
    as [t8 [E8 N8]].
  rewrite E8, bind_ok in Em.
  destruct (table_of_total asset "major_holders" (Hattr _)) as [t9 [E9 N9]].
  rewrite E9, bind_ok in Em.
  destruct (getattr_total (ticker_attr asset "calendar") VNone (Hattr _))
    as [calendar Ecal].
  rewrite Ecal, !bind_ok in Em.
  match type of Em with
  | context [dumps false ?p] => set (payload := p) in Em
  end.
  exists payload.
  assert (is_json_ready payload = true) as Npayload.
  { subst payload. apply NormalizerFacts.is_json_ready_str_dict.
    - simpl. repeat constructor; simpl; intuition discriminate.
    - repeat constructor; simpl; try assumption;
        try apply NormalizerFacts.to_json_compatible_is_json_ready;
        try apply AdapterFacts.df_to_payload_json_ready;
        apply AdapterFacts.series_to_payload_json_ready. }
  split; [reflexivity|]. split; [exact Npayload|].
  split; [exact (json_ready_encodes _ Npayload)|]. split.
  - intros p Ep. split; [exact (dumps_strict _ _ Ep)|]. split.
    + clear Em. subst payload. unfold str_dict in Ep. simpl map in Ep.
      rewrite dumps_dict in Ep.
      destruct (dumps_members false _) as [ms|e] eqn:Ems; [|discriminate].
      simpl in Ep. inversion Ep; subst p. exists ms. split; [reflexivity|].
      rewrite !dumps_members_cons in Ems. simpl fst in Ems. simpl snd in Ems.
      repeat match type of Ems with
             | context [dumps_key false (VStr ?k)] =>
                 change (dumps_key false (VStr k)) with (@Ok str k) in Ems
             end.
      rewrite !bind_ok in Ems.
      repeat match type of Ems with
             | context [bind (dumps false ?v) _] =>
                 destruct (dumps false v);
                 [rewrite bind_ok in Ems | discriminate Ems]
             end.
      simpl in Ems. inversion Ems. reflexivity.
    + clearbody payload. rewrite Ep in Em. exact Em.
  - intros e Ee. clearbody payload. rewrite Ee in Em. exact Em.
Qed.

(** X13. The request reaches the rest of the run only through the
    trimmed ticker and [int(history_days or 30)] floored at 1: two runs
    in the same surroundings whose requests agree on these end the same
    way.  In particular a negative [history_days] behaves as 1. *)
Theorem fetcher_main_request_dependence :
  forall env env' : Env,
    stdout env = stdout env' ->
    yfinance env = yfinance env' -> utcnow env = utcnow env' ->
    (args <- _load_input (stdin env) ;; n <- history_days_arg args ;;
     Ok (ticker_arg args, Z.max n 1))
    = (args <- _load_input (stdin env') ;; n <- history_days_arg args ;;
       Ok (ticker_arg args, Z.max n 1)) ->
    main env = main env'.
Proof.
  unfold history_days_arg, ticker_arg.
  intros env env' Hout Hyf Hnow Hd.
  unfold main. rewrite <- Hout, <- Hyf, <- Hnow.
  destruct (_load_input (stdin env)) as [args|e];
    destruct (_load_input (stdin env')) as [args'|e']; simpl bind in Hd;
    rewrite ?io_bind_lift_ok, ?io_bind_lift_raise; cbv zeta.
  - match type of Hd with
    | bind ?a _ = bind ?b _ => destruct a as [n|e]; destruct b as [n'|e']
    end; simpl bind in Hd; try discriminate Hd;
      rewrite ?io_bind_lift_ok, ?io_bind_lift_raise.
    + injection Hd as Ht Hmax. rewrite Ht.
      pattern (Z.max n 1). rewrite Hmax. reflexivity.
    + inversion Hd. reflexivity.
  - match type of Hd with
    | bind ?a _ = _ => destruct a as [n|e]
    end; simpl bind in Hd; try discriminate Hd.
    rewrite io_bind_lift_raise. inversion Hd. reflexivity.
  - match type of Hd with
    | _ = bind ?b _ => destruct b as [n'|e']
    end; simpl bind in Hd; try discriminate Hd.
    rewrite io_bind_lift_raise. inversion Hd. reflexivity.
  - inversion Hd. reflexivity.
Qed.

End WithRuntime.

Lemma fetcher_main_response_schema_witness :
  let rt := sample_runtime text_acme request_acme in
  let broken :=
    {| stdin := Ok text_acme; stdout := utf8;
       yfinance := Ok (fun _ => Raise (Exn "RuntimeError" lone_surrogate));
       utcnow := sample_now |} in
  (_load_input (stdin sample_fetcher_env) = Ok [(VStr "ticker", VStr "ACME")]
   /\ history_days_arg [(VStr "ticker", VStr "ACME")] = Ok 30
   /\ main sample_fetcher_env = ([sample_fetcher_doc], Ok 0))
  /\ (_load_input (stdin broken) = Ok [(VStr "ticker", VStr "ACME")]
      /\ main broken
         = ([], Raise (UnicodeEncodeError utf8
                         (failure_doc "runtime_error" lone_surrogate)))
      /\ ((exists doc, main broken = ([doc], Ok 0))
          \/ exit_code (snd (main broken)) = 1)).
Proof.
  intros rt broken. split.
  - split; [reflexivity|]. split; reflexivity.
  - split; [reflexivity|]. split; [reflexivity|].
    destruct (@fetcher_main_response_schema rt broken
                [(VStr "ticker", VStr "ACME")] 30 eq_refl eq_refl)
      as [[doc [E _]] | [msg [_ [_ E]]]].
    + left. now exists doc.
    + right. exact E.
Defined.

Lemma fetcher_main_blank_ticker_witness :
  let blank := str_dict [("ticker", VStr no_break_space)] in
  let rt := sample_runtime "{}" blank in
  let env := {| stdin := Ok "{}"; stdout := utf8;
                yfinance := Raise import_error;
                utcnow := sample_now |} in
  _load_input (stdin env) = Ok [(VStr "ticker", VStr no_break_space)]
  /\ history_days_arg [(VStr "ticker", VStr no_break_space)] = Ok 30
  /\ ticker_arg [(VStr "ticker", VStr no_break_space)] = ""
  /\ main env = ([failure_doc "invalid_input" "ticker is required"], Ok 0).
Proof.
  intros blank rt env. split; [reflexivity|]. split; [reflexivity|].
  split; [reflexivity|].
  apply (@fetcher_main_blank_ticker rt env
           [(VStr "ticker", VStr no_break_space)] 30); reflexivity.
Defined.

Lemma fetcher_main_provider_failures_witness :
  let rt := sample_runtime text_acme request_acme in
  let args := [(VStr "ticker", VStr "ACME")] in
  let missing := fetcher_env_with (Raise import_error) in
  let broken := fetcher_env_with (Ok (fun _ => Raise provider_down)) in
  let mute :=
    fetcher_env_with
      (Ok (fun _ => Raise (Exn "RuntimeError" lone_surrogate))) in
  (_load_input (stdin missing) = Ok args
   /\ history_days_arg args = Ok 30
   /\ ticker_arg args <> ""
   /\ main missing
      = ([failure_doc "dependency_missing"
                      "python package 'yfinance' is not installed"], Ok 0))
  /\ main broken = ([failure_doc "runtime_error" "provider unavailable"], Ok 0)
  /\ main mute
     = ([], Raise (UnicodeEncodeError utf8
                     (failure_doc "runtime_error" lone_surrogate))).
Proof.
  intros rt args missing broken mute.
  assert (ticker_arg args <> "") as Ht by discriminate.
  split; [|split].
  - split; [reflexivity|]. split; [reflexivity|]. split; [exact Ht|].
    apply (proj1 (@fetcher_main_provider_failures rt missing args 30
                    eq_refl eq_refl Ht) import_error).
    reflexivity.
  - rewrite (proj2 (@fetcher_main_provider_failures rt broken args 30
                      eq_refl eq_refl Ht)
                   (fun _ => Raise provider_down) provider_down eq_refl eq_refl).
    reflexivity.
  - rewrite (proj2 (@fetcher_main_provider_failures rt mute args 30
                      eq_refl eq_refl Ht)
                   (fun _ => Raise (Exn "RuntimeError" lone_surrogate))
                   (Exn "RuntimeError" lone_surrogate) eq_refl eq_refl).
    reflexivity.
Defined.

Lemma fetcher_main_success_witness :
  let rt := sample_runtime text_acme request_acme in
  let args := [(VStr "ticker", VStr "ACME")] in
  _load_input (stdin sample_fetcher_env) = Ok args
  /\ history_days_arg args = Ok 30
  /\ ticker_arg args <> ""
  /\ (exists payload,
        keys payload = map VStr fetcher_payload_keys
        /\ is_json_ready payload = true)
  /\ main sample_fetcher_env = ([sample_fetcher_doc], Ok 0).
Proof.
  intros rt args.
  assert (ticker_arg args <> "") as Ht by discriminate.
  split; [reflexivity|]. split; [reflexivity|]. split; [exact Ht|].
  split; [|reflexivity].
  destruct (@fetcher_main_success rt sample_fetcher_env args 30
              (fun _ => Ok sample_asset) sample_asset
              eq_refl eq_refl Ht eq_refl eq_refl)
    as [payload [Hk [Hr _]]].
  - intros name e. simpl.
    repeat match goal with
           | |- context [str_eqb name ?s] => destruct (str_eqb name s)
           end; discriminate.
  - intros kwargs e. discriminate.
  - intros name v [<-|[<-|[]]]; simpl; intros E; inversion E; subst;
      eexists; reflexivity.
  - exists payload. split; [exact Hk | exact Hr].
Defined.

Lemma fetcher_main_request_dependence_witness :
  let below := {| stdin := Ok "below"; stdout := utf8;
                  yfinance := Ok (fun _ => Ok sample_asset);
                  utcnow := sample_now |} in
  let one := {| stdin := Ok "one"; stdout := utf8;
                yfinance := Ok (fun _ => Ok sample_asset);
                utcnow := sample_now |} in
  let rt := {| py_repr := fun _ => "<repr>";
               json_loads := fun s =>
                 if str_eqb s "below" then Ok (VDict (request_days (-5)))
                 else Ok (VDict (request_days 1));
               int_of_str := fun _ => Raise provider_down;
               float_of_str := fun _ => Raise provider_down;
               int_max_str_digits := 4300 |} in
  _load_input (stdin below) = Ok (request_days (-5))
  /\ _load_input (stdin one) = Ok (request_days 1)
  /\ history_days_arg (request_days (-5)) = Ok (-5)
  /\ history_days_arg (request_days 1) = Ok 1
  /\ main below = main one.
Proof.
  intros below one rt. split; [reflexivity|]. split; [reflexivity|].
  split; [reflexivity|]. split; [reflexivity|].
  apply (@fetcher_main_request_dependence rt below one); reflexivity.
Defined.

(** A [history_days] of 0 is falsy: it is replaced by the default 30
    before the floor at 1 applies, and so is not treated as 1. *)
Example history_days_zero_is_default :
  let rt := sample_runtime text_acme request_acme in
  history_days_arg (request_days 0) = Ok 30
  /\ history_days_arg (request_days (-5)) = Ok (-5)
  /\ history_days_arg [(VStr "ticker", VStr "ACME")] = Ok 30.
Proof. repeat split. Qed.

End FetcherRuns.

(* ===================================================================== *)
(** * Laws of the helpers of [yfinance_history_fetcher.py] *)
(* ===================================================================== *)

Module HistoryLaws.
Import Py Props PyFacts EncoderFacts HistoryFetcher.
#[local] Open Scope str_scope.
#[local] Open Scope py_scope.

(** *** Strings *)

Lemma length_app (a b : str) :
  str_length (a ++ b) = (str_length a + str_length b)%nat.
Proof. induction a as [|c a IH]; simpl; [reflexivity | now rewrite IH]. Qed.

Lemma no_space_app (a b : str) :
  no_space (a ++ b) = no_space a && no_space b.
Proof.
  induction a as [|c a IH]; simpl; [reflexivity|].
  now rewrite IH, andb_assoc.
Qed.

Lemma length_zeros (n : nat) : str_length (zeros n) = n.
Proof. induction n; simpl; [reflexivity | now rewrite IHn]. Qed.

Lemma no_space_zeros (n : nat) : no_space (zeros n) = true.
Proof. induction n; simpl; [reflexivity | exact IHn]. Qed.

Lemma app_assoc_str (a b c : str) : (a ++ b) ++ c = a ++ (b ++ c).
Proof. induction a as [|x a IH]; simpl; [reflexivity | now rewrite IH]. Qed.

Lemma prefix_app (a b : str) :
  str_prefix (str_length a) (a ++ b) = a.
Proof.
  induction a as [|c a IH]; simpl; [reflexivity | now rewrite IH].
Qed.

Lemma prefix_nonempty (n : nat) (s : str) :
  s <> "" -> str_prefix (S n) s <> "".
Proof. destruct s; [contradiction | discriminate]. Qed.

Lemma rstrip_no_space (a b : str) :
  no_space a = true -> rstrip (a ++ b) = a ++ rstrip b.
Proof.
  induction a as [|c a IH]; simpl; intros H; [reflexivity|].
  apply andb_true_iff in H. destruct H as [Hc Ha].
  rewrite (IH Ha). apply negb_true_iff in Hc. rewrite Hc.
  destruct (a ++ rstrip b); reflexivity.
Qed.

Lemma lstrip_no_space (a b : str) :
  no_space a = true -> a <> "" -> lstrip (a ++ b) = a ++ b.
Proof.
  destruct a as [|c a]; [contradiction|]. simpl. intros H _.
  apply andb_true_iff in H. destruct H as [Hc _].
  apply negb_true_iff in Hc. now rewrite Hc.
Qed.

(** *** Dates *)

Lemma fits_four : forallb (fits 4) (seq 0 (100 * 100)) = true.
Proof. vm_compute. reflexivity. Qed.

Lemma fits_two : forallb (fits 2) (seq 0 100) = true.
Proof. vm_compute. reflexivity. Qed.

Lemma zpad_shape (width : nat) (n : Z) :
  fits width (Z.to_nat n) = true -> 0 <= n ->
  str_length (zpad width n) = width /\ no_space (zpad width n) = true.
Proof.
  unfold fits, zpad. intros H Hn. rewrite Z2Nat.id in H by exact Hn.
  apply andb_true_iff in H. destruct H as [Hl Hs].
  apply Nat.leb_le in Hl. split.
  - rewrite length_app, length_zeros. lia.
  - now rewrite no_space_app, no_space_zeros, Hs.
Qed.

Lemma zpad_four (n : Z) :
  0 <= n <= 9999 ->
  str_length (zpad 4 n) = 4%nat /\ no_space (zpad 4 n) = true.
Proof.
  intros H. apply zpad_shape; [|lia].
  pose proof fits_four as F. rewrite forallb_forall in F.
  apply F, in_seq. lia.
Qed.

Lemma zpad_two (n : Z) :
  0 <= n <= 99 ->
  str_length (zpad 2 n) = 2%nat /\ no_space (zpad 2 n) = true.
Proof.
  intros H. apply zpad_shape; [|lia].
  pose proof fits_two as F. rewrite forallb_forall in F.
  apply F, in_seq. lia.
Qed.

Lemma date_isoformat_shape (d : date) :
  valid_date d ->
  str_length (date_isoformat d) = 10%nat
  /\ no_space (date_isoformat d) = true.
Proof.
  intros [Hy [Hm Hd]]. unfold date_isoformat.
  destruct (zpad_four (year d)) as [Ly Sy]; [lia|].
  destruct (zpad_two (month d)) as [Lm Sm]; [lia|].
  destruct (zpad_two (day d)) as [Ld Sd]; [lia|].
  split.
  - rewrite !length_app, Ly, Lm, Ld. reflexivity.
  - rewrite !no_space_app, Sy, Sm, Sd. reflexivity.
Qed.

Lemma date_isoformat_nonempty (d : date) : date_isoformat d <> "".
Proof.
  unfold date_isoformat. intros H.
  apply (f_equal str_length) in H. rewrite !length_app in H.
  simpl in H. lia.
Qed.

Section WithRuntime.
Context {rt : Runtime}.

Lemma to_number_some (v : value) (x : spec_float) :
  _to_number v = Some x -> x <> S754_nan /\ py_float v = Ok x.
Proof.
  intros H. unfold _to_number in H.
  destruct (py_float v) as [y|e] eqn:E.
  - destruct (float_ne y y) eqn:N.
    + destruct v; discriminate H.
    + assert (y = x) as -> by (destruct v; congruence).
      split; [|reflexivity]. intros ->. discriminate N.
  - destruct v; discriminate H.
Qed.

(** X15. [_to_number] never returns NaN: what it returns is what
    [float(value)] gave, and any float other than NaN, the two infinities
    included, is returned unchanged; null stays null. *)
Theorem to_number_never_nan :
  (forall v x, _to_number v = Some x -> x <> S754_nan /\ py_float v = Ok x)
  /\ (forall x, x <> S754_nan -> _to_number (VFloat x) = Some x)
  /\ _to_number (VFloat float_nan) = None
  /\ _to_number VNone = None.
Proof.
  split; [exact to_number_some|]. split; [|split; reflexivity].
  intros x Hx. unfold _to_number. simpl.
  now rewrite (float_ne_self_finite x Hx).
Qed.

Lemma index_to_utc_date_resolve (v : value) :
  (forall s, _index_to_utc_date v = Ok (Some s) -> s <> "").
Proof.
  intros s. unfold _index_to_utc_date. cbv zeta.
  destruct (as_datetime _) as [d|].
  - destruct (tzinfo d); [destruct (astimezone_utc d)|]; simpl;
      intros H; inversion H; apply date_isoformat_nonempty.
  - destruct (as_date _) as [d|].
    + intros H. inversion H. apply date_isoformat_nonempty.
    + destruct (strip _) eqn:E; simpl; intros H; inversion H. discriminate.
Qed.

(** X16. [_index_to_utc_date] never returns an empty string: an index
    resolves to a non-empty date string or to nothing, and it resolves to
    nothing only when, as converted by [to_pydatetime] where that works,
    it is neither a date nor a date-time and its string form is blank. *)
Theorem index_to_utc_date_never_blank :
  forall v : value,
    (forall s, _index_to_utc_date v = Ok (Some s) -> s <> "")
    /\ (_index_to_utc_date v = Ok None ->
        let val := match attr_of ob_to_pydatetime v with
                   | Returns converted => converted
                   | _ => v
                   end in
        strip (py_str val) = ""
        /\ (forall d, val <> VDate d) /\ (forall d, val <> VDateTime d)
        /\ as_date val = None /\ as_datetime val = None).
Proof.
  intros v. split; [apply index_to_utc_date_resolve|].
  unfold _index_to_utc_date. cbv zeta.
  destruct (as_datetime _) as [d|] eqn:Edt.
  { destruct (tzinfo d); [destruct (astimezone_utc d)|]; simpl;
      intros H; discriminate H. }
  destruct (as_date _) as [d|] eqn:Ed; [intros H; discriminate H|].
  destruct (strip _) eqn:E; simpl; intros H; [|discriminate H].
  split; [reflexivity|]. split; [|split; [|split; reflexivity]].
  - intros d Hv. rewrite Hv in Ed. discriminate Ed.
  - intros d Hv. rewrite Hv in Edt. discriminate Edt.
Qed.

(** X17. A string index that begins with the ISO form of a calendar date
    (year 1 to 9999) resolves to exactly that date, whatever follows; so
    a date and the printed form of a naive date-time resolve as the date
    object itself does. *)
Theorem index_to_utc_date_iso_prefix :
  forall (d : date) (rest : str),
    valid_date d ->
    _index_to_utc_date (VStr (date_isoformat d ++ rest))
    = Ok (Some (date_isoformat d))
    /\ _index_to_utc_date (VStr (date_isoformat d ++ rest))
       = _index_to_utc_date (VDate d)
    /\ (forall h m s us,
          _index_to_utc_date
            (VStr (py_str (VDateTime (DateTime d h m s us None))))
          = _index_to_utc_date (VDateTime (DateTime d h m s us None))).
Proof.
  intros d rest Hd.
  destruct (date_isoformat_shape d Hd) as [Hlen Hns].
  assert (forall tail, _index_to_utc_date (VStr (date_isoformat d ++ tail))
                       = Ok (Some (date_isoformat d))) as H.
  { intros tail. unfold _index_to_utc_date.
    cbn [attr_of as_datetime as_date py_str]. unfold strip.
    rewrite lstrip_no_space
      by (exact Hns || apply date_isoformat_nonempty).
    rewrite rstrip_no_space by exact Hns.
    assert (str_is_empty (date_isoformat d ++ rstrip tail) = false) as Hne.
    { destruct (date_isoformat d) eqn:E;
        [now elim (date_isoformat_nonempty d) | reflexivity]. }
    rewrite Hne, <- Hlen, prefix_app. reflexivity. }
  split; [apply H|]. split; [rewrite H; reflexivity|].
  intros h m s us. simpl py_str. unfold datetime_isoformat_sep. simpl dt_date.
  rewrite H. reflexivity.
Qed.

(** X19. The fetch window derived from a request always names the
    interval ("1d" when absent or blank), [auto_adjust=False] and
    [actions=True], and exactly one of [start] and [period]: the start
    date when one is given, else the period when one is given, else the
    period "max". *)
Theorem history_kwargs_window :
  forall (start_date period : option str) (interval : str),
    let kwargs := history_kwargs start_date period interval in
    kwarg kwargs "interval" = Some (VStr interval)
    /\ kwarg kwargs "auto_adjust" = Some (VBool false)
    /\ kwarg kwargs "actions" = Some (VBool true)
    /\ kwarg kwargs "start" = option_map VStr start_date
    /\ kwarg kwargs "period"
       = match start_date, period with
         | Some _, _ => None
         | None, Some p => Some (VStr p)
         | None, None => Some (VStr "max")
         end
    /\ List.length kwargs = 4%nat.
Proof.
  intros [start|] [period|] interval; repeat split.
Qed.

End WithRuntime.

Lemma to_number_never_nan_witness :
  let rt := sample_runtime text_acme request_acme in
  _to_number (VInt 1000) = Some (float_of_pos 1000)
  /\ float_of_pos 1000 <> S754_nan
  /\ float_inf <> S754_nan
  /\ _to_number (VFloat float_inf) = Some float_inf.
Proof.
  intros rt.
  destruct (@to_number_never_nan rt) as [Hsome [Hfloat _]].
  assert (_to_number (VInt 1000) = Some (float_of_pos 1000)) as E
    by reflexivity.
  split; [exact E|]. split; [exact (proj1 (Hsome _ _ E))|].
  assert (float_inf <> S754_nan) as Hinf by discriminate.
  split; [exact Hinf | exact (Hfloat _ Hinf)].
Defined.

Lemma index_to_utc_date_never_blank_witness :
  let rt := sample_runtime text_acme request_acme in
  _index_to_utc_date (VStr "  2024-01-02 00:00:00  ") = Ok (Some "2024-01-02")
  /\ "2024-01-02" <> ""
  /\ _index_to_utc_date (VStr "   ") = Ok None
  /\ strip (py_str (VStr "   ")) = "".
Proof.
  intros rt.
  destruct (@index_to_utc_date_never_blank rt
              (VStr "  2024-01-02 00:00:00  ")) as [Hsome _].
  destruct (@index_to_utc_date_never_blank rt (VStr "   ")) as [_ Hnone].
  split; [reflexivity|]. split; [apply Hsome; reflexivity|].
  split; [reflexivity|]. exact (proj1 (Hnone eq_refl)).
Defined.

Lemma index_to_utc_date_iso_prefix_witness :
  let rt := sample_runtime text_acme request_acme in
  valid_date (Date 2024 1 2)
  /\ _index_to_utc_date (VStr "2024-01-02T09:30:00-05:00")
     = Ok (Some "2024-01-02").
Proof.
  intros rt.
  assert (valid_date (Date 2024 1 2)) as H by (unfold valid_date; simpl; lia).
  split; [exact H|].
  exact (proj1 (@index_to_utc_date_iso_prefix rt (Date 2024 1 2)
                  "T09:30:00-05:00" H)).
Defined.

End HistoryLaws.

(* ===================================================================== *)
(** * Runs of [yfinance_history_fetcher.py] *)
(* ===================================================================== *)

Module HistoryRuns.
Import Py Props PyFacts EncoderFacts HistoryFetcher.
Import FetcherProcess HistoryProcess.
#[local] Open Scope str_scope.
#[local] Open Scope py_scope.

Section WithRuntime.
Context {rt : Runtime}.

Lemma dumps_number (x : option spec_float) :
  dumps true (of_number x) = Ok (number_doc x).
Proof. destruct x as [[s|[|]| |s m e]|]; reflexivity. Qed.

Lemma dumps_float (y : spec_float) :
  dumps true (VFloat y) = Ok (number_doc (Some y)).
Proof. destruct y as [s|[|]| |s m e]; reflexivity. Qed.

Lemma dumps_history_row (date : str) (row : Series) :
  dumps true (history_row date row) = Ok (row_doc date row).
Proof.
  unfold history_row, row_doc, str_dict. simpl map. cbv zeta.
  rewrite dumps_dict, !dumps_members_cons. simpl fst. simpl snd.
  repeat match goal with
         | |- context [dumps_key true (VStr ?k)] =>
             change (dumps_key true (VStr k)) with (@Ok str k)
         end.
  change (dumps true (VStr date)) with (Ok (JString date)).
  rewrite !dumps_number, !dumps_float, !bind_ok.
  reflexivity.
Qed.

Lemma dumps_history_rows (l : list (str * Series)) :
  dumps_elems true (map (fun dr => history_row (fst dr) (snd dr)) l)
  = Ok (map (fun dr => row_doc (fst dr) (snd dr)) l).
Proof.
  induction l as [|dr l IH]; [reflexivity|].
  simpl map. rewrite dumps_elems_cons, dumps_history_row, IH. reflexivity.
Qed.

Lemma number_doc_to_number (cell : value) :
  has_nan_token (number_doc (_to_number cell)) = false.
Proof.
  destruct (_to_number cell) as [x|] eqn:E; [|reflexivity].
  destruct (HistoryLaws.to_number_some cell x E) as [Hx _].
  destruct x as [s|[|]| |s m e]; try reflexivity. now elim Hx.
Qed.

Lemma dumps_history_success (a : bool) (payload : value) :
  dumps a (str_dict [("ok", VBool true); ("payload", payload)])
  = (p <- dumps a payload ;; Ok (history_success_doc p)).
Proof.
  unfold str_dict. simpl map. rewrite dumps_dict.
  rewrite !dumps_members_cons. simpl fst. simpl snd.
  change (dumps_key a (VStr "ok")) with (@Ok str "ok").
  change (dumps_key a (VStr "payload")) with (@Ok str "payload").
  change (dumps a (VBool true)) with (Ok JTrue).
  rewrite !bind_ok.
  destruct (dumps a payload) as [p|e]; reflexivity.
Qed.

Lemma dumps_history_payload (ticker : str) (currency : value) (cdoc : json)
      (now : datetime) (drs : list (str * Series)) :
  dumps true currency = Ok cdoc ->
  dumps true
    (str_dict
       [("ticker", VStr ticker); ("currency", currency);
        ("fetched_at", VStr (datetime_isoformat now));
        ("rows", VList (map (fun dr => history_row (fst dr) (snd dr)) drs))])
  = Ok (history_payload_doc ticker cdoc now drs).
Proof.
  intros Hdoc. unfold str_dict. simpl map.
  rewrite dumps_dict, !dumps_members_cons. simpl fst. simpl snd.
  repeat match goal with
         | |- context [dumps_key true (VStr ?k)] =>
             change (dumps_key true (VStr k)) with (@Ok str k)
         end.
  repeat match goal with
         | |- context [dumps true (VStr ?k)] =>
             change (dumps true (VStr k)) with (Ok (JString k))
         end.
  rewrite Hdoc, dumps_list, dumps_history_rows, !bind_ok.
  reflexivity.
Qed.

(** The [try] block of [main] and its handler, given how assembling the
    payload ended. *)
Lemma history_try (out : stream) (assembled : result value) :
  try_except
    (payload <-- lift assembled ;;
     _emit out (str_dict [("ok", VBool true); ("payload", payload)]) ;;;
     ret 0)
    (fun error => _emit out (runtime_error error) ;;; ret 0)
  = match (payload <- assembled ;; dumps true payload) with
    | Raise e => respond out (failure_doc "runtime_error" (exn_msg e))
    | Ok p =>
        if writable out (history_success_doc p)
        then ([history_success_doc p], Ok 0)
        else respond out (failure_doc "runtime_error"
                            (encode_error_text out (history_success_doc p)))
    end.
Proof.
  assert (forall e, (_emit out (runtime_error e) ;;; ret 0)
                    = respond out (failure_doc "runtime_error" (exn_msg e)))
    as Hh by (intros e; apply history_emit_failure_then_return).
  destruct assembled as [payload|e].
  - rewrite io_bind_lift_ok, history_emit_then_return, dumps_history_success.
    simpl bind. destruct (dumps true payload) as [p|e]; simpl bind;
      cbv beta iota.
    + unfold respond at 1.
      destruct (writable out (history_success_doc p)); [reflexivity|].
      rewrite FetcherRuns.try_except_raise. apply Hh.
    + rewrite FetcherRuns.try_except_raise. apply Hh.
  - rewrite io_bind_lift_raise, FetcherRuns.try_except_raise. apply Hh.
Qed.

(** How a run goes on once the request has been read. *)
Lemma history_main_cases (env : Env) args :
  _read_input (stdin env) = Ok args ->
  main env = ([invalid_input_doc], Ok 0)
  \/ main env
     = ([failure_doc "dependency_missing"
                     "python package 'yfinance' is not installed"], Ok 0)
  \/ (exists p, writable (stdout env) (history_success_doc p) = true
                /\ main env = ([history_success_doc p], Ok 0))
  \/ (exists msg,
        main env = respond (stdout env) (failure_doc "runtime_error" msg)).
Proof.
  intros Ha.
  remember (main env) as m eqn:Em.
  unfold main in Em.
  rewrite Ha, io_bind_lift_ok in Em. cbv zeta in Em.
  match type of Em with
  | context [str_is_empty ?s] => destruct (str_is_empty s)
  end.
  { left. exact Em. }
  destruct (yfinance env) as [yf|e].
  2:{ right; left. exact Em. }
  right; right. rewrite history_try in Em.
  match type of Em with
  | context [match ?r with Ok _ => _ | Raise _ => _ end] =>
      destruct r as [p|e] eqn:Er
  end.
  - destruct (writable (stdout env) (history_success_doc p)) eqn:W.
    + left. exists p. split; [exact W | exact Em].
    + right. eexists. exact Em.
  - right. eexists. exact Em.
Qed.

Lemma rows_of_history (history : option DataFrame) :
  match history with
  | Some table =>
      if negb (df_empty table) then history_rows (df_iterrows table)
      else Ok []
  | None => Ok []
  end = history_rows (table_rows history).
Proof.
  destruct history as [table|]; [|reflexivity].
  unfold table_rows. destruct (df_empty table); reflexivity.
Qed.

(** X20. Every run of the history script, whatever the request and the
    provider, either writes exactly one document and returns 0, the
    document being a success response [{ok: true, payload}] or a failure
    response whose code is one of invalid_input, dependency_missing,
    runtime_error; or writes nothing and ends with status 1, which
    happens only when standard input cannot be read or when standard
    output cannot encode the runtime_error response the handler tries to
    write. *)
Theorem history_main_response_schema :
  forall env : Env,
    (exists doc,
       main env = ([doc], Ok 0)
       /\ exit_code (snd (main env)) = 0
       /\ writable (stdout env) doc = true
       /\ ((exists payload, doc = history_success_doc payload)
           \/ (exists code msg, In code failure_codes
                                /\ doc = failure_doc code msg)))
    \/ (exists e,
          main env = ([], Raise e)
          /\ exit_code (snd (main env)) = 1
          /\ (stdin env = Raise e
              \/ exists msg,
                   writable (stdout env) (failure_doc "runtime_error" msg)
                   = false
                   /\ e = UnicodeEncodeError (stdout env)
                            (failure_doc "runtime_error" msg))).
Proof.
  intros env.
  destruct (_read_input (stdin env)) as [args|e] eqn:Ha.
  2:{ right. exists e.
      assert (stdin env = Raise e) as Hin.
      { unfold _read_input in Ha. destruct (stdin env) as [text|e'].
        - simpl in Ha. destruct (str_is_empty _); [discriminate|].
          destruct (json_loads _) as [v|?]; [|discriminate].
          destruct (as_dict v); discriminate.
        - simpl in Ha. now inversion Ha. }
      rewrite (history_main_unreadable env e Hin). repeat split. now left. }
  destruct (history_main_cases env args Ha)
    as [E | [E | [[p [W E]] | [msg E]]]]; rewrite E.
  - left. exists invalid_input_doc. repeat split.
    right. exists "invalid_input", "ticker is required".
    split; [simpl; tauto | reflexivity].
  - left. eexists. repeat split.
    right. exists "dependency_missing",
             "python package 'yfinance' is not installed".
    split; [simpl; tauto | reflexivity].
  - left. exists (history_success_doc p).
    split; [reflexivity|]. split; [reflexivity|]. split; [exact W|].
    left. now exists p.
  - unfold respond.
    destruct (writable (stdout env) (failure_doc "runtime_error" msg)) eqn:W.
    + left. exists (failure_doc "runtime_error" msg).
      split; [reflexivity|]. split; [reflexivity|]. split; [exact W|].
      right. exists "runtime_error", msg. split; [simpl; tauto | reflexivity].
    + right. eexists. split; [reflexivity|]. split; [reflexivity|].
      right. exists msg. split; [exact W | reflexivity].
Qed.

(** X21. The history script answers every request whose ticker is absent
    or blank after trimming with exactly the invalid_input response and
    status 0, whatever the other request fields and the provider. *)
Theorem history_main_blank_ticker :
  forall (env : Env) (args : list (value * value)),
    _read_input (stdin env) = Ok args ->
    ticker_arg args = "" ->
    main env = ([failure_doc "invalid_input" "ticker is required"], Ok 0).
Proof.
  intros env args Ha Ht. exact (history_main_invalid_input env args Ha Ht).
Qed.

(** X22. With a ticker: when the import of [yfinance] fails the history
    script answers dependency_missing, with status 0; when
    [yf.Ticker(ticker)] raises, or the history call with the window
    derived from the request raises, the handler writes the
    runtime_error response carrying the exception's text and returns 0,
    unless standard output cannot encode that text, in which case
    nothing is written and the process ends with status 1. *)
Theorem history_main_provider_failures :
  forall (env : Env) (args : list (value * value)),
    _read_input (stdin env) = Ok args ->
    ticker_arg args <> "" ->
    (forall e, yfinance env = Raise e ->
       main env
       = ([failure_doc "dependency_missing"
                       "python package 'yfinance' is not installed"], Ok 0))
    /\ (forall yf e, yfinance env = Ok yf ->
          yf (ticker_arg args) = Raise e ->
          let doc := failure_doc "runtime_error" (exn_msg e) in
          main env
          = if writable (stdout env) doc then ([doc], Ok 0)
            else ([], Raise (UnicodeEncodeError (stdout env) doc)))
    /\ (forall yf asset e, yfinance env = Ok yf ->
          yf (ticker_arg args) = Ok asset ->
          ticker_history asset (request_window args) = Raise e ->
          let doc := failure_doc "runtime_error" (exn_msg e) in
          main env
          = if writable (stdout env) doc then ([doc], Ok 0)
            else ([], Raise (UnicodeEncodeError (stdout env) doc))).
Proof.
  unfold ticker_arg, request_window. intros env args Ha Ht.
  unfold main. rewrite Ha, io_bind_lift_ok. cbv zeta.
  rewrite (not_blank _ Ht). repeat split.
  - intros e ->. reflexivity.
  - intros yf e -> E. rewrite history_try, E. reflexivity.
  - intros yf asset e -> Ea Eh. rewrite history_try, Ea, bind_ok, Eh.
    reflexivity.
Qed.

(** X23. With a ticker and a provider that loads and builds the ticker:
    when the history call with the window derived from the request
    returns, every row index resolves without error, and the currency
    read from the metadata encodes, the document the history script sets
    out to write is the success response whose payload holds the ticker,
    the currency, the time stamp and, in table order, one row document
    per row whose index resolves to a date (none for a missing or empty
    table).  It is written, with status 0, when standard output can
    encode it; when it cannot the handler answers runtime_error with the
    text of the encoding error. *)
Theorem history_main_success :
  forall (env : Env) (args : list (value * value))
         (yf : str -> result Ticker) (asset : Ticker)
         (history : option DataFrame) (rows : list value)
         (currency : value) (currency_doc : json),
    _read_input (stdin env) = Ok args ->
    ticker_arg args <> "" ->
    yfinance env = Ok yf ->
    yf (ticker_arg args) = Ok asset ->
    ticker_history asset (request_window args) = Ok history ->
    history_rows (table_rows history) = Ok rows ->
    currency_of asset = Ok currency ->
    dumps true currency = Ok currency_doc ->
    let doc :=
      history_success_doc
        (history_payload_doc (ticker_arg args) currency_doc (utcnow env)
                             (dated_rows (table_rows history))) in
    main env
    = if writable (stdout env) doc then ([doc], Ok 0)
      else respond (stdout env)
             (failure_doc "runtime_error" (encode_error_text (stdout env) doc)).
Proof.
  unfold ticker_arg, request_window, currency_of.
  intros env args yf asset history rows currency cdoc
         Hargs Ht Hyf Ha Hh Hrows Hcur Hdoc.
  cbv zeta. unfold main. rewrite Hargs, io_bind_lift_ok. cbv zeta.
  rewrite (not_blank _ Ht), Hyf, history_try.
  rewrite Ha, bind_ok, Hh, bind_ok, rows_of_history, Hrows, bind_ok.
  destruct (getattr (ticker_info asset) (VDict [])) as [info|e];
    [|discriminate Hcur].
  rewrite bind_ok in Hcur |- *.
  destruct (py_or info (VDict [])) as [info'|e]; [|discriminate Hcur].
  rewrite bind_ok in Hcur |- *.
  rewrite Hcur, !bind_ok.
  rewrite (HistoryFacts.history_rows_dated _ _ Hrows).
  rewrite (dumps_history_payload _ _ _ _ _ Hdoc). reflexivity.
Qed.

(** X24. No row document of the history script carries the token NaN,
    and a row none of whose cells converts to an infinity is strict
    JSON: of the non-standard number tokens only the infinities can
    reach the output through a row. *)
Theorem history_row_tokens :
  forall (date : str) (row : Series),
    dumps true (history_row date row) = Ok (row_doc date row)
    /\ has_nan_token (row_doc date row) = false
    /\ ((forall name s,
           _to_number (row_get row name) <> Some (S754_infinity s)) ->
        strict_json (row_doc date row) = true).
Proof.
  intros date row. split; [apply dumps_history_row|].
  assert (forall x, x <> S754_nan ->
                    has_nan_token (number_doc (Some x)) = false) as Hnan.
  { intros [s|[|]| |s m e] Hx; try reflexivity. now elim Hx. }
  assert (forall name,
             number_or (_to_number (row_get row name)) float_zero <> S754_nan)
    as Hor.
  { intros name. unfold number_or.
    destruct (_to_number (row_get row name)) as [x|] eqn:E; [|discriminate].
    destruct (float_ne x float_zero); [|discriminate].
    exact (proj1 (HistoryLaws.to_number_some _ _ E)). }
  split.
  - unfold row_doc. cbv zeta. cbn [has_nan_token existsb snd].
    rewrite !number_doc_to_number, !(Hnan _ (Hor _)). reflexivity.
  - intros Hfin.
    assert (forall x, (forall s, x <> Some (S754_infinity s)) ->
                      x <> Some S754_nan ->
                      strict_json (number_doc x) = true) as Hstrict.
    { intros [[s|s| |s m e]|] Hi Hn; try reflexivity.
      - now elim (Hi s).
      - now elim Hn. }
    assert (forall name, strict_json (number_doc (_to_number (row_get row name)))
                         = true) as Hcell.
    { intros name. apply Hstrict; [intros s; apply Hfin|].
      intros E. now elim (proj1 (HistoryLaws.to_number_some _ _ E)). }
    assert (forall name,
               strict_json (number_doc
                  (Some (number_or (_to_number (row_get row name)) float_zero)))
               = true) as Hdef.
    { intros name. apply Hstrict.
      - intros s E. inversion E as [E']. unfold number_or in E'.
        destruct (_to_number (row_get row name)) as [x|] eqn:Ex;
          [|discriminate E'].
        destruct (float_ne x float_zero); [|discriminate E'].
        subst x. now elim (Hfin name s).
      - intros E. inversion E as [E']. now elim (Hor name). }
    unfold row_doc. cbv zeta. cbn [strict_json forallb snd].
    rewrite !Hcell, !Hdef. reflexivity.
Qed.

(** X25. The request reaches the rest of a run of the history script
    only through the trimmed ticker and the fetch window derived from
    [start_date], [period] and [interval]: two runs in the same
    surroundings whose requests agree on these end the same way. *)
Theorem history_main_request_dependence :
  forall env env' : Env,
    stdout env = stdout env' ->
    yfinance env = yfinance env' -> utcnow env = utcnow env' ->
    (args <- _read_input (stdin env) ;;
     Ok (ticker_arg args, request_window args))
    = (args <- _read_input (stdin env') ;;
       Ok (ticker_arg args, request_window args)) ->
    main env = main env'.
Proof.
  unfold ticker_arg, request_window.
  intros env env' Hout Hyf Hnow H.
  unfold main. rewrite <- Hout, <- Hyf, <- Hnow.
  destruct (_read_input (stdin env)) as [args|e];
    destruct (_read_input (stdin env')) as [args'|e']; simpl bind in H;
    try discriminate H;
    rewrite ?io_bind_lift_ok, ?io_bind_lift_raise; cbv zeta.
  - injection H as Ht Hw. rewrite Ht.
    match type of Hw with
    | ?k = _ => pattern k
    end.
    rewrite Hw. reflexivity.
  - inversion H. reflexivity.
Qed.

End WithRuntime.

Lemma history_main_response_schema_witness :
  let rt := sample_runtime text_acme request_acme in
  let mute :=
    history_env_with
      (Ok (fun _ => Raise (Exn "RuntimeError" lone_surrogate))) in
  main mute
  = ([], Raise (UnicodeEncodeError utf8
                  (failure_doc "runtime_error" lone_surrogate)))
  /\ ((exists doc, main mute = ([doc], Ok 0))
      \/ exit_code (snd (main mute)) = 1).
Proof.
  intros rt mute. split; [reflexivity|].
  destruct (@history_main_response_schema rt mute)
    as [[doc [E _]] | [e [_ [E _]]]].
  - left. now exists doc.
  - right. exact E.
Defined.

Lemma history_main_blank_ticker_witness :
  let rt := sample_runtime "{}" (VDict []) in
  let env := {| stdin := Ok "{}"; stdout := utf8;
                yfinance := Raise import_error;
                utcnow := sample_now |} in
  _read_input (stdin env) = Ok []
  /\ ticker_arg [] = ""
  /\ main env = ([failure_doc "invalid_input" "ticker is required"], Ok 0).
Proof.
  intros rt env. split; [reflexivity|]. split; [reflexivity|].
  apply (@history_main_blank_ticker rt env []); reflexivity.
Defined.

Lemma history_main_provider_failures_witness :
  let rt := sample_runtime text_acme request_acme in
  let args := [(VStr "ticker", VStr "ACME")] in
  let missing := history_env_with (Raise import_error) in
  let broken :=
    history_env_with
      (Ok (fun _ => Ok (history_asset (Raise provider_down) Absent))) in
  let mute :=
    history_env_with
      (Ok (fun _ => Raise (Exn "RuntimeError" lone_surrogate))) in
  _read_input (stdin missing) = Ok args
  /\ ticker_arg args <> ""
  /\ main missing
     = ([failure_doc "dependency_missing"
                     "python package 'yfinance' is not installed"], Ok 0)
  /\ main broken = ([failure_doc "runtime_error" "provider unavailable"], Ok 0)
  /\ main mute
     = ([], Raise (UnicodeEncodeError utf8
                     (failure_doc "runtime_error" lone_surrogate))).
Proof.
  intros rt args missing broken mute.
  assert (ticker_arg args <> "") as Ht by discriminate.
  split; [reflexivity|]. split; [exact Ht|]. split; [|split].
  - apply (proj1 (@history_main_provider_failures rt missing args eq_refl Ht)
                 import_error).
    reflexivity.
  - rewrite (proj2 (proj2 (@history_main_provider_failures rt broken args
                             eq_refl Ht))
                   (fun _ => Ok (history_asset (Raise provider_down) Absent))
                   (history_asset (Raise provider_down) Absent) provider_down
                   eq_refl eq_refl eq_refl).
    reflexivity.
  - rewrite (proj1 (proj2 (@history_main_provider_failures rt mute args
                             eq_refl Ht))
                   (fun _ => Raise (Exn "RuntimeError" lone_surrogate))
                   (Exn "RuntimeError" lone_surrogate) eq_refl eq_refl).
    reflexivity.
Defined.

Lemma history_main_success_witness :
  let rt := sample_runtime text_acme request_acme in
  let args := [(VStr "ticker", VStr "ACME")] in
  let asset := history_asset (Ok (Some sample_table)) Absent in
  let env := history_env_with (Ok (fun _ => Ok asset)) in
  _read_input (stdin env) = Ok args
  /\ ticker_arg args <> ""
  /\ currency_of asset = Ok VNone
  /\ main env
     = ([history_success_doc
           (history_payload_doc "ACME" JNull sample_now
              [("2024-01-02", snd (nth 0 sample_iterrows (VNone, [])));
               ("2024-01-04", snd (nth 1 sample_iterrows (VNone, [])))])],
        Ok 0).
Proof.
  intros rt args asset env.
  assert (ticker_arg args <> "") as Ht by discriminate.
  split; [reflexivity|]. split; [exact Ht|]. split; [reflexivity|].
  rewrite (@history_main_success rt env args (fun _ => Ok asset) asset
             (Some sample_table)
             (map (fun dr => history_row (fst dr) (snd dr))
                  (dated_rows sample_iterrows))
             VNone JNull eq_refl Ht eq_refl eq_refl eq_refl eq_refl
             eq_refl eq_refl).
  reflexivity.
Defined.

Lemma history_row_tokens_witness :
  let rt := sample_runtime text_acme request_acme in
  let row := [("Open", VFloat float_nan); ("Close", VFloat (float_of_pos 11))] in
  (forall name s, _to_number (row_get row name) <> Some (S754_infinity s))
  /\ strict_json (row_doc "2024-01-02" row) = true.
Proof.
  intros rt row.
  assert (forall name s,
             _to_number (row_get row name) <> Some (S754_infinity s)) as H.
  { intros name s. unfold row. cbn [row_get].
    destruct (str_eqb "Open" name); [vm_compute; discriminate|].
    destruct (str_eqb "Close" name); vm_compute; discriminate. }
  split; [exact H|].
  exact (proj2 (proj2 (@history_row_tokens rt "2024-01-02" row)) H).
Defined.

Lemma history_main_request_dependence_witness :
  let padded := {| stdin := Ok "padded"; stdout := utf8;
                   yfinance := Ok (fun _ => Ok (history_asset (Ok None) Absent));
                   utcnow := sample_now |} in
  let plain := {| stdin := Ok "plain"; stdout := utf8;
                  yfinance := Ok (fun _ => Ok (history_asset (Ok None) Absent));
                  utcnow := sample_now |} in
  let rt := {| py_repr := fun _ => "<repr>";
               json_loads := fun s =>
                 if str_eqb s "padded"
                 then Ok (str_dict [("ticker", VStr " ACME ");
                                    ("period", VStr "5y");
                                    ("interval", VStr "")])
                 else Ok (str_dict [("period", VStr " 5y");
                                    ("ticker", VStr "ACME");
                                    ("interval", VStr "1d")]);
               int_of_str := fun _ => Raise provider_down;
               float_of_str := fun _ => Raise provider_down;
               int_max_str_digits := 4300 |} in
  (args <- _read_input (stdin padded) ;;
   Ok (ticker_arg args, request_window args))
  = (args <- _read_input (stdin plain) ;;
     Ok (ticker_arg args, request_window args))
  /\ _read_input (stdin padded) <> _read_input (stdin plain)
  /\ main padded = main plain.
Proof.
  intros padded plain rt. split; [reflexivity|]. split; [discriminate|].
  apply (@history_main_request_dependence rt padded plain); reflexivity.
Defined.

End HistoryRuns.

(* ===================================================================== *)
(** * Unreadable requests and failing reads *)
(* ===================================================================== *)

Module ReaderRuns.
Import Py Props PyFacts EncoderFacts.
#[local] Open Scope str_scope.
#[local] Open Scope py_scope.

Section WithRuntime.
Context {rt : Runtime}.

Lemma table_of_raises (asset : Fetcher.Ticker) (name : str) (e : exn) :
  Fetcher.ticker_attr asset name = Raises e ->
  Fetcher.table_of asset name = Raise e.
Proof. unfold Fetcher.table_of. now intros ->. Qed.

Lemma mapping_of_raises (asset : Fetcher.Ticker) (name : str) (e : exn) :
  Fetcher.ticker_attr asset name = Raises e ->
  Fetcher.mapping_of asset name = Raise e.
Proof. unfold Fetcher.mapping_of. now intros ->. Qed.

Lemma getattr_raises {A} (a : attr A) (d : A) (e : exn) :
  a = Raises e -> getattr a d = Raise e.
Proof. now intros ->. Qed.

(** X27. The market-data script reads standard input before any [try]:
    when the read raises (undecodable bytes under strict decoding) the
    exception leaves [main], nothing is written and the process ends
    with status 1.  Input that can be read but is blank, is not JSON, or
    is JSON but not an object is answered with exactly the invalid_input
    response and status 0, whatever the provider. *)
Theorem fetcher_main_degraded_stdin :
  forall env : Fetcher.Env,
    (forall e, Fetcher.stdin env = Raise e ->
       Fetcher.main env = ([], Raise e)
       /\ exit_code (snd (Fetcher.main env)) = 1)
    /\ (forall text, Fetcher.stdin env = Ok text ->
          strip text = ""
          \/ (exists e, json_loads (strip text) = Raise e)
          \/ (exists v, json_loads (strip text) = Ok v /\ as_dict v = None) ->
          Fetcher.main env
          = ([failure_doc "invalid_input" "ticker is required"], Ok 0)).
Proof.
  intros env. split.
  - intros e H. rewrite (FetcherProcess.fetcher_main_unreadable env e H).
    split; reflexivity.
  - intros text Hin H.
    apply FetcherProcess.fetcher_main_degraded_input.
    rewrite Hin. apply FetcherProcess.load_input_degrades. exact H.
Qed.

(** X28. The history script reads standard input before any [try]: when
    the read raises (undecodable bytes under strict decoding) the
    exception leaves [main], nothing is written and the process ends
    with status 1.  Input that can be read but is blank, is not JSON, or
    is JSON but not an object is answered with exactly the invalid_input
    response and status 0, whatever the provider. *)
Theorem history_main_degraded_stdin :
  forall env : HistoryFetcher.Env,
    (forall e, HistoryFetcher.stdin env = Raise e ->
       HistoryFetcher.main env = ([], Raise e)
       /\ exit_code (snd (HistoryFetcher.main env)) = 1)
    /\ (forall text, HistoryFetcher.stdin env = Ok text ->
          strip text = ""
          \/ (exists e, json_loads (strip text) = Raise e)
          \/ (exists v, json_loads (strip text) = Ok v /\ as_dict v = None) ->
          HistoryFetcher.main env
          = ([failure_doc "invalid_input" "ticker is required"], Ok 0)).
Proof.
  intros env. split.
  - intros e H. rewrite (HistoryProcess.history_main_unreadable env e H).
    split; reflexivity.
  - intros text Hin H.
    apply HistoryProcess.history_main_degraded_input.
    rewrite Hin. apply HistoryProcess.read_input_degrades. exact H.
Qed.

(** One step of the payload assembly of the market-data script, for a
    ticker one of whose attributes raises [e] when read. *)
Ltac assemble Em asset e Hraise Hother Hbool :=
  first
    [ rewrite (mapping_of_raises asset _ e Hraise) in Em; exact Em
    | rewrite (table_of_raises asset _ e Hraise) in Em; exact Em
    | rewrite (getattr_raises _ VNone e Hraise) in Em; exact Em
    | match type of Em with
      | context [bind (Fetcher.mapping_of asset ?n) _] =>
          let E := fresh "E" in
          destruct (FetcherRuns.mapping_of_total asset n) as [? [E _]];
          [ intros ?; apply Hother; discriminate
          | intros ?; apply Hbool; simpl; tauto
          | rewrite E, bind_ok in Em ]
      | context [bind (Fetcher.table_of asset ?n) _] =>
          let E := fresh "E" in
          destruct (FetcherRuns.table_of_total asset n) as [? [E _]];
          [ intros ?; apply Hother; discriminate
          | rewrite E, bind_ok in Em ]
      | context [bind (getattr (Fetcher.ticker_attr asset ?n) VNone) _] =>
          let E := fresh "E" in
          destruct (FetcherRuns.getattr_total (Fetcher.ticker_attr asset n)
                                              VNone) as [? E];
          [ intros ?; apply Hother; discriminate
          | rewrite E, bind_ok in Em ]
      | context [bind (Fetcher.ticker_history asset ?kw) _] =>
          let E := fresh "E" in
          destruct (Fetcher.ticker_history asset kw) eqn:E;
          [ rewrite bind_ok in Em | exfalso ]
      end ].

(** X29. Reading an attribute of the ticker is not guarded: when the
    read of one of the thirteen attributes raises something other than
    [AttributeError], as opposed to the attribute being missing, the
    market-data script returns none of the other fields: the handler
    writes the runtime_error response carrying the exception's text and
    returns 0, unless standard output cannot encode that text, in which
    case nothing is written and the process ends with status 1. *)
Theorem fetcher_main_raising_attribute :
  forall (env : Fetcher.Env) (args : list (value * value)) (n : Z)
         (yf : str -> result Fetcher.Ticker)
         (asset : Fetcher.Ticker) (name : str) (e : exn),
    Fetcher._load_input (Fetcher.stdin env) = Ok args ->
    history_days_arg args = Ok n ->
    ticker_arg args <> "" ->
    Fetcher.yfinance env = Ok yf ->
    yf (ticker_arg args) = Ok asset ->
    In name fetcher_reads ->
    Fetcher.ticker_attr asset name = Raises e ->
    exn_type e <> "AttributeError" ->
    (forall other e', other <> name ->
                      Fetcher.ticker_attr asset other <> Raises e') ->
    (forall kwargs e', Fetcher.ticker_history asset kwargs <> Raise e') ->
    (forall other v, In other ["info"; "fast_info"] ->
                     Fetcher.ticker_attr asset other = Returns v ->
                     exists b, py_bool v = Ok b) ->
    let doc := failure_doc "runtime_error" (exn_msg e) in
    Fetcher.main env
    = if writable (Fetcher.stdout env) doc then ([doc], Ok 0)
      else ([], Raise (UnicodeEncodeError (Fetcher.stdout env) doc)).
Proof.
  unfold history_days_arg, ticker_arg.
  intros env args n yf asset name e Ha H Ht Hyf Hasset Hin Hraise _
         Hother Hhist Hbool.
  cbv zeta.
  remember (Fetcher.main env) as m eqn:Em.
  unfold Fetcher.main in Em.
  rewrite Ha, FetcherProcess.io_bind_lift_ok in Em. cbv zeta in Em.
  rewrite H, FetcherProcess.io_bind_lift_ok,
    (FetcherProcess.not_blank _ Ht), Hyf, FetcherRuns.fetcher_try in Em.
  rewrite Hasset, bind_ok in Em.
  unfold fetcher_reads in Hin. simpl in Hin.
  repeat (destruct Hin as [Hin|Hin];
          [ subst name;
            repeat (assemble Em asset e Hraise Hother Hbool);
            try (eapply Hhist; eassumption)
          | ]).
  contradiction.
Qed.

End WithRuntime.

Lemma fetcher_main_degraded_stdin_witness :
  let rt := sample_runtime text_acme request_acme in
  let env := {| Fetcher.stdin := Ok "[1, 2"; Fetcher.stdout := utf8;
                Fetcher.yfinance := Ok (fun _ => Ok sample_asset);
                Fetcher.utcnow := sample_now |} in
  let deaf := {| Fetcher.stdin := Raise undecodable; Fetcher.stdout := utf8;
                 Fetcher.yfinance := Ok (fun _ => Ok sample_asset);
                 Fetcher.utcnow := sample_now |} in
  (exists e, json_loads (strip "[1, 2") = Raise e)
  /\ Fetcher.main env
     = ([failure_doc "invalid_input" "ticker is required"], Ok 0)
  /\ Fetcher.main deaf = ([], Raise undecodable)
  /\ exit_code (snd (Fetcher.main deaf)) = 1.
Proof.
  intros rt env deaf.
  assert (exists e, json_loads (strip "[1, 2") = Raise e) as H
    by (eexists; reflexivity).
  split; [exact H|]. split.
  - apply (proj2 (@fetcher_main_degraded_stdin rt env) "[1, 2" eq_refl).
    right; left. exact H.
  - exact (proj1 (@fetcher_main_degraded_stdin rt deaf) undecodable eq_refl).
Defined.

Lemma history_main_degraded_stdin_witness :
  let rt := sample_runtime "[7]" (VList [VInt 7]) in
  let env := {| HistoryFetcher.stdin := Ok "[7]";
                HistoryFetcher.stdout := utf8;
                HistoryFetcher.yfinance := Raise import_error;
                HistoryFetcher.utcnow := sample_now |} in
  let deaf := {| HistoryFetcher.stdin := Raise undecodable;
                 HistoryFetcher.stdout := utf8;
                 HistoryFetcher.yfinance := Raise import_error;
                 HistoryFetcher.utcnow := sample_now |} in
  (exists v, json_loads (strip "[7]") = Ok v /\ as_dict v = None)
  /\ HistoryFetcher.main env
     = ([failure_doc "invalid_input" "ticker is required"], Ok 0)
  /\ HistoryFetcher.main deaf = ([], Raise undecodable)
  /\ exit_code (snd (HistoryFetcher.main deaf)) = 1.
Proof.
  intros rt env deaf.
  assert (exists v, json_loads (strip "[7]") = Ok v /\ as_dict v = None) as H.
  { exists (VList [VInt 7]). split; reflexivity. }
  split; [exact H|]. split.
  - apply (proj2 (@history_main_degraded_stdin rt env) "[7]" eq_refl).
    right; right. exact H.
  - exact (proj1 (@history_main_degraded_stdin rt deaf) undecodable eq_refl).
Defined.

Lemma fetcher_main_raising_attribute_witness :
  let rt := sample_runtime text_acme request_acme in
  let args := [(VStr "ticker", VStr "ACME")] in
  let asset := sample_asset_raising "cashflow" in
  let env := fetcher_env_with (Ok (fun _ => Ok asset)) in
  Fetcher._load_input (Fetcher.stdin env) = Ok args
  /\ history_days_arg args = Ok 30
  /\ ticker_arg args <> ""
  /\ Fetcher.ticker_attr asset "cashflow" = Raises provider_down
  /\ exn_type provider_down <> "AttributeError"
  /\ Fetcher.main env
     = ([failure_doc "runtime_error" "provider unavailable"], Ok 0).
Proof.
  intros rt args asset env.
  assert (ticker_arg args <> "") as Ht by discriminate.
  assert (exn_type provider_down <> "AttributeError") as Hty by discriminate.
  split; [reflexivity|]. split; [reflexivity|]. split; [exact Ht|].
  split; [reflexivity|]. split; [exact Hty|].
  rewrite (@fetcher_main_raising_attribute rt env args 30
             (fun _ => Ok asset) asset "cashflow" provider_down
             eq_refl eq_refl Ht eq_refl eq_refl).
  - reflexivity.
  - simpl. tauto.
  - reflexivity.
  - exact Hty.
  - intros other e' Hne. simpl.
    destruct (str_eqb_spec other "cashflow") as [->|_]; [contradiction|].
    repeat match goal with
           | |- context [str_eqb other ?s] => destruct (str_eqb other s)
           end; discriminate.
  - intros kwargs e'. discriminate.
  - intros other v [<-|[<-|[]]]; simpl; intros E; inversion E; subst;
      eexists; reflexivity.
Defined.

End ReaderRuns.
